(** * Challenge lifecycle and integrity core of the CAPTCHA service

    A shallow embedding of [security.py], [sessions.py], [gemini_client.py],
    [captcha_generator.py] (its pure part) and [agents.py], followed by the
    properties of the signed-challenge protocol, the session store, the
    local answer judge and the two agents.

    Conventions of the embedding:
    - a Python [str] is a [string] of bytes (its UTF-8 encoding, so that
      [.encode()] is the identity). Case mapping, whitespace and digit
      classes are those of the ASCII range: [lower], [strip], [isdigit]
      and [int] are exact on ASCII strings and do not follow the Unicode
      database beyond (Python lowers "É", strips U+00A0 and reads
      Arabic-Indic digits). A property that applies them to a string
      chosen by the user or by the remote oracle assumes it ASCII;
    - a Python [int] is a [Z]; a reading of [time.time()] is a rational
      number of seconds ([Q]);
    - JSON-like values (challenges, user answers) are the type [json];
      non-integer numbers are outside the model, and so is what [int]
      does to them (it truncates towards zero);
    - the one floating-point computation of the code,
      [math.hypot(dx, dy) <= tol], is decided in exact arithmetic, with
      the [OverflowError] of the conversion to [float]. The two agree
      while the tolerance is at most [2^25] and the conversion succeeds;
      beyond, rounding can move the distance across the tolerance, and
      the properties that state a verdict of that comparison stay
      within the bound;
    - an exception is a value of [exn]; code that may raise returns
      [result A];
    - the external collaborators (remote oracle, image and audio
      renderers, random draws, clock) are explicit arguments. *)

From Stdlib Require Import ZArith QArith Qround String Ascii List Lia Bool.
From Stdlib Require Import DecimalString Decimal DecimalPos Reals Lra Lqa Setoid.
From stdpp Require Import base option gmap strings list fin_maps.

Set Warnings "-register-all".

Local Open Scope string_scope.
Local Open Scope Z_scope.

(* ===================================================================== *)
(** * Python strings *)
(* ===================================================================== *)

Module PyStr.

Definition code (c : ascii) : Z := Z.of_N (N_of_ascii c).
Definition chr (n : Z) : ascii := ascii_of_N (Z.to_N n).

Definition chars (s : string) : list ascii := list_ascii_of_string s.
Definition of_chars (l : list ascii) : string := string_of_list_ascii l.

(** [str.isspace] on one ASCII character: TAB, LF, VT, FF, CR,
    FS, GS, RS, US and SPACE. *)
Definition is_space (c : ascii) : bool :=
  let n := code c in
  ((9 <=? n) && (n <=? 13)) || ((28 <=? n) && (n <=? 32)).

Definition is_digit (c : ascii) : bool :=
  let n := code c in (48 <=? n) && (n <=? 57).

Definition is_ascii (c : ascii) : bool := code c <? 128.

(** The double quote and the backslash. *)
Definition dquote : ascii := "034"%char.
Definition backslash : ascii := "092"%char.

Definition lower_char (c : ascii) : ascii :=
  let n := code c in
  if (65 <=? n) && (n <=? 90) then chr (n + 32) else c.

(** [s.lower()] on an ASCII string; the other bytes are kept, where
    Python would map the letters of other alphabets. *)
Definition lower (s : string) : string := of_chars (map lower_char (chars s)).

Fixpoint lstrip_chars (l : list ascii) : list ascii :=
  match l with
  | c :: r => if is_space c then lstrip_chars r else l
  | [] => []
  end.

(** [s.strip()] on an ASCII string: the Unicode spaces that Python
    strips as well (U+00A0 and others) are not recognised. *)
Definition strip (s : string) : string :=
  of_chars (rev (lstrip_chars (rev (lstrip_chars (chars s))))).

(** [s.isdigit()] on an ASCII string: non-empty and made of digits.
    Python also accepts the digits of other scripts. *)
Definition isdigit (s : string) : bool :=
  match chars s with
  | [] => false
  | l => forallb is_digit l
  end.

(** [sub in s] for two strings. *)
Fixpoint contains_from (fuel : nat) (sub s : string) : bool :=
  if String.prefix sub s then true
  else match fuel, s with
       | S f, String _ r => contains_from f sub r
       | _, _ => false
       end.
Definition contains (sub s : string) : bool :=
  contains_from (String.length s) sub s.

(** [s.split(sep)] for a one-character separator. *)
Fixpoint split_chars (sep : ascii) (cur : list ascii) (l : list ascii)
  : list string :=
  match l with
  | [] => [of_chars (rev cur)]
  | c :: r =>
      if Ascii.eqb c sep then of_chars (rev cur) :: split_chars sep [] r
      else split_chars sep (c :: cur) r
  end.
Definition split (sep : ascii) (s : string) : list string :=
  split_chars sep [] (chars s).

(** [sep.join(l)] *)
Fixpoint join (sep : string) (l : list string) : string :=
  match l with
  | [] => ""
  | [x] => x
  | x :: r => x ++ sep ++ join sep r
  end.

(** [str(n)] for an [int]. *)
Definition of_Z (n : Z) : string := NilZero.string_of_int (Z.to_int n).

(** The characters Python sees in a string, each with its bytes: in
    UTF-8 a byte from 128 to 191 continues the character begun before
    it. *)
Definition is_continuation (c : ascii) : bool :=
  let n := code c in (128 <=? n) && (n <? 192).

Fixpoint code_points_from (cur : list ascii) (l : list ascii) : list string :=
  match l with
  | [] => match cur with [] => [] | _ => [of_chars (rev cur)] end
  | c :: r =>
      if is_continuation c then code_points_from (c :: cur) r
      else match cur with
           | [] => code_points_from [c] r
           | _ => of_chars (rev cur) :: code_points_from [c] r
           end
  end.
Definition code_points (s : string) : list string :=
  code_points_from [] (chars s).

(** Value of a string of ASCII digits. *)
Definition digits_value (l : list ascii) : Z :=
  fold_left (fun acc c => 10 * acc + (code c - 48)) l 0.

End PyStr.

(* ===================================================================== *)
(** * SHA-256 and HMAC ([hashlib.sha256], [hmac.new(...).hexdigest()]) *)
(* ===================================================================== *)

Module Sha256.

Definition w32 (x : Z) : Z := Z.land x 0xffffffff.
Definition add32 (x y : Z) : Z := w32 (x + y).
Definition rotr (n x : Z) : Z :=
  Z.lor (Z.shiftr x n) (w32 (Z.shiftl x (32 - n))).
Definition shr (n x : Z) : Z := Z.shiftr x n.
Definition not32 (x : Z) : Z := Z.lxor x 0xffffffff.

Definition Ch (x y z : Z) : Z := Z.lxor (Z.land x y) (Z.land (not32 x) z).
Definition Maj (x y z : Z) : Z :=
  Z.lxor (Z.lxor (Z.land x y) (Z.land x z)) (Z.land y z).
Definition Sigma0 (x : Z) : Z :=
  Z.lxor (Z.lxor (rotr 2 x) (rotr 13 x)) (rotr 22 x).
Definition Sigma1 (x : Z) : Z :=
  Z.lxor (Z.lxor (rotr 6 x) (rotr 11 x)) (rotr 25 x).
Definition sigma0 (x : Z) : Z :=
  Z.lxor (Z.lxor (rotr 7 x) (rotr 18 x)) (shr 3 x).
Definition sigma1 (x : Z) : Z :=
  Z.lxor (Z.lxor (rotr 17 x) (rotr 19 x)) (shr 10 x).

(** The first 64 primes. *)
Definition primes : list Z :=
  [2; 3; 5; 7; 11; 13; 17; 19; 23; 29; 31; 37; 41; 43; 47; 53; 59; 61; 67;
   71; 73; 79; 83; 89; 97; 101; 103; 107; 109; 113; 127; 131; 137; 139; 149;
   151; 157; 163; 167; 173; 179; 181; 191; 193; 197; 199; 211; 223; 227; 229;
   233; 239; 241; 251; 257; 263; 269; 271; 277; 281; 283; 293; 307; 311].

(** Integer cube root, one bit at a time from bit [n - 1] down. *)
Fixpoint cube_root (n : nat) (x r : Z) : Z :=
  match n with
  | O => r
  | S m =>
      let c := r + Z.shiftl 1 (Z.of_nat m) in
      if c * c * c <=? x then cube_root m x c else cube_root m x r
  end.

(** The round constants: the first 32 bits of the fractional parts of
    the cube roots of the first 64 primes. *)
Definition K : list Z :=
  Eval vm_compute in
    map (fun p => w32 (cube_root 40 (Z.shiftl p 96) 0)) primes.

(** The initial hash value: the first 32 bits of the fractional parts of
    the square roots of the first 8 primes. *)
Definition H0 : list Z :=
  Eval vm_compute in
    map (fun p => w32 (Z.sqrt (Z.shiftl p 64))) (firstn 8 primes).

(** Big-endian encoding of [x] on [n] bytes. *)
Fixpoint be_bytes (n : nat) (x : Z) : list Z :=
  match n with
  | O => []
  | S m => Z.land (Z.shiftr x (8 * Z.of_nat m)) 0xff :: be_bytes m x
  end.

(** Padding: a 1 bit, zeros up to 56 modulo 64, the bit length on 8 bytes. *)
Definition pad (msg : list Z) : list Z :=
  let len := Z.of_nat (List.length msg) in
  let zeros := Z.to_nat ((55 - len) mod 64) in
  msg ++ 0x80 :: repeat 0 zeros ++ be_bytes 8 (8 * len).

Fixpoint words_of_bytes (fuel : nat) (l : list Z) : list Z :=
  match fuel, l with
  | S f, a :: b :: c :: d :: r =>
      (Z.shiftl a 24 + Z.shiftl b 16 + Z.shiftl c 8 + d)
        :: words_of_bytes f r
  | _, _ => []
  end.

(** The message schedule, most recent word first while it is built. *)
Fixpoint extend (n : nat) (rev_w : list Z) : list Z :=
  match n with
  | O => rev_w
  | S m =>
      let w := add32 (add32 (sigma1 (nth 1 rev_w 0)) (nth 6 rev_w 0))
                     (add32 (sigma0 (nth 14 rev_w 0)) (nth 15 rev_w 0)) in
      extend m (w :: rev_w)
  end.
Definition schedule (block : list Z) : list Z :=
  rev (extend 48 (rev block)).

Record regs := Regs { ra : Z; rb : Z; rc : Z; rd : Z;
                      re : Z; rf : Z; rg : Z; rh : Z }.

Definition round (s : regs) (kw : Z * Z) : regs :=
  let t1 := add32 (add32 (add32 (rh s) (Sigma1 (re s)))
                         (add32 (Ch (re s) (rf s) (rg s)) (fst kw)))
                  (snd kw) in
  let t2 := add32 (Sigma0 (ra s)) (Maj (ra s) (rb s) (rc s)) in
  Regs (add32 t1 t2) (ra s) (rb s) (rc s) (add32 (rd s) t1) (re s) (rf s) (rg s).

Definition regs_of (h : list Z) : regs :=
  Regs (nth 0 h 0) (nth 1 h 0) (nth 2 h 0) (nth 3 h 0)
       (nth 4 h 0) (nth 5 h 0) (nth 6 h 0) (nth 7 h 0).
Definition list_of (s : regs) : list Z :=
  [ra s; rb s; rc s; rd s; re s; rf s; rg s; rh s].

Definition compress (h : list Z) (block : list Z) : list Z :=
  let s := fold_left round (combine K (schedule block)) (regs_of h) in
  map (fun p => add32 (fst p) (snd p)) (combine h (list_of s)).

Fixpoint blocks (fuel : nat) (ws : list Z) : list (list Z) :=
  match fuel, ws with
  | _, [] => []
  | O, _ => []
  | S f, _ => firstn 16 ws :: blocks f (skipn 16 ws)
  end.

(** The 32-byte digest of a byte sequence. *)
Definition digest (msg : list Z) : list Z :=
  let p := pad msg in
  let ws := words_of_bytes (List.length p) p in
  let h := fold_left compress (blocks (List.length ws) ws) H0 in
  flat_map (be_bytes 4) h.

Definition hex_digit (n : Z) : ascii :=
  nth (Z.to_nat n) (PyStr.chars "0123456789abcdef") "0"%char.
Definition hex_byte (b : Z) : list ascii :=
  [hex_digit (Z.shiftr b 4); hex_digit (Z.land b 0xf)].
Definition hex (bytes : list Z) : string :=
  PyStr.of_chars (flat_map hex_byte bytes).

Definition bytes_of (s : string) : list Z := map PyStr.code (PyStr.chars s).

(** [hmac.new(key, msg, hashlib.sha256).hexdigest()] (RFC 2104, block
    size 64). *)
Definition hmac_hex (key msg : string) : string :=
  let k := bytes_of key in
  let k := if (64 <? Z.of_nat (List.length k)) then digest k else k in
  let k := (k ++ repeat 0 (64 - List.length k)%nat)%list in
  let inner := digest (map (Z.lxor 0x36) k ++ bytes_of msg)%list in
  hex (digest (map (Z.lxor 0x5c) k ++ inner)%list).

End Sha256.

(* ===================================================================== *)
(** * Exceptions *)
(* ===================================================================== *)

(** The exception classes the modelled code can meet; all of them derive
    from [Exception], so an [except Exception] clause catches each one.
    The messages of built-in exceptions follow CPython 3; no property
    below depends on their wording. *)
Inductive exn : Type :=
| TypeError (msg : string)
| ValueError (msg : string)
| AttributeError (msg : string)
| RuntimeError (msg : string)
| OverflowError (msg : string)
| Exception (msg : string).

(** [str(e)] *)
Definition exn_str (e : exn) : string :=
  match e with
  | TypeError m | ValueError m | AttributeError m
  | RuntimeError m | OverflowError m | Exception m => m
  end.

Inductive result (A : Type) : Type :=
| Ok (a : A)
| Raise (e : exn).
Arguments Ok {A} a.
Arguments Raise {A} e.

Definition bind {A B} (r : result A) (k : A -> result B) : result B :=
  match r with
  | Ok a => k a
  | Raise e => Raise e
  end.

Notation "'try!' x := r 'in' k" := (bind r (fun x => k))
  (at level 10, x name, r at level 100, k at level 200,
   format "'[v' 'try!'  x  :=  r  'in' '/' k ']'").

(** [try: body except Exception as e: handler(e)] *)
Definition try_except {A} (body : result A) (handler : exn -> result A)
  : result A :=
  match body with
  | Ok a => Ok a
  | Raise e => handler e
  end.

(* ===================================================================== *)
(** * JSON-like Python values *)
(* ===================================================================== *)

Inductive json : Type :=
| JNull
| JBool (b : bool)
| JInt (n : Z)
| JStr (s : string)
| JList (l : list json)
| JDict (d : list (string * json)).

Module Py.

(** Dictionaries keep insertion order; a key occurs once. *)
Fixpoint dict_get (k : string) (d : list (string * json)) : option json :=
  match d with
  | [] => None
  | (k', v) :: r => if String.eqb k k' then Some v else dict_get k r
  end.

(** [d[k] = v] *)
Fixpoint dict_set (k : string) (v : json) (d : list (string * json))
  : list (string * json) :=
  match d with
  | [] => [(k, v)]
  | (k', v') :: r =>
      if String.eqb k k' then (k, v) :: r else (k', v') :: dict_set k v r
  end.

Definition dict_has (k : string) (d : list (string * json)) : bool :=
  match dict_get k d with Some _ => true | None => false end.

(** [type(v).__name__] *)
Definition type_name (v : json) : string :=
  match v with
  | JNull => "NoneType"
  | JBool _ => "bool"
  | JInt _ => "int"
  | JStr _ => "str"
  | JList _ => "list"
  | JDict _ => "dict"
  end.

(** [a == b]: [bool] is a subtype of [int]; lists compare element by
    element, dictionaries by key, whatever the insertion order. *)
Fixpoint eq (a b : json) {struct a} : bool :=
  match a, b with
  | JNull, JNull => true
  | JBool x, JBool y => Bool.eqb x y
  | JBool x, JInt n => Z.b2z x =? n
  | JInt n, JBool x => n =? Z.b2z x
  | JInt m, JInt n => m =? n
  | JStr s, JStr t => String.eqb s t
  | JList l, JList r =>
      (fix go (l r : list json) {struct l} : bool :=
         match l, r with
         | [], [] => true
         | x :: l', y :: r' => eq x y && go l' r'
         | _, _ => false
         end) l r
  | JDict d, JDict e =>
      (List.length d =? List.length e)%nat &&
      (fix go (d : list (string * json)) {struct d} : bool :=
         match d with
         | [] => true
         | (k, v) :: d' =>
             match dict_get k e with
             | Some w => eq v w
             | None => false
             end && go d'
         end) d
  | _, _ => false
  end.

(** [bool(v)] *)
Definition truthy (v : json) : bool :=
  match v with
  | JNull => false
  | JBool b => b
  | JInt n => negb (n =? 0)
  | JStr s => negb (String.eqb s "")
  | JList l => match l with [] => false | _ => true end
  | JDict d => match d with [] => false | _ => true end
  end.

(** [x in l] for a list [l]. *)
Definition list_mem (x : json) (l : list json) : bool := existsb (eq x) l.

(** The hexadecimal digits of a natural number, the most significant
    first; [fuel] bounds their number. *)
Fixpoint hex_digits (fuel : nat) (n : Z) (acc : list ascii) : list ascii :=
  let acc := Sha256.hex_digit (Z.land n 0xf) :: acc in
  match fuel with
  | O => acc
  | S fuel => if n <? 16 then acc else hex_digits fuel (Z.shiftr n 4) acc
  end.

(** ['{:02x}'.format(n)]: the digits of [|n|], a sign before them when
    [n] is negative, and a zero in front when that makes fewer than two
    characters. *)
Definition hex2 (n : Z) : string :=
  let digits := hex_digits (Z.to_nat (Z.log2 (Z.abs n))) (Z.abs n) [] in
  let signed := if n <? 0 then "-"%char :: digits else digits in
  PyStr.of_chars (if (List.length signed <? 2)%nat
                  then "0"%char :: signed else signed).

(** One character of [repr(s)], for the quote character [q]. *)
Definition repr_char (q : ascii) (c : ascii) : string :=
  let n := PyStr.code c in
  if Ascii.eqb c q then String PyStr.backslash (String q "")
  else if n =? 92 then "\\"
  else if n =? 9 then "\t"
  else if n =? 10 then "\n"
  else if n =? 13 then "\r"
  else if (n <? 32) || (n =? 127) then "\x" ++ hex2 n
  else String c "".

(** [repr(s)] for a string: single quotes, unless the string holds a
    single quote and no double quote. *)
Definition repr_str (s : string) : string :=
  let cs := PyStr.chars s in
  let q : ascii :=
    if existsb (Ascii.eqb "'") cs && negb (existsb (Ascii.eqb PyStr.dquote) cs)
    then PyStr.dquote else "'"%char in
  String q (String.concat "" (map (repr_char q) cs) ++ String q "").

(** [repr(v)] *)
Fixpoint repr (v : json) : string :=
  match v with
  | JNull => "None"
  | JBool true => "True"
  | JBool false => "False"
  | JInt n => PyStr.of_Z n
  | JStr s => repr_str s
  | JList l => "[" ++ PyStr.join ", " (map repr l) ++ "]"
  | JDict d =>
      "{" ++ PyStr.join ", "
               (map (fun kv => repr_str (fst kv) ++ ": " ++ repr (snd kv)) d)
          ++ "}"
  end.

(** [str(v)], also what an f-string field prints. *)
Definition str (v : json) : string :=
  match v with
  | JStr s => s
  | _ => repr v
  end.

(** Underscores of an integer literal: single, between two digits. *)
Fixpoint int_digits (prev_digit : bool) (l : list ascii)
  : option (list ascii) :=
  match l with
  | [] => if prev_digit then Some [] else None
  | c :: r =>
      if PyStr.is_digit c then option_map (cons c) (int_digits true r)
      else if Ascii.eqb c "_" && prev_digit then
        match r with
        | d :: _ => if PyStr.is_digit d then int_digits false r else None
        | [] => None
        end
      else None
  end.

(** The longest decimal numeral [int] converts
    ([sys.get_int_max_str_digits()], CPython 3.11 and the security
    releases before it). *)
Definition max_str_digits : nat := 4300.

(** [int(s)] for a string, in base 10: surrounding whitespace, an
    optional sign, ASCII digits with single underscores between them,
    no more than [max_str_digits] of them. *)
Definition int_of_string (s : string) : result Z :=
  let bad :=
    Raise (ValueError
             ("invalid literal for int() with base 10: " ++ repr_str s)) in
  let body (sign : Z) (l : list ascii) : result Z :=
    match int_digits false l with
    | Some ds =>
        if (max_str_digits <? List.length ds)%nat then
          Raise (ValueError
                   ("Exceeds the limit (4300 digits) for integer string "
                    ++ "conversion: value has "
                    ++ PyStr.of_Z (Z.of_nat (List.length ds))
                    ++ " digits; use sys.set_int_max_str_digits() "
                    ++ "to increase the limit"))
        else Ok (sign * PyStr.digits_value ds)
    | None => bad
    end in
  match PyStr.chars (PyStr.strip s) with
  | c :: r =>
      if Ascii.eqb c "-" then body (-1) r
      else if Ascii.eqb c "+" then body 1 r
      else body 1 (c :: r)
  | [] => bad
  end.

(** [int(v)] *)
Definition int (v : json) : result Z :=
  match v with
  | JInt n => Ok n
  | JBool b => Ok (Z.b2z b)
  | JStr s => int_of_string s
  | _ =>
      Raise (TypeError
               ("int() argument must be a string, a bytes-like object or "
                ++ "a real number, not '" ++ type_name v ++ "'"))
  end.

(** [v.get(k, default)]: only a [dict] has the method. *)
Definition get (v : json) (k : string) (default : json) : result json :=
  match v with
  | JDict d => Ok (match dict_get k d with Some x => x | None => default end)
  | _ =>
      Raise (AttributeError
               ("'" ++ type_name v ++ "' object has no attribute 'get'"))
  end.

(** [k in v] for a string [k]: key of a dict, element of a list,
    substring of a string. *)
Definition contains (k : string) (v : json) : result bool :=
  match v with
  | JDict d => Ok (dict_has k d)
  | JList l => Ok (list_mem (JStr k) l)
  | JStr s => Ok (PyStr.contains k s)
  | _ =>
      Raise (TypeError
               ("argument of type '" ++ type_name v ++ "' is not iterable"))
  end.

(** [hash(v)] succeeds on the immutable values. *)
Definition hashable (v : json) : bool :=
  match v with
  | JList _ | JDict _ => false
  | _ => true
  end.

End Py.

(* ===================================================================== *)
(** * [json.dumps(v, sort_keys=True, ensure_ascii=False)] *)
(* ===================================================================== *)

Module Json.

Definition escape_char (c : ascii) : string :=
  let n := PyStr.code c in
  if n =? 34 then String PyStr.backslash (String PyStr.dquote "")
  else if n =? 92 then "\\"
  else if n =? 10 then "\n"
  else if n =? 13 then "\r"
  else if n =? 9 then "\t"
  else if n =? 8 then "\b"
  else if n =? 12 then "\f"
  else if n <? 32 then "\u00" ++ Py.hex2 n
  else String c "".

Definition quote (s : string) : string :=
  String PyStr.dquote
         (String.concat "" (map escape_char (PyStr.chars s))
          ++ String PyStr.dquote "").

(** Items sorted by key ([sorted(dct.items())]). *)
Fixpoint insert_item {A} (kv : string * A) (l : list (string * A))
  : list (string * A) :=
  match l with
  | [] => [kv]
  | kv' :: r =>
      if String.leb (fst kv) (fst kv') then kv :: l
      else kv' :: insert_item kv r
  end.
Definition sort_items {A} (l : list (string * A)) : list (string * A) :=
  fold_right insert_item [] l.

Fixpoint dumps (v : json) : string :=
  match v with
  | JNull => "null"
  | JBool true => "true"
  | JBool false => "false"
  | JInt n => PyStr.of_Z n
  | JStr s => quote s
  | JList l => "[" ++ PyStr.join ", " (map dumps l) ++ "]"
  | JDict d =>
      "{" ++ PyStr.join ", "
               (map (fun kv => quote (fst kv) ++ ": " ++ snd kv)
                    (sort_items (map (fun kv => (fst kv, dumps (snd kv))) d)))
          ++ "}"
  end.

End Json.

(* ===================================================================== *)
(** * Clock readings *)
(* ===================================================================== *)

Module Clock.

(** [a < b] on readings of [time.time()]. *)
Definition ltb (a b : Q) : bool := negb (Qle_bool b a).

(** [int(t)]: truncation towards zero. *)
Definition to_int (t : Q) : Z :=
  if Qle_bool 0 t then Qfloor t else Qceiling t.

(** [int(t // n)]: floor division. *)
Definition floordiv (t : Q) (n : Z) : Z := Qfloor (t / inject_Z n).

End Clock.

(* ===================================================================== *)
(** * security.py *)
(* ===================================================================== *)

Module Security.
Section WithSecret.

(** [HMAC_SECRET = os.getenv("CAPTCHA_HMAC_SECRET")]; the module refuses
    to load when it is unset or empty. *)
Variable HMAC_SECRET : string.

Definition WINDOW_SECONDS : Z := 300.

Definition message (session_id payload_str : string) (ts : Z) : string :=
  session_id ++ "|" ++ payload_str ++ "|" ++ PyStr.of_Z ts.

Definition sign_payload (now : Q) (session_id payload_str : string)
  : string :=
  let ts := Clock.floordiv now WINDOW_SECONDS in
  Sha256.hmac_hex HMAC_SECRET (message session_id payload_str ts).

(** [hmac.compare_digest] on two [str]: both must be ASCII. *)
Definition compare_digest (a b : string) : result bool :=
  if forallb PyStr.is_ascii (PyStr.chars a)
     && forallb PyStr.is_ascii (PyStr.chars b)
  then Ok (String.eqb a b)
  else Raise (TypeError
                "comparing strings with non-ASCII characters is not supported").

Fixpoint verify_offsets (ts_now : Z) (session_id payload_str signature : string)
         (offsets : list Z) : result bool :=
  match offsets with
  | [] => Ok false
  | offset :: rest =>
      let expected :=
        Sha256.hmac_hex HMAC_SECRET
          (message session_id payload_str (ts_now + offset)) in
      try! b := compare_digest expected signature in
      if b then Ok true
      else verify_offsets ts_now session_id payload_str signature rest
  end.

Definition verify_signature (now : Q) (session_id payload_str signature : string)
  : result bool :=
  let ts_now := Clock.floordiv now WINDOW_SECONDS in
  verify_offsets ts_now session_id payload_str signature [0; -1].

End WithSecret.
End Security.

(* ===================================================================== *)
(** * sessions.py *)
(* ===================================================================== *)

Module Sessions.

(** The value stored under ["captcha"]. *)
Record Captcha : Type := {
  challenge : json;
  signature : string;
  captcha_created : Q
}.

(** One entry of [self.sessions]. *)
Record Session : Type := {
  created : Q;
  captcha : option Captcha;
  attempts : Z;
  last_attempt : Q;
  generation_count : Z
}.

(** The [data] argument of [update]: the keys it carries. *)
Record Update : Type := {
  set_captcha : option (option Captcha);
  set_attempts : option Z;
  set_last_attempt : option Q;
  set_generation_count : option Z
}.

Record InMemorySession : Type := {
  sessions : gmap string Session;
  last_cleanup : Q
}.

Definition SESSION_TTL : Q := 3600.
Definition CLEANUP_EVERY : Q := 300.

Definition expired (now : Q) (s : Session) : bool :=
  Clock.ltb SESSION_TTL (now - created s).

Definition fresh (now : Q) : Session :=
  {| created := now; captcha := None; attempts := 0;
     last_attempt := 0; generation_count := 0 |}.

(** [dict.update(data)] on a session. *)
Definition merge (s : Session) (data : Update) : Session :=
  {| created := created s;
     captcha := default (captcha s) (set_captcha data);
     attempts := default (attempts s) (set_attempts data);
     last_attempt := default (last_attempt s) (set_last_attempt data);
     generation_count :=
       default (generation_count s) (set_generation_count data) |}.

Definition _cleanup (now : Q) (st : InMemorySession) : InMemorySession :=
  if Clock.ltb CLEANUP_EVERY (now - last_cleanup st) then
    {| sessions :=
         filter (fun kv : string * Session => expired now (snd kv) = false)
                (sessions st);
       last_cleanup := now |}
  else st.

(** [create]: [sid] is the identifier drawn by [uuid.uuid4().hex[:12]]. *)
Definition create (now : Q) (sid : string) (st : InMemorySession)
  : string * InMemorySession :=
  let st' := {| sessions := <[sid := fresh now]> (sessions st);
                last_cleanup := last_cleanup st |} in
  (sid, _cleanup now st').

Definition get (now : Q) (sid : string) (st : InMemorySession)
  : option Session * InMemorySession :=
  match sessions st !! sid with
  | None => (None, st)
  | Some s =>
      if expired now s then
        (None, {| sessions := delete sid (sessions st);
                  last_cleanup := last_cleanup st |})
      else (Some s, st)
  end.

Definition update (now : Q) (sid : string) (data : Update)
           (st : InMemorySession) : InMemorySession :=
  match sessions st !! sid with
  | Some s =>
      _cleanup now {| sessions := <[sid := merge s data]> (sessions st);
                      last_cleanup := last_cleanup st |}
  | None => st
  end.

End Sessions.

(* ===================================================================== *)
(** * gemini_client.py *)
(* ===================================================================== *)

(** A value of a verdict or of a reply to the client: a JSON-like value,
    or the dictionary [{"distance": math.hypot(dx, dy)}], whose float is
    kept as the two integers it is computed from. *)
Inductive pyval : Type :=
| PJson (v : json)
| PDistance (dx dy : Z).

Definition pdict : Type := list (string * pyval).

Module PDict.

Fixpoint lookup (k : string) (d : pdict) : option pyval :=
  match d with
  | [] => None
  | (k', v) :: r => if String.eqb k k' then Some v else lookup k r
  end.

(** [d.get(k)] *)
Definition get (d : pdict) (k : string) : pyval :=
  match lookup k d with Some v => v | None => PJson JNull end.

(** [d.get(k, default)] *)
Definition get_or (d : pdict) (k : string) (default : pyval) : pyval :=
  match lookup k d with Some v => v | None => default end.

Definition truthy (v : pyval) : bool :=
  match v with
  | PJson j => Py.truthy j
  | PDistance _ _ => true
  end.

(** [a or b] *)
Definition or_else (a b : pyval) : pyval := if truthy a then a else b.

End PDict.

(** What the remote endpoint contributed to a call: nothing when the
    endpoint or the key is not configured; a failure when the request or
    both attempts at [json.loads] raised; otherwise the decoded value. *)
Inductive remote_reply : Type :=
| NotConfigured
| RemoteFailed
| Replied (data : json).

Module GeminiClient.

(** ** Random draws of the local generator *)

(** The draws of one call of [_rand_word]: [rnd.randint(3, max_len)], the
    successive [rnd.choice(syllables)], and the number appended when
    [rnd.random() < 0.25]. *)
Record WordDraw : Type := {
  target : nat;
  picks : list string;
  digits : option Z
}.

Definition syllables : list string :=
  ["sol"; "ra"; "pix"; "tor"; "len"; "mar"; "kai"; "zen"; "net"; "mono";
   "tri"; "qua"].

(** [while len("".join(w)) < target: w.append(rnd.choice(syllables))];
    the loop consumes the drawn syllables in order. *)
Fixpoint pick_syllables (target : nat) (joined : string) (picks : list string)
  : string :=
  if (String.length joined <? target)%nat then
    match picks with
    | p :: rest => pick_syllables target (joined ++ p) rest
    | [] => joined
    end
  else joined.

Definition _rand_word (d : WordDraw) : string :=
  let s := String.substring 0 (target d) (pick_syllables (target d) "" (picks d)) in
  match digits d with
  | Some n => s ++ PyStr.of_Z n
  | None => s
  end.

Definition common : list (string * (Z * Z * Z)) :=
  [ ("red", (255, 0, 0)); ("green", (0, 255, 0)); ("blue", (0, 0, 255));
    ("yellow", (255, 255, 0)); ("orange", (255, 165, 0));
    ("purple", (128, 0, 128)); ("pink", (255, 192, 203));
    ("black", (0, 0, 0)); ("white", (255, 255, 255));
    ("gray", (128, 128, 128)); ("brown", (165, 42, 42));
    ("cyan", (0, 255, 255)) ].

Definition sq_dist (c rgb : Z * Z * Z) : Z :=
  let '(c1, c2, c3) := c in
  let '(r1, r2, r3) := rgb in
  (c1 - r1) * (c1 - r1) + (c2 - r2) * (c2 - r2) + (c3 - r3) * (c3 - r3).

(** The distances are compared through their squares; [bestd < 150]
    reads [bestd * bestd < 22500]. *)
Definition _nearest_color_name (rgb : Z * Z * Z) : string :=
  let step (acc : option (Z * string)) (entry : string * (Z * Z * Z)) :=
    let d := sq_dist (snd entry) rgb in
    match acc with
    | None => Some (d, fst entry)
    | Some (bestd, best) =>
        if d <? bestd then Some (d, fst entry) else acc
    end in
  match fold_left step common None with
  | Some (bestd, best) =>
      if bestd <? 150 * 150 then best
      else let '(r, g, b) := rgb in
           "#" ++ Py.hex2 r ++ Py.hex2 g ++ Py.hex2 b
  | None =>
      let '(r, g, b) := rgb in "#" ++ Py.hex2 r ++ Py.hex2 g ++ Py.hex2 b
  end.

(** Everything [_local_generate_random_challenge] draws: the type
    ([rnd.choice] among the six), the identifier ([_rand_id()]) and
    the draws of each branch. *)
Record Draws : Type := {
  ctype_draw : string;
  cid : string;
  word : WordDraw;
  (* math *)
  a_draw : Z;
  b_draw : Z;
  op_draw : string;
  (* pattern: the shuffled pool, [count], the sampled indices *)
  pool : list string;
  count : nat;
  seq_draw : list Z;
  (* image and audio: whether [rnd.random()] fell under the threshold *)
  coin : bool;
  x_draw : Z;
  y_draw : Z;
  tol_draw : Z;
  nums : list Z;
  (* color *)
  color : Z * Z * Z
}.

Definition jstr_dict (l : list (string * string)) : json :=
  JDict (map (fun kv => (fst kv, JStr (snd kv))) l).

Definition challenge_of (cid ctype instructions : string)
           (ui_data solution : json) : json :=
  JDict [ ("captcha_id", JStr cid);
          ("captcha_type", JStr ctype);
          ("instructions", JStr instructions);
          ("ui_data", ui_data);
          ("solution", solution);
          ("metadata", JDict [ ("generated_by", JStr "local_fallback");
                               ("seed", JNull) ]) ].

Definition _local_generate_random_challenge (d : Draws) : json :=
  let ctype := ctype_draw d in
  if String.eqb ctype "text" then
    let word := _rand_word (word d) in
    challenge_of (cid d) ctype "Type the word shown (case-insensitive)."
      (jstr_dict [ ("question", "Type the word '" ++ word ++ "'");
                   ("hint", "case-insensitive") ])
      (JDict [ ("value", JStr word) ])
  else if String.eqb ctype "math" then
    let a := a_draw d in
    let b := b_draw d in
    let op := op_draw d in
    let val := if String.eqb op "+" then a + b
               else if String.eqb op "-" then a - b
               else a * b in
    challenge_of (cid d) ctype
      "Solve the arithmetic expression and type the result."
      (jstr_dict [ ("question",
                    "What is " ++ PyStr.of_Z a ++ " " ++ op ++ " "
                               ++ PyStr.of_Z b ++ " ?") ])
      (JDict [ ("value", JStr (PyStr.of_Z val)) ])
  else if String.eqb ctype "pattern" then
    let shapes := firstn (count d) (pool d) in
    challenge_of (cid d) ctype "Click the shapes in the required order."
      (JDict [ ("shapes", JList (map JStr shapes)) ])
      (JDict [ ("sequence", JList (map JInt (seq_draw d))) ])
  else if String.eqb ctype "image" then
    let word := _rand_word (word d) in
    if coin d then
      let x := x_draw d in
      let y := y_draw d in
      let tol := tol_draw d in
      let desc :=
        "Render a noisy background with the word '" ++ word
        ++ "' prominently. Also include a small subtle ring near coordinates approx "
        ++ PyStr.of_Z x ++ "," ++ PyStr.of_Z y
        ++ " (for a click-point target)." in
      challenge_of (cid d) ctype "Click the indicated target in the image."
        (jstr_dict [ ("description", desc);
                     ("hint", "Click the small ring or target in the image.") ])
        (JDict [ ("x", JInt x); ("y", JInt y); ("tolerance", JInt tol) ])
    else
      let desc :=
        "Render a noisy image containing the word '" ++ word
        ++ "' with rotated letters and background random shapes." in
      challenge_of (cid d) ctype
        "Type the word shown in the image (case-insensitive)."
        (jstr_dict [ ("description", desc);
                     ("hint", "Type the word you can read") ])
        (JDict [ ("value", JStr word) ])
  else if String.eqb ctype "audio" then
    if coin d then
      let word := _rand_word (word d) in
      challenge_of (cid d) ctype "Listen to the audio and type what you hear."
        (jstr_dict [ ("text", "Please type the word " ++ word);
                     ("hint", "case-insensitive") ])
        (JDict [ ("value", JStr word) ])
    else
      let seq := PyStr.join " " (map PyStr.of_Z (nums d)) in
      challenge_of (cid d) ctype "Listen and type the numbers spoken."
        (jstr_dict [ ("text", "Type the numbers: " ++ seq);
                     ("hint", "digits separated by space") ])
        (JDict [ ("value", JStr seq) ])
  else if String.eqb ctype "color" then
    let '(r, g, b) := color d in
    let cname := _nearest_color_name (color d) in
    challenge_of (cid d) ctype "Type the name (or hex) of the color shown."
      (JDict [ ("color_rgb", JList [JInt r; JInt g; JInt b]);
               ("hint",
                JStr "Common names or hex are accepted (case-insensitive).") ])
      (JDict [ ("value", JStr cname) ])
  else
    let word := _rand_word (word d) in
    challenge_of (cid d) "text" ("Type the word '" ++ word ++ "'")
      (jstr_dict [ ("question", "Type the word '" ++ word ++ "'") ])
      (JDict [ ("value", JStr word) ]).

(** [data[k] = v] *)
Definition setitem (data : json) (k : string) (v : json) : result json :=
  match data with
  | JDict d => Ok (JDict (Py.dict_set k v d))
  | JList _ =>
      Raise (TypeError "list indices must be integers or slices, not str")
  | _ =>
      Raise (TypeError ("'" ++ Py.type_name data
                        ++ "' object does not support item assignment"))
  end.

(** [remote_cid] is the identifier [_rand_id()] yields when the remote
    reply has none. *)
Definition decide_and_create_challenge
           (remote : remote_reply) (remote_cid : string) (d : Draws) : json :=
  let local := _local_generate_random_challenge d in
  match remote with
  | Replied data =>
      let body :=
        try! has_id := Py.contains "captcha_id" data in
        try! data := (if has_id then Ok data
                      else setitem data "captcha_id" (JStr remote_cid)) in
        try! has_type := Py.contains "captcha_type" data in
        if has_type then Ok data
        else setitem data "captcha_type" (JStr "text") in
      match body with
      | Ok data => data
      | Raise _ => local
      end
  | _ => local
  end.

(** ** Judging an answer *)

Definition verdict (ok correct : bool) (explanation : string)
           (rest : pdict) : pdict :=
  ("ok", PJson (JBool ok)) :: ("correct", PJson (JBool correct))
    :: ("explanation", PJson (JStr explanation)) :: rest.

(** [str(sol.get("value", "")).strip().lower() == str(user_answer).strip().lower()] *)
Definition word_compare (sol user_answer : json) (explanation : string)
  : result pdict :=
  try! value := Py.get sol "value" (JStr "") in
  let expected := PyStr.lower (PyStr.strip (Py.str value)) in
  let provided := PyStr.lower (PyStr.strip (Py.str user_answer)) in
  Ok (verdict true (String.eqb expected provided) explanation
        [("normalized_answer", PJson (JStr provided))]).

(** [[int(x.strip()) for x in parts if x.strip().isdigit()]] *)
Fixpoint parse_indices (parts : list string) : result (list json) :=
  match parts with
  | [] => Ok []
  | x :: rest =>
      if PyStr.isdigit (PyStr.strip x) then
        try! n := Py.int_of_string (PyStr.strip x) in
        try! ns := parse_indices rest in
        Ok (JInt n :: ns)
      else parse_indices rest
  end.

(** The magnitude from which an [int] no longer converts to [float]:
    half a unit in the last place above the largest double. *)
Definition float_limit : Z := 2 ^ 1024 - 2 ^ 970.

(** The conversion of an [int] argument of [math.hypot] to [float], as
    far as it can fail; the value is kept exact. *)
Definition to_float (n : Z) : result Z :=
  if float_limit <=? Z.abs n then
    Raise (OverflowError "int too large to convert to float")
  else Ok n.

(** The tolerance up to which [hypot_le] is the comparison of the
    code. *)
Definition exact_tolerance : Z := 2 ^ 25.

(** [math.hypot(dx, dy) <= tol], decided in exact arithmetic. For a
    tolerance of at most [exact_tolerance] this is the comparison of
    the code, whose distance is a double within one unit in the last
    place of the exact one: two integers [dx*dx + dy*dy] and [tol*tol]
    that differ are then too far apart for the rounding to reorder
    their roots. For a larger tolerance the code can answer otherwise
    (near [2^27] the double nearest to the distance can be the
    tolerance itself). *)
Definition hypot_le (dx dy tol : Z) : bool :=
  (0 <=? tol) && (dx * dx + dy * dy <=? tol * tol).

(** The body of the inner [try] block of the image branch. *)
Definition image_point_body (sol user_answer : json) : result pdict :=
  try! jx := Py.get sol "x" JNull in
  try! tx := Py.int jx in
  try! jy := Py.get sol "y" JNull in
  try! ty := Py.int jy in
  try! jtol := Py.get sol "tolerance" (JInt 18) in
  try! tol := Py.int jtol in
  let finish (ux uy : Z) : result pdict :=
    try! dx := to_float (ux - tx) in
    try! dy := to_float (uy - ty) in
    Ok (verdict true (hypot_le dx dy tol) "fallback-point"
          [("normalized_answer", PDistance dx dy)]) in
  match user_answer with
  | JDict _ =>
      try! jux := Py.get user_answer "x" (JInt (-9999)) in
      try! ux := Py.int jux in
      try! juy := Py.get user_answer "y" (JInt (-9999)) in
      try! uy := Py.int juy in
      finish ux uy
  | JList (e0 :: e1 :: _) =>
      try! ux := Py.int e0 in
      try! uy := Py.int e1 in
      finish ux uy
  | _ => Ok (verdict true false "fallback-bad-input-for-image" [])
  end.

Definition image_point (sol user_answer : json) : result pdict :=
  try_except
    (image_point_body sol user_answer)
    (fun ex =>
       Ok (verdict false false "fallback-exception-image"
             [("error", PJson (JStr (exn_str ex)))])).

(** The body of the [try] block of the local heuristics. *)
Definition local_heuristics (stored_challenge user_answer : json)
  : result pdict :=
  try! ctype := Py.get stored_challenge "captcha_type" JNull in
  try! sol := Py.get stored_challenge "solution" (JDict []) in
  if Py.list_mem ctype [JStr "text"; JStr "math"; JStr "audio"] then
    word_compare sol user_answer "fallback-exact-compare"
  else if Py.eq ctype (JStr "pattern") then
    try! sequence := Py.get sol "sequence" JNull in
    try! expected_seq := (if Py.truthy sequence then Ok sequence
                          else Py.get sol "value" JNull) in
    try! user_seq :=
      match user_answer with
      | JStr s =>
          if PyStr.contains "," s then
            try! arr := parse_indices (PyStr.split "," s) in
            Ok (JList arr)
          else Ok user_answer
      | JList _ => Ok user_answer
      | _ => Ok (JList [])
      end in
    Ok (verdict true (Py.eq user_seq expected_seq)
          "fallback-sequence-compare"
          [("normalized_answer", PJson user_seq)])
  else if Py.eq ctype (JStr "image") then
    try! has_x := Py.contains "x" sol in
    try! has_y := (if has_x then Py.contains "y" sol else Ok false) in
    if has_x && has_y then image_point sol user_answer
    else word_compare sol user_answer "fallback-image-word-compare"
  else if Py.eq ctype (JStr "color") then
    word_compare sol user_answer "fallback-color-compare"
  else Ok (verdict false false "unsupported-type-fallback" []).

Definition local_verify (stored_challenge user_answer : json) : result pdict :=
  try_except
    (local_heuristics stored_challenge user_answer)
    (fun ex =>
       Ok (verdict false false "fallback-exception"
             [("error", PJson (JStr (exn_str ex)))])).

Definition remote_verify (data : json) : result pdict :=
  try! correct := Py.get data "correct" (JBool false) in
  try! explanation := Py.get data "explanation" (JStr "") in
  try! normalized := Py.get data "normalized_answer" JNull in
  Ok [ ("ok", PJson (JBool true));
       ("correct", PJson (JBool (Py.truthy correct)));
       ("explanation", PJson explanation);
       ("normalized", PJson normalized) ].

Definition verify_with_ai (remote : remote_reply)
           (stored_challenge user_answer : json) : result pdict :=
  match remote with
  | Replied data =>
      try_except (remote_verify data)
                 (fun _ => local_verify stored_challenge user_answer)
  | _ => local_verify stored_challenge user_answer
  end.

End GeminiClient.

(* ===================================================================== *)
(** * captcha_generator.py *)
(* ===================================================================== *)

Module CaptchaGenerator.

(** [for s in v]: the elements of a list, the characters of a string,
    the keys of a dictionary. *)
Definition iterate (v : json) : result (list json) :=
  match v with
  | JList l => Ok l
  | JStr s => Ok (map JStr (PyStr.code_points s))
  | JDict d => Ok (map (fun kv => JStr (fst kv)) d)
  | _ =>
      Raise (TypeError ("'" ++ Py.type_name v ++ "' object is not iterable"))
  end.

(** [if s not in uniq: uniq.append(s)] *)
Definition add_uniq (uniq : list json) (s : json) : list json :=
  if Py.list_mem s uniq then uniq else (uniq ++ [s])%list.

Definition base : list json :=
  map JStr ["A"; "B"; "C"; "D"; "E"; "F"; "G"; "H"].

(** The loop over [base], left as soon as [uniq] holds 8 labels. *)
Fixpoint expand (uniq : list json) (base : list json) : list json :=
  match base with
  | [] => uniq
  | b :: rest =>
      let uniq := add_uniq uniq b in
      if (8 <=? List.length uniq)%nat then uniq else expand uniq rest
  end.

(** The seed only feeds a generator that is never drawn from. *)
Definition prepare_pattern_ui (shapes : json) : result (list (string * json)) :=
  try! items := iterate shapes in
  let uniq := fold_left add_uniq items [] in
  let uniq := if (List.length uniq <? 4)%nat then expand uniq base else uniq in
  Ok [ ("shapes", JList uniq);
       ("hint",
        JStr "Click the shapes in the order requested. Tap each shape once.") ].

(** [_COMMON_COLOR_NAMES], in the order of the dictionary. *)
Definition _COMMON_COLOR_NAMES : list ((Z * Z * Z) * string) :=
  [ ((255, 0, 0), "red"); ((0, 255, 0), "green"); ((0, 0, 255), "blue");
    ((255, 255, 0), "yellow"); ((255, 165, 0), "orange");
    ((128, 0, 128), "purple"); ((255, 192, 203), "pink");
    ((0, 0, 0), "black"); ((255, 255, 255), "white");
    ((128, 128, 128), "gray"); ((165, 42, 42), "brown");
    ((0, 255, 255), "cyan"); ((0, 128, 0), "darkgreen");
    ((75, 0, 130), "indigo") ].

(** [guess_common_color_name]: as in [gemini_client], the distances are
    compared through their squares; [best_dist < 100] reads
    [best_dist * best_dist < 10000]. *)
Definition guess_common_color_name (color_rgb : Z * Z * Z) : string :=
  let step (acc : option (Z * string)) (entry : (Z * Z * Z) * string) :=
    let dist := GeminiClient.sq_dist (fst entry) color_rgb in
    match acc with
    | None => Some (dist, snd entry)
    | Some (best_dist, best) =>
        if dist <? best_dist then Some (dist, snd entry) else acc
    end in
  let hex :=
    let '(r, g, b) := color_rgb in
    "#" ++ Py.hex2 r ++ Py.hex2 g ++ Py.hex2 b in
  match fold_left step _COMMON_COLOR_NAMES None with
  | Some (best_dist, best) => if best_dist <? 100 * 100 then best else hex
  | None => hex
  end.

(** The renderers that draw or synthesise media (PIL, gTTS): each
    returns a data URI or raises. The seed [hash(captcha_id)] is
    represented by the identifier it is computed from. *)
Record Renderer : Type := {
  create_image_from_description : json -> json -> result string;
  create_audio_from_text : json -> result string;
  create_color_image : list json -> json -> result string
}.

End CaptchaGenerator.

(* ===================================================================== *)
(** * agents.py *)
(* ===================================================================== *)

Module Agents.

Import Sessions CaptchaGenerator.

(** The session table together with the record of the calls made to
    [verify_with_ai] (stored challenge, user answer), latest first. *)
Record World : Type := {
  store : InMemorySession;
  judged : list (json * json)
}.

(** [dict(v)]: a copy of a dictionary, or the dictionary built from a
    sequence of two-element items. Keys are strings in [json]: an item
    whose key is another hashable value, which Python accepts, has no
    image in the model and is reported as an error. Only a remote reply
    whose [ui_data] is a list of such pairs gets there; no property
    below states what [run] does with one. *)
Definition item_of (i : nat) (v : json) : result (string * json) :=
  let short (n : nat) :=
    Raise (ValueError
             ("dictionary update sequence element #" ++ PyStr.of_Z (Z.of_nat i)
              ++ " has length " ++ PyStr.of_Z (Z.of_nat n)
              ++ "; 2 is required")) in
  match v with
  | JList [JStr k; x] => Ok (k, x)
  | JList [k; _] =>
      Raise (TypeError ("unsupported key type: '" ++ Py.type_name k ++ "'"))
  | JList l => short (List.length l)
  | JStr s =>
      match PyStr.code_points s with
      | [k; x] => Ok (k, JStr x)
      | l => short (List.length l)
      end
  | JDict [(k, _); (x, _)] => Ok (k, JStr x)
  | JDict d => short (List.length d)
  | _ =>
      Raise (TypeError
               ("cannot convert dictionary update sequence element #"
                ++ PyStr.of_Z (Z.of_nat i) ++ " to a sequence"))
  end.

Fixpoint dict_of_items (i : nat) (acc : list (string * json)) (l : list json)
  : result (list (string * json)) :=
  match l with
  | [] => Ok acc
  | v :: rest =>
      try! kv := item_of i v in
      dict_of_items (S i) (Py.dict_set (fst kv) (snd kv) acc) rest
  end.

Definition dict_of (v : json) : result (list (string * json)) :=
  match v with
  | JDict d => Ok d
  | _ =>
      try! items := iterate v in
      dict_of_items 0 [] items
  end.

Section Run.

Variable HMAC_SECRET : string.
Variable R : Renderer.

(** [hash(challenge.get("captcha_id"))] *)
Definition seed_of (challenge : json) : result json :=
  try! captcha_id := Py.get challenge "captcha_id" JNull in
  if Py.hashable captcha_id then Ok captcha_id
  else Raise (TypeError
                ("unhashable type: '" ++ Py.type_name captcha_id ++ "'")).

(** The body of the [try] block of [GeneratorAgent.run]: the value of
    [rendered_ui] when it completes. *)
Definition render (challenge ctype ui_data : json)
           (rendered_ui : list (string * json))
  : result (list (string * json)) :=
  if Py.eq ctype (JStr "image") then
    try! desc := Py.get ui_data "description" (JStr "") in
    try! seed := seed_of challenge in
    try! image := create_image_from_description R desc seed in
    Ok (Py.dict_set "image_base64" (JStr image) rendered_ui)
  else if Py.eq ctype (JStr "audio") then
    try! text := Py.get ui_data "text" (JStr "") in
    try! audio := create_audio_from_text R text in
    Ok (Py.dict_set "audio_base64" (JStr audio) rendered_ui)
  else if Py.eq ctype (JStr "pattern") then
    try! shapes := Py.get ui_data "shapes" (JList []) in
    try! seed := seed_of challenge in
    prepare_pattern_ui shapes
  else if Py.eq ctype (JStr "color") then
    try! rgb := Py.get ui_data "color_rgb" JNull in
    match rgb with
    | JList [r; g; b] =>
        try! seed := seed_of challenge in
        try! image := create_color_image R [r; g; b] seed in
        Ok (Py.dict_set "image_base64" (JStr image) rendered_ui)
    | _ => Raise (Exception "Invalid color_rgb")
    end
  else if Py.list_mem ctype [JStr "text"; JStr "math"] then
    Ok rendered_ui
  else
    Raise (Exception ("Unsupported captcha_type '" ++ Py.str ctype ++ "'")).

Definition fallback_word (now : Q) : string :=
  "solara" ++ PyStr.of_Z (Clock.to_int now mod 10000).

(** The challenge built by the [except] clause. *)
Definition fallback_challenge (now : Q) (challenge : list (string * json))
           (e : exn) : list (string * json) :=
  let word := fallback_word now in
  [ ("captcha_id",
     match Py.dict_get "captcha_id" challenge with
     | Some v => v
     | None => JStr ("fallback-" ++ PyStr.of_Z (Clock.to_int now))
     end);
    ("captcha_type", JStr "text");
    ("instructions", JStr ("Type the word '" ++ word ++ "'"));
    ("ui_data", JDict [ ("question", JStr ("Type the word '" ++ word ++ "'")) ]);
    ("solution", JDict [ ("value", JStr word) ]);
    ("metadata", JDict [ ("fallback", JBool true);
                         ("render_error", JStr (exn_str e)) ]) ].

Definition get_or_null (k : string) (d : list (string * json)) : json :=
  match Py.dict_get k d with Some v => v | None => JNull end.

(** The statements between the oracle call and the [try] block: they
    are not protected, what they raise leaves [run]. *)
Definition before_try (challenge : json)
  : result (json * json * list (string * json)) :=
  try! ctype := Py.get challenge "captcha_type" JNull in
  try! ui := Py.get challenge "ui_data" (JDict []) in
  let ui_data := if Py.truthy ui then ui else JDict [] in
  try! rendered_ui := dict_of ui_data in
  Ok (ctype, ui_data, rendered_ui).

(** The view of a stored challenge that is returned to the client. *)
Definition client_view (challenge_to_store : list (string * json))
           (signature : string) : json :=
  JDict [ ("captcha_id", get_or_null "captcha_id" challenge_to_store);
          ("captcha_type", get_or_null "captcha_type" challenge_to_store);
          ("instructions", get_or_null "instructions" challenge_to_store);
          ("ui_data", get_or_null "ui_data" challenge_to_store);
          ("signature", JStr signature) ].

(** [GeneratorAgent.run(session_id)]. [now] is the reading of the clock
    during the call, [remote], [remote_cid] and [d] what the oracle
    and the random generator contribute. *)
Definition GeneratorAgent_run (now : Q) (remote : remote_reply)
           (remote_cid : string) (d : GeminiClient.Draws)
           (session_id : string) (st : InMemorySession)
  : result json * InMemorySession :=
  let '(found, st) := Sessions.get now session_id st in
  match found with
  | None => (Ok (JDict [ ("error", JStr "invalid-session") ]), st)
  | Some session =>
      (* 1) Ask AI or fallback generator to produce a challenge *)
      let challenge :=
        GeminiClient.decide_and_create_challenge remote remote_cid d in
      match before_try challenge, challenge with
      | Ok (ctype, ui_data, rendered_ui), JDict items =>
          let '(items, rendered_ui) :=
            match render challenge ctype ui_data rendered_ui with
            | Ok rendered_ui => (items, rendered_ui)
            | Raise e =>
                let fb := fallback_challenge now items e in
                (fb, match get_or_null "ui_data" fb with
                     | JDict ui => ui
                     | _ => []
                     end)
            end in
          (* 2) Save challenge + signature in session store *)
          let challenge_to_store :=
            Py.dict_set "ui_data" (JDict rendered_ui) items in
          let challenge_repr := Json.dumps (JDict challenge_to_store) in
          let signature :=
            Security.sign_payload HMAC_SECRET now session_id challenge_repr in
          let st :=
            Sessions.update now session_id
              {| set_captcha :=
                   Some (Some {| challenge := JDict challenge_to_store;
                                 signature := signature;
                                 captcha_created := now |});
                 set_attempts := Some 0;
                 set_last_attempt := Some 0%Q;
                 set_generation_count :=
                   Some (generation_count session + 1) |} st in
          (* 3) Return minimal challenge to client *)
          (Ok (client_view challenge_to_store signature), st)
      | Raise e, _ => (Raise e, st)
      | Ok _, _ =>
          (Raise (AttributeError
                    ("'" ++ Py.type_name challenge
                     ++ "' object has no attribute 'get'")), st)
      end
  end.

Definition reply_error (msg : string) : pdict :=
  [ ("success", PJson (JBool false)); ("error", PJson (JStr msg)) ].

Definition no_active_captcha : pdict := reply_error "No active captcha".
Definition signature_invalid : pdict :=
  reply_error "Stored challenge failed signature verification".
Definition rate_limited : pdict :=
  reply_error "Too many attempts. Try again later.".

Definition verification_unavailable (meta : pyval) : pdict :=
  [ ("success", PJson (JBool false));
    ("error", PJson (JStr "verification_unavailable"));
    ("meta", meta) ].

Definition captcha_correct (explanation normalized : pyval) : pdict :=
  [ ("success", PJson (JBool true));
    ("message", PJson (JStr "Captcha correct"));
    ("explanation", explanation);
    ("normalized", normalized) ].

Definition captcha_incorrect (explanation normalized : pyval) : pdict :=
  [ ("success", PJson (JBool false));
    ("message", PJson (JStr "Incorrect captcha"));
    ("explanation", explanation);
    ("normalized", normalized) ].

(** [ValidatorAgent.run(session_id, user_answer)]. [now] is the reading
    of the clock during the call, [remote] what the remote endpoint
    contributes to [verify_with_ai], should it be called. *)
Definition ValidatorAgent_run (now : Q) (remote : remote_reply)
           (session_id : string) (user_answer : json) (w : World)
  : result pdict * World :=
  let '(found, st) := Sessions.get now session_id (store w) in
  let w := {| store := st; judged := judged w |} in
  match found with
  | None => (Ok no_active_captcha, w)
  | Some session =>
      match captcha session with
      | None => (Ok no_active_captcha, w)
      | Some stored =>
          let challenge := Sessions.challenge stored in
          let signature := Sessions.signature stored in
          (* 1) Verify signature integrity *)
          let challenge_repr := Json.dumps challenge in
          match Security.verify_signature HMAC_SECRET now session_id
                                          challenge_repr signature with
          | Raise e => (Raise e, w)
          | Ok false => (Ok signature_invalid, w)
          | Ok true =>
              (* 2) Rate limiting *)
              let attempts := Sessions.attempts session in
              let last := last_attempt session in
              if (6 <=? attempts) && Clock.ltb (now - last) 60 then
                (Ok rate_limited, w)
              else
                (* 3) AI verification or local fallback *)
                let w := {| store := store w;
                            judged := (challenge, user_answer) :: judged w |} in
                match GeminiClient.verify_with_ai remote challenge user_answer with
                | Raise e => (Raise e, w)
                | Ok verify_result =>
                    let st :=
                      Sessions.update now session_id
                        {| set_captcha := None;
                           set_attempts := Some (attempts + 1);
                           set_last_attempt := Some now;
                           set_generation_count := None |} (store w) in
                    let w := {| store := st; judged := judged w |} in
                    if negb (PDict.truthy (PDict.get verify_result "ok")) then
                      (Ok (verification_unavailable
                             (PDict.get verify_result "explanation")), w)
                    else
                      (* 4) Interpret verification result *)
                      let correct :=
                        PDict.truthy
                          (PDict.get_or verify_result "correct"
                                        (PJson (JBool false))) in
                      let explanation :=
                        PDict.get_or verify_result "explanation"
                                     (PJson (JStr "")) in
                      let normalized :=
                        PDict.or_else
                          (PDict.get verify_result "normalized")
                          (PDict.get verify_result "normalized_answer") in
                      if correct then
                        let st :=
                          Sessions.update now session_id
                            {| set_captcha := Some None;
                               set_attempts := Some 0;
                               set_last_attempt := None;
                               set_generation_count := None |} (store w) in
                        (Ok (captcha_correct explanation normalized),
                         {| store := st; judged := judged w |})
                      else
                        (Ok (captcha_incorrect explanation normalized), w)
                end
          end
      end
  end.

End Run.
End Agents.

(* ===================================================================== *)
(** * Vocabulary of the properties *)
(* ===================================================================== *)

(** What an attempt that reaches the oracle does to the session. *)
Definition recorded (now : Q) (s : Sessions.Session) : Sessions.Session :=
  {| Sessions.created := Sessions.created s;
     Sessions.captcha := Sessions.captcha s;
     Sessions.attempts := Sessions.attempts s + 1;
     Sessions.last_attempt := now;
     Sessions.generation_count := Sessions.generation_count s |}.

(** The session after a correct answer at time [now]. *)
Definition solved (now : Q) (s : Sessions.Session) : Sessions.Session :=
  {| Sessions.created := Sessions.created s;
     Sessions.captcha := None;
     Sessions.attempts := 0;
     Sessions.last_attempt := now;
     Sessions.generation_count := Sessions.generation_count s |}.

(** A reply that reports a wrong answer. *)
Definition incorrect (r : result pdict) : Prop :=
  exists v, r = Ok v
            /\ PDict.lookup "message" v = Some (PJson (JStr "Incorrect captcha")).

(** Successive submissions (time, remote reply, answer) on one session. *)
Fixpoint submit_all (HMAC_SECRET sid : string)
         (subs : list (Q * remote_reply * json)) (w : Agents.World)
  : list (result pdict) * Agents.World :=
  match subs with
  | [] => ([], w)
  | (now, remote, ua) :: rest =>
      let '(r, w1) := Agents.ValidatorAgent_run HMAC_SECRET now remote sid ua w in
      let '(rs, w2) := submit_all HMAC_SECRET sid rest w1 in
      (r :: rs, w2)
  end.

(** The remote endpoint contributes no verdict: it is not configured, the
    request or the decoding failed, or the decoded value is not a
    dictionary. *)
Definition falls_back (remote : remote_reply) : Prop :=
  match remote with
  | Replied data => exists e, GeminiClient.remote_verify data = Raise e
  | _ => True
  end.

(** A verdict carries the three fields every caller reads. *)
Definition well_formed (v : pdict) : Prop :=
  exists ok correct : bool,
    PDict.lookup "ok" v = Some (PJson (JBool ok))
    /\ PDict.lookup "correct" v = Some (PJson (JBool correct))
    /\ is_Some (PDict.lookup "explanation" v).

(** The six challenge types. *)
Definition known_types : list json :=
  [JStr "text"; JStr "math"; JStr "audio"; JStr "pattern"; JStr "image";
   JStr "color"].

(** One step of reading a decimal numeral. *)
Definition digit_step (acc : Z) (c : ascii) : Z :=
  10 * acc + (PyStr.code c - 48).

(** An index that [int] reads back from its decimal form: a natural
    number written with no more digits than [int] converts. *)
Definition is_index (n : Z) : Prop :=
  0 <= n /\ (String.length (PyStr.of_Z n) <= Py.max_str_digits)%nat.

(** An image challenge with the click target (100, 100), tolerance 15. *)
Definition target_100_100_15 : json :=
  JDict [ ("captcha_type", JStr "image");
          ("solution",
           JDict [("x", JInt 100); ("y", JInt 100); ("tolerance", JInt 15)]) ].

(** What an operation on the session [sid] may do to the table: it adds
    no session, keeps every creation time and leaves the other sessions
    as they are. *)
Definition store_frame (sid : string) (st st' : Sessions.InMemorySession)
  : Prop :=
  forall k s',
    Sessions.sessions st' !! k = Some s' ->
    exists s,
      Sessions.sessions st !! k = Some s
      /\ Sessions.created s' = Sessions.created s
      /\ (k <> sid -> s' = s).

(** The characters of a hexadecimal digest. *)
Definition hex_chars : list ascii := PyStr.chars "0123456789abcdef".

(** The answer that repeats a solution: its sequence, its click target,
    or its value. *)
Definition answer_of (solution : list (string * json)) : json :=
  match Py.dict_get "sequence" solution with
  | Some sequence => sequence
  | None =>
      match Py.dict_get "x" solution, Py.dict_get "y" solution with
      | Some x, Some y => JDict [("x", x); ("y", y)]
      | _, _ =>
          match Py.dict_get "value" solution with
          | Some v => v
          | None => JNull
          end
      end
  end.

(** One step of the search for the nearest entry of a color table:
    [dist] and [name] read an entry. *)
Definition nearest_step {E : Type} (dist : E -> Z) (name : E -> string)
           (acc : option (Z * string)) (entry : E) : option (Z * string) :=
  match acc with
  | None => Some (dist entry, name entry)
  | Some (best_dist, best) =>
      if dist entry <? best_dist then Some (dist entry, name entry) else acc
  end.

(** [#rrggbb] *)
Definition hex_color (rgb : Z * Z * Z) : string :=
  let '(r, g, b) := rgb in "#" ++ Py.hex2 r ++ Py.hex2 g ++ Py.hex2 b.

(** The length of the number [_rand_word] may append. *)
Definition suffix_length (digits : option Z) : nat :=
  match digits with
  | Some n => String.length (PyStr.of_Z n)
  | None => 0
  end.

(** The session [s] once a challenge has been issued for it at time
    [now]. *)
Definition issued (now : Q) (s : Sessions.Session)
           (challenge : list (string * json)) (signature : string)
  : Sessions.Session :=
  {| Sessions.created := Sessions.created s;
     Sessions.captcha :=
       Some {| Sessions.challenge := JDict challenge;
               Sessions.signature := signature;
               Sessions.captcha_created := now |};
     Sessions.attempts := 0;
     Sessions.last_attempt := 0;
     Sessions.generation_count := Sessions.generation_count s + 1 |}.

(** The letters [prepare_pattern_ui] adds to fewer than four shapes:
    those of [A] to [H] that are not among the shapes, in order, as
    many as it takes to show eight. *)
Definition fillers (shapes : list string) : list string :=
  firstn (8 - List.length shapes)
         (List.filter (fun b => negb (existsb (String.eqb b) shapes))
                 ["A"; "B"; "C"; "D"; "E"; "F"; "G"; "H"]).

(** A color: three components from 0 to 255. *)
Definition is_color (rgb : Z * Z * Z) : Prop :=
  let '(r, g, b) := rgb in
  0 <= r <= 255 /\ 0 <= g <= 255 /\ 0 <= b <= 255.




(** ** Sample inputs *)

(** A renderer whose image functions succeed and whose speech synthesis
    fails (as it does without network). *)
Definition sample_renderer : CaptchaGenerator.Renderer :=
  {| CaptchaGenerator.create_image_from_description :=
       fun _ _ => Ok "data:image/png;base64,AAAA";
     CaptchaGenerator.create_audio_from_text :=
       fun _ => Raise (RuntimeError "no network");
     CaptchaGenerator.create_color_image :=
       fun _ _ => Ok "data:image/png;base64,BBBB" |}.

(** Draws of the local generator for a challenge of type [ctype]: the
    word ["solra"] followed by 42, the click target (100, 90) with
    tolerance 15. *)
Definition sample_draws (ctype : string) : GeminiClient.Draws :=
  {| GeminiClient.ctype_draw := ctype;
     GeminiClient.cid := "0123456789ab";
     GeminiClient.word :=
       {| GeminiClient.target := 5;
          GeminiClient.picks := ["sol"; "ra"];
          GeminiClient.digits := Some 42 |};
     GeminiClient.a_draw := 7;
     GeminiClient.b_draw := 3;
     GeminiClient.op_draw := "-";
     GeminiClient.pool := ["a"; "b"; "c"; "d"; "e"; "f"];
     GeminiClient.count := 4;
     GeminiClient.seq_draw := [2; 0; 1];
     GeminiClient.coin := true;
     GeminiClient.x_draw := 100;
     GeminiClient.y_draw := 90;
     GeminiClient.tol_draw := 15;
     GeminiClient.nums := [3; 4; 5];
     GeminiClient.color := (255, 165, 0) |}.

(** A store with one session, created at time 0. *)
Definition sample_store : Sessions.InMemorySession :=
  {| Sessions.sessions := {[ "sid" := Sessions.fresh 0 ]};
     Sessions.last_cleanup := 0 |}.

(** A challenge of type [ctype] issued at time 10 by the local generator. *)
Definition issue (ctype : string) : result json * Sessions.InMemorySession :=
  Agents.GeneratorAgent_run "secret" sample_renderer 10 NotConfigured ""
    (sample_draws ctype) "sid" sample_store.

(** The world after a text challenge has been issued. *)
Definition sample_world : Agents.World :=
  {| Agents.store := snd (issue "text"); Agents.judged := [] |}.

(** Six wrong answers, one per second from time 11 on. *)
Definition six_wrong : list (Q * remote_reply * json) :=
  map (fun t : Z => (inject_Z t, NotConfigured, JStr "wrong"))
      [11; 12; 13; 14; 15; 16].

(* ===================================================================== *)
(** * Properties *)
(* ===================================================================== *)

(** ** Strings and digests *)

Lemma chars_of_chars (l : list ascii) : PyStr.chars (PyStr.of_chars l) = l.
Proof. apply list_ascii_of_string_of_list_ascii. Qed.

Lemma of_chars_chars (s : string) : PyStr.of_chars (PyStr.chars s) = s.
Proof. apply string_of_list_ascii_of_string. Qed.

Lemma hex_digit_ascii (n : Z) : PyStr.is_ascii (Sha256.hex_digit n) = true.
Proof.
  unfold Sha256.hex_digit.
  destruct (nth_in_or_default (Z.to_nat n)
              (PyStr.chars "0123456789abcdef") "0"%char) as [Hin | ->];
    [| reflexivity].
  revert Hin. generalize (nth (Z.to_nat n) (PyStr.chars "0123456789abcdef") "0"%char).
  intros c Hin. simpl in Hin.
  repeat (destruct Hin as [<- | Hin]; [reflexivity |]). destruct Hin.
Qed.

Lemma hex_ascii (bytes : list Z) :
  forallb PyStr.is_ascii (PyStr.chars (Sha256.hex bytes)) = true.
Proof.
  unfold Sha256.hex. rewrite chars_of_chars.
  induction bytes as [| b r IH]; [reflexivity |].
  cbn [flat_map Sha256.hex_byte app forallb].
  now rewrite !hex_digit_ascii, IH.
Qed.

Lemma hmac_hex_ascii (key msg : string) :
  forallb PyStr.is_ascii (PyStr.chars (Sha256.hmac_hex key msg)) = true.
Proof. unfold Sha256.hmac_hex. apply hex_ascii. Qed.

(** ** Clock arithmetic *)

Lemma ltb_lt (a b : Q) : Clock.ltb a b = true <-> (a < b)%Q.
Proof.
  unfold Clock.ltb. rewrite negb_true_iff.
  destruct (Qle_bool b a) eqn:E.
  - apply Qle_bool_iff in E. split; [discriminate | intros H; exfalso; revert H; apply Qle_not_lt, E].
  - split; [| reflexivity]. intros _.
    destruct (Qlt_le_dec a b) as [H | H]; [exact H |].
    apply Qle_bool_iff in H. congruence.
Qed.

Lemma ltb_ge (a b : Q) : Clock.ltb a b = false <-> (b <= a)%Q.
Proof.
  unfold Clock.ltb. rewrite negb_false_iff. apply Qle_bool_iff.
Qed.

Lemma floordiv_mono (t0 t1 : Q) (n : Z) :
  0 < n -> (t0 <= t1)%Q -> Clock.floordiv t0 n <= Clock.floordiv t1 n.
Proof.
  intros Hn Hle. unfold Clock.floordiv. apply Qfloor_resp_le.
  assert (Hpos : (0 < inject_Z n)%Q) by (change 0%Q with (inject_Z 0);
    rewrite <- Zlt_Qlt; exact Hn).
  apply Qle_shift_div_l; [exact Hpos |].
  setoid_replace (t0 / inject_Z n * inject_Z n)%Q with t0 using relation Qeq;
    [exact Hle |].
  field. intros H. rewrite H in Hpos. lra.
Qed.

Lemma floordiv_step (t0 t1 : Q) (n : Z) :
  0 < n -> (t1 <= t0 + inject_Z n)%Q ->
  Clock.floordiv t1 n <= Clock.floordiv t0 n + 1.
Proof.
  intros Hn Hle. unfold Clock.floordiv.
  assert (Hpos : (0 < inject_Z n)%Q) by (change 0%Q with (inject_Z 0);
    rewrite <- Zlt_Qlt; exact Hn).
  assert (Hne : ~ (inject_Z n == 0)%Q) by (intros H; rewrite H in Hpos; lra).
  assert (H1 : (t1 / inject_Z n <= t0 / inject_Z n + 1)%Q).
  { apply Qle_shift_div_r; [exact Hpos |].
    setoid_replace ((t0 / inject_Z n + 1) * inject_Z n)%Q
      with (t0 + inject_Z n)%Q using relation Qeq by (field; exact Hne).
    exact Hle. }
  pose proof (Qfloor_le (t1 / inject_Z n)) as Hlo.
  pose proof (Qlt_floor (t0 / inject_Z n)) as Hhi.
  assert (Hlt : (inject_Z (Qfloor (t1 / inject_Z n))
                 < inject_Z (Qfloor (t0 / inject_Z n) + 1 + 1))%Q).
  { rewrite (inject_Z_plus _ 1). change (inject_Z 1) with 1%Q. lra. }
  rewrite <- Zlt_Qlt in Hlt. lia.
Qed.

(** ** security.py *)

Section SecurityFacts.

Variable HMAC_SECRET : string.

Lemma compare_digest_hmac_refl (msg : string) :
  Security.compare_digest (Sha256.hmac_hex HMAC_SECRET msg)
                          (Sha256.hmac_hex HMAC_SECRET msg) = Ok true.
Proof.
  unfold Security.compare_digest.
  now rewrite hmac_hex_ascii, String.eqb_refl.
Qed.

Lemma compare_digest_hmac (m1 m2 : string) :
  exists b, Security.compare_digest (Sha256.hmac_hex HMAC_SECRET m1)
                                    (Sha256.hmac_hex HMAC_SECRET m2) = Ok b.
Proof.
  unfold Security.compare_digest. rewrite !hmac_hex_ascii. simpl. eauto.
Qed.

(** A signature made in window [w] verifies in windows [w] and [w + 1]. *)
Lemma verify_in_window (t0 t1 : Q) (s p : string) :
  let w0 := Clock.floordiv t0 Security.WINDOW_SECONDS in
  let w1 := Clock.floordiv t1 Security.WINDOW_SECONDS in
  w1 = w0 \/ w1 = w0 + 1 ->
  Security.verify_signature HMAC_SECRET t1 s p
    (Security.sign_payload HMAC_SECRET t0 s p) = Ok true.
Proof.
  intros w0 w1 Hw.
  unfold Security.verify_signature, Security.sign_payload.
  fold w0 w1. cbn [Security.verify_offsets].
  destruct Hw as [-> | ->].
  - rewrite Z.add_0_r, compare_digest_hmac_refl. reflexivity.
  - destruct (compare_digest_hmac
                (Security.message s p (w0 + 1 + 0)) (Security.message s p w0))
      as [b ->].
    cbn [bind]. destruct b; [reflexivity |].
    replace (w0 + 1 + -1) with w0 by lia.
    rewrite compare_digest_hmac_refl. reflexivity.
Qed.

End SecurityFacts.

(** C2, as stated, fails: a payload signed one second before a window
    boundary (at 299 s) no longer verifies at 600 s, which is 301 s later
    and thus well within [2 * WINDOW_SECONDS]: the signing window is 0, the
    verifier accepts windows 2 and 1 only. *)
Lemma sign_verify_two_windows_fails :
  (299 <= 600)%Q /\
  (600 - 299 <= 2 * inject_Z Security.WINDOW_SECONDS)%Q /\
  Security.verify_signature "secret" 600 "s" "p"
    (Security.sign_payload "secret" 299 "s" "p") = Ok false.
Proof.
  split; [| split].
  - vm_compute. discriminate.
  - vm_compute. discriminate.
  - vm_compute. reflexivity.
Qed.

(** C2 (amended): for every secret, session id [s] and payload [p], a
    signature made at time [t0] verifies at every later time [t1] that is
    within [WINDOW_SECONDS] (300 seconds) of [t0], in particular at the
    signing time itself, and more generally at every [t1] up to the end
    of the window that follows the signing window. *)
Theorem sign_verify_roundtrip (HMAC_SECRET s p : string) (t0 t1 : Q) :
  (t0 <= t1)%Q ->
  (t1 - t0 <= inject_Z Security.WINDOW_SECONDS)%Q
  \/ Clock.floordiv t1 Security.WINDOW_SECONDS
     <= Clock.floordiv t0 Security.WINDOW_SECONDS + 1 ->
  Security.verify_signature HMAC_SECRET t1 s p
    (Security.sign_payload HMAC_SECRET t0 s p) = Ok true.
Proof.
  intros Hle Hwin. apply verify_in_window.
  pose proof (floordiv_mono t0 t1 Security.WINDOW_SECONDS eq_refl Hle) as Hlo.
  destruct Hwin as [Hwin | Hwin]; [| lia].
  assert (Hle' : (t1 <= t0 + inject_Z Security.WINDOW_SECONDS)%Q) by lra.
  pose proof (floordiv_step t0 t1 Security.WINDOW_SECONDS eq_refl Hle') as Hhi.
  lia.
Qed.

Lemma sign_verify_roundtrip_witness :
  Security.verify_signature "secret" 599 "s" "p"
    (Security.sign_payload "secret" 299 "s" "p") = Ok true.
Proof.
  apply (sign_verify_roundtrip "secret" "s" "p" 299 599).
  - vm_compute. discriminate.
  - left. vm_compute. discriminate.
Defined.

(** ** sessions.py *)

Lemma expired_iff (now : Q) (s : Sessions.Session) :
  Sessions.expired now s = true <->
  (Sessions.SESSION_TTL < now - Sessions.created s)%Q.
Proof. apply ltb_lt. Qed.

Lemma get_absent (now : Q) (sid : string) (st : Sessions.InMemorySession) :
  Sessions.sessions st !! sid = None -> Sessions.get now sid st = (None, st).
Proof. intros H. unfold Sessions.get. now rewrite H. Qed.

Lemma update_absent (now : Q) (sid : string) (data : Sessions.Update)
      (st : Sessions.InMemorySession) :
  Sessions.sessions st !! sid = None -> Sessions.update now sid data st = st.
Proof. intros H. unfold Sessions.update. now rewrite H. Qed.

Lemma get_live (now : Q) (sid : string) (st : Sessions.InMemorySession)
      (s : Sessions.Session) :
  Sessions.sessions st !! sid = Some s ->
  Sessions.expired now s = false ->
  Sessions.get now sid st = (Some s, st).
Proof. intros H E. unfold Sessions.get. now rewrite H, E. Qed.

Lemma get_some_inv (now : Q) (sid : string) (st st' : Sessions.InMemorySession)
      (s : Sessions.Session) :
  Sessions.get now sid st = (Some s, st') ->
  st' = st /\ Sessions.sessions st !! sid = Some s
  /\ Sessions.expired now s = false.
Proof.
  unfold Sessions.get.
  destruct (Sessions.sessions st !! sid) as [s0 |] eqn:E; [| discriminate].
  destruct (Sessions.expired now s0) eqn:X; [discriminate |].
  intros [= -> ->]. auto.
Qed.

(** C8: a session fetched once more than [SESSION_TTL] (3600 seconds)
    have passed since its creation is reported as not found and its entry
    is deleted by that access; from then on the store treats the id as
    one that was never created: [get] finds nothing and changes nothing,
    [update] is a no-op, and the other sessions are untouched. *)
Theorem get_expired_as_never_created
        (now : Q) (sid : string) (st : Sessions.InMemorySession)
        (s : Sessions.Session) :
  Sessions.sessions st !! sid = Some s ->
  (Sessions.SESSION_TTL < now - Sessions.created s)%Q ->
  let st' := {| Sessions.sessions := delete sid (Sessions.sessions st);
                Sessions.last_cleanup := Sessions.last_cleanup st |} in
  Sessions.get now sid st = (None, st')
  /\ Sessions.sessions st' !! sid = None
  /\ (forall other, other <> sid ->
        Sessions.sessions st' !! other = Sessions.sessions st !! other)
  /\ (forall now', Sessions.get now' sid st' = (None, st'))
  /\ (forall now' data, Sessions.update now' sid data st' = st').
Proof.
  intros Hs Hexp st'.
  assert (Hnone : Sessions.sessions st' !! sid = None)
    by (simpl; apply lookup_delete_eq).
  split; [| split; [exact Hnone | split; [| split]]].
  - unfold Sessions.get. rewrite Hs.
    apply expired_iff in Hexp. now rewrite Hexp.
  - intros other Hne. simpl. now apply lookup_delete_ne.
  - intros now'. now apply get_absent.
  - intros now' data. now apply update_absent.
Qed.

Lemma get_expired_as_never_created_witness :
  let s := Sessions.fresh 0 in
  let st := {| Sessions.sessions := {[ "0123456789ab" := s ]};
               Sessions.last_cleanup := 0 |} in
  Sessions.get 3601 "0123456789ab" st
  = (None, {| Sessions.sessions := delete "0123456789ab" (Sessions.sessions st);
              Sessions.last_cleanup := 0 |}).
Proof.
  intros s st.
  refine (proj1 (get_expired_as_never_created 3601 "0123456789ab" st s _ _)).
  - apply lookup_singleton_eq.
  - vm_compute. reflexivity.
Defined.

(** ** gemini_client.py: the answer judge *)

Lemma verify_with_ai_local (remote : remote_reply) (stored ua : json) :
  falls_back remote ->
  GeminiClient.verify_with_ai remote stored ua
  = GeminiClient.local_verify stored ua.
Proof.
  destruct remote as [| | data]; simpl; try reflexivity.
  intros [e ->]. reflexivity.
Qed.

Lemma verdict_well_formed (ok correct : bool) (e : string) (rest : pdict) :
  well_formed (GeminiClient.verdict ok correct e rest).
Proof. exists ok, correct. repeat split; eauto. Qed.

Create HintDb judge.
Local Hint Resolve verdict_well_formed : judge.

Ltac bind_step :=
  match goal with
  | H : context [bind ?r _] |- _ =>
      let E := fresh "E" in
      destruct r eqn:E; cbn [bind] in H; try discriminate H
  | H : Raise _ = Ok _ |- _ => discriminate H
  | H : Ok _ = Ok _ |- _ => injection H as <-
  end.

Lemma word_compare_well_formed (sol ua : json) (e : string) (v : pdict) :
  GeminiClient.word_compare sol ua e = Ok v -> well_formed v.
Proof.
  unfold GeminiClient.word_compare. intros H.
  repeat bind_step; auto with judge.
Qed.

Lemma image_point_total (sol ua : json) :
  exists v, GeminiClient.image_point sol ua = Ok v /\ well_formed v.
Proof.
  unfold GeminiClient.image_point, try_except.
  destruct (GeminiClient.image_point_body sol ua) as [v | ex] eqn:H.
  - exists v. split; [reflexivity |].
    unfold GeminiClient.image_point_body in H.
    do 6 bind_step.
    destruct ua as [| | | | [| e0 [| e1 l]] | d];
      repeat bind_step; auto with judge.
  - eexists. split; [reflexivity | auto with judge].
Qed.

Lemma local_heuristics_well_formed (stored ua : json) (v : pdict) :
  GeminiClient.local_heuristics stored ua = Ok v -> well_formed v.
Proof.
  unfold GeminiClient.local_heuristics. intros H.
  do 2 bind_step.
  destruct (Py.list_mem _ _); [eauto using word_compare_well_formed |].
  destruct (Py.eq _ (JStr "pattern")).
  { repeat bind_step; auto with judge. }
  destruct (Py.eq _ (JStr "image")).
  { do 2 bind_step.
    destruct (_ && _); [| eauto using word_compare_well_formed].
    destruct (image_point_total a0 ua) as (v' & Hv & Hwf). congruence. }
  destruct (Py.eq _ (JStr "color")); [eauto using word_compare_well_formed |].
  repeat bind_step; auto with judge.
Qed.

Lemma local_verify_total (stored ua : json) :
  exists v, GeminiClient.local_verify stored ua = Ok v /\ well_formed v.
Proof.
  unfold GeminiClient.local_verify, try_except.
  destruct (GeminiClient.local_heuristics stored ua) as [v | ex] eqn:H.
  - eauto using local_heuristics_well_formed.
  - eexists. split; [reflexivity | auto with judge].
Qed.

Lemma remote_verify_well_formed (data : json) (v : pdict) :
  GeminiClient.remote_verify data = Ok v -> well_formed v.
Proof.
  unfold GeminiClient.remote_verify. intros H. repeat bind_step.
  eexists _, _. repeat split; eauto.
Qed.

Lemma verify_with_ai_returns (remote : remote_reply) (stored ua : json) :
  exists v, GeminiClient.verify_with_ai remote stored ua = Ok v
            /\ well_formed v.
Proof.
  destruct remote as [| | data]; simpl; try apply local_verify_total.
  unfold try_except.
  destruct (GeminiClient.remote_verify data) as [v | e] eqn:H.
  - eauto using remote_verify_well_formed.
  - apply local_verify_total.
Qed.

Lemma unknown_type_verdict (stored ua ctype : json) :
  Py.get stored "captcha_type" JNull = Ok ctype ->
  Py.list_mem ctype known_types = false ->
  GeminiClient.local_verify stored ua
  = Ok (GeminiClient.verdict false false "unsupported-type-fallback" []).
Proof.
  intros Hget Hmem.
  unfold GeminiClient.local_verify, GeminiClient.local_heuristics.
  rewrite Hget. cbn [bind].
  destruct stored as [| | | | | d]; try discriminate Hget.
  cbn [Py.get bind].
  unfold Py.list_mem, known_types in *. cbn [existsb] in *.
  repeat (apply orb_false_iff in Hmem; destruct Hmem as [? Hmem]).
  repeat match goal with H : Py.eq _ _ = false |- _ => rewrite H; clear H end.
  reflexivity.
Qed.

(** C9: [verify_with_ai] returns a verdict for every reply of the remote
    endpoint, every stored challenge and every user answer, and never
    raises; the verdict always carries boolean [ok] and [correct] fields
    and an explanation. When the local heuristics are used, an exception
    raised inside them becomes the verdict [ok = False], [correct = False]
    with the explanation ["fallback-exception"] and the error text, an
    exception in the click-point computation becomes the same with
    ["fallback-exception-image"], and a challenge of an unknown type gets
    [ok = False], [correct = False]. *)
Theorem verify_with_ai_total (remote : remote_reply) (stored ua : json) :
  (exists v, GeminiClient.verify_with_ai remote stored ua = Ok v
             /\ well_formed v)
  /\ (falls_back remote ->
      forall ex, GeminiClient.local_heuristics stored ua = Raise ex ->
        GeminiClient.verify_with_ai remote stored ua
        = Ok (GeminiClient.verdict false false "fallback-exception"
                [("error", PJson (JStr (exn_str ex)))]))
  /\ (forall sol ex, GeminiClient.image_point_body sol ua = Raise ex ->
        GeminiClient.image_point sol ua
        = Ok (GeminiClient.verdict false false "fallback-exception-image"
                [("error", PJson (JStr (exn_str ex)))]))
  /\ (falls_back remote ->
      forall ctype, Py.get stored "captcha_type" JNull = Ok ctype ->
        Py.list_mem ctype known_types = false ->
        GeminiClient.verify_with_ai remote stored ua
        = Ok (GeminiClient.verdict false false "unsupported-type-fallback" [])).
Proof.
  split; [apply verify_with_ai_returns | split; [| split]].
  - intros Hfb ex Hex. rewrite verify_with_ai_local by exact Hfb.
    unfold GeminiClient.local_verify. now rewrite Hex.
  - intros sol ex Hex. unfold GeminiClient.image_point. now rewrite Hex.
  - intros Hfb ctype Hget Hmem. rewrite verify_with_ai_local by exact Hfb.
    now apply (unknown_type_verdict stored ua ctype).
Qed.

Lemma verify_with_ai_total_witness :
  GeminiClient.verify_with_ai NotConfigured
    (JDict [("captcha_type", JStr "riddle"); ("solution", JDict [])])
    (JStr "42")
  = Ok (GeminiClient.verdict false false "unsupported-type-fallback" []).
Proof.
  refine (proj2 (proj2 (proj2 (verify_with_ai_total NotConfigured _ _)))
            I (JStr "riddle") _ _); reflexivity.
Defined.

(** ** Decimal indices: printing, splitting and parsing *)

Lemma chars_app (a b : string) :
  PyStr.chars (a ++ b) = (PyStr.chars a ++ PyStr.chars b)%list.
Proof. induction a as [| c a IH]; simpl; [reflexivity | now rewrite IH]. Qed.

Lemma digit_not_comma (c : ascii) :
  PyStr.is_digit c = true -> Ascii.eqb c "," = false.
Proof.
  intros H. destruct (Ascii.eqb_spec c ","%char) as [-> |]; [| reflexivity].
  discriminate H.
Qed.

Lemma digit_not_sign (c : ascii) :
  PyStr.is_digit c = true ->
  Ascii.eqb c "-" = false /\ Ascii.eqb c "+" = false.
Proof.
  intros H. split.
  - destruct (Ascii.eqb_spec c "-"%char) as [-> |]; [discriminate H | reflexivity].
  - destruct (Ascii.eqb_spec c "+"%char) as [-> |]; [discriminate H | reflexivity].
Qed.

Lemma digit_not_space (c : ascii) :
  PyStr.is_digit c = true -> PyStr.is_space c = false.
Proof.
  unfold PyStr.is_digit, PyStr.is_space. cbv zeta.
  generalize (PyStr.code c). intros n H.
  apply andb_true_iff in H. destruct H as [H1 H2].
  apply Z.leb_le in H1. apply Z.leb_le in H2.
  apply orb_false_iff. split; apply andb_false_iff.
  - right. apply Z.leb_gt. lia.
  - right. apply Z.leb_gt. lia.
Qed.

Lemma uint_digits (d : uint) :
  forallb PyStr.is_digit (PyStr.chars (NilEmpty.string_of_uint d)) = true.
Proof. induction d; simpl; try rewrite IHd; reflexivity. Qed.

Lemma uint_value_acc (d : uint) (acc : positive) :
  fold_left digit_step (PyStr.chars (NilEmpty.string_of_uint d)) (Z.pos acc)
  = Z.pos (Pos.of_uint_acc d acc).
Proof.
  revert acc.
  induction d; intros acc; cbn [NilEmpty.string_of_uint PyStr.chars
                               list_ascii_of_string fold_left Pos.of_uint_acc];
    try reflexivity;
    fold (PyStr.chars (NilEmpty.string_of_uint d));
    rewrite <- IHd; f_equal; unfold digit_step; vm_compute PyStr.code;
    cbn; lia.
Qed.

Lemma uint_value (d : uint) :
  fold_left digit_step (PyStr.chars (NilEmpty.string_of_uint d)) 0
  = Z.of_N (Pos.of_uint d).
Proof.
  induction d; cbn [NilEmpty.string_of_uint PyStr.chars list_ascii_of_string
                    fold_left Pos.of_uint];
    try reflexivity;
    fold (PyStr.chars (NilEmpty.string_of_uint d));
    try (change (digit_step 0 _) with 0; exact IHd);
    apply uint_value_acc.
Qed.

(** The decimal form of a natural index: digits only, at least one, and
    reading them back gives the index. *)
Lemma of_Z_index (n : Z) :
  0 <= n ->
  exists c l,
    PyStr.chars (PyStr.of_Z n) = c :: l
    /\ forallb PyStr.is_digit (c :: l) = true
    /\ PyStr.digits_value (c :: l) = n.
Proof.
  intros Hn. destruct n as [| p | p]; [| | lia].
  - exists "0"%char, []. repeat split; reflexivity.
  - unfold PyStr.of_Z. cbn [Z.to_int NilZero.string_of_int].
    pose proof (DecimalPos.Unsigned.to_uint_nonnil p) as Hnil.
    pose proof (DecimalPos.Unsigned.of_to p) as Hof.
    assert (Hs : NilZero.string_of_uint (Pos.to_uint p)
                 = NilEmpty.string_of_uint (Pos.to_uint p))
      by (destruct (Pos.to_uint p); [contradiction | reflexivity ..]).
    rewrite Hs.
    pose proof (uint_digits (Pos.to_uint p)) as Hd.
    pose proof (uint_value (Pos.to_uint p)) as Hv.
    rewrite Hof in Hv.
    destruct (PyStr.chars (NilEmpty.string_of_uint (Pos.to_uint p)))
      as [| c l] eqn:E.
    + exfalso. destruct (Pos.to_uint p); try contradiction; discriminate E.
    + exists c, l. repeat split; assumption.
Qed.

Lemma lstrip_digits (l : list ascii) :
  forallb PyStr.is_digit l = true -> PyStr.lstrip_chars l = l.
Proof.
  destruct l as [| c r]; [reflexivity |]. simpl. intros H.
  apply andb_true_iff in H. destruct H as [H _].
  now rewrite (digit_not_space c H).
Qed.

Lemma strip_digits (l : list ascii) :
  forallb PyStr.is_digit l = true ->
  PyStr.strip (PyStr.of_chars l) = PyStr.of_chars l.
Proof.
  intros H. unfold PyStr.strip. rewrite chars_of_chars.
  rewrite (lstrip_digits l H).
  rewrite lstrip_digits, rev_involutive; [reflexivity |].
  apply forallb_forall. intros c Hc. apply in_rev in Hc.
  revert c Hc. now apply forallb_forall.
Qed.

Lemma int_digits_all (l : list ascii) (prev : bool) :
  forallb PyStr.is_digit l = true ->
  l <> [] \/ prev = true ->
  Py.int_digits prev l = Some l.
Proof.
  revert prev. induction l as [| c r IH]; intros prev H Hne.
  - destruct Hne as [Hne | ->]; [contradiction | reflexivity].
  - simpl in H. apply andb_true_iff in H. destruct H as [Hc Hr].
    simpl. rewrite Hc. rewrite (IH true Hr) by now right. reflexivity.
Qed.

Lemma length_chars (s : string) :
  List.length (PyStr.chars s) = String.length s.
Proof. induction s as [| c s IH]; [reflexivity |]. simpl. now rewrite IH. Qed.

Lemma int_of_index (n : Z) :
  is_index n ->
  PyStr.strip (PyStr.of_Z n) = PyStr.of_Z n
  /\ PyStr.isdigit (PyStr.of_Z n) = true
  /\ Py.int_of_string (PyStr.of_Z n) = Ok n
  /\ forallb (fun c => negb (Ascii.eqb c ",")) (PyStr.chars (PyStr.of_Z n))
     = true.
Proof.
  intros [Hn Hlen]. destruct (of_Z_index n Hn) as (c & l & Hc & Hd & Hv).
  rewrite <- length_chars, Hc in Hlen.
  assert (Hstrip : PyStr.strip (PyStr.of_Z n) = PyStr.of_Z n).
  { rewrite <- (of_chars_chars (PyStr.of_Z n)), Hc. now apply strip_digits. }
  split; [exact Hstrip | split; [| split]].
  - unfold PyStr.isdigit. now rewrite Hc.
  - unfold Py.int_of_string. rewrite Hstrip, Hc.
    pose proof Hd as Hd'. simpl in Hd'. apply andb_true_iff in Hd'.
    destruct Hd' as [Hd0 _].
    destruct (digit_not_sign c Hd0) as [-> ->].
    rewrite (int_digits_all (c :: l) false Hd) by (left; discriminate).
    apply Nat.ltb_ge in Hlen. rewrite Hlen.
    f_equal. rewrite Hv. lia.
  - rewrite Hc. apply forallb_forall. intros x Hx.
    rewrite (digit_not_comma x); [reflexivity |].
    revert x Hx. now apply forallb_forall.
Qed.

Lemma split_chars_plain (sep : ascii) (cur l : list ascii) :
  forallb (fun c => negb (Ascii.eqb c sep)) l = true ->
  PyStr.split_chars sep cur l = [PyStr.of_chars (rev cur ++ l)].
Proof.
  revert cur. induction l as [| c r IH]; intros cur H; simpl.
  - now rewrite app_nil_r.
  - simpl in H. apply andb_true_iff in H. destruct H as [Hc Hr].
    apply negb_true_iff in Hc. rewrite Hc, (IH _ Hr). simpl.
    now rewrite <- app_assoc.
Qed.

Lemma split_chars_sep (sep : ascii) (cur l rest : list ascii) :
  forallb (fun c => negb (Ascii.eqb c sep)) l = true ->
  PyStr.split_chars sep cur (l ++ sep :: rest)
  = PyStr.of_chars (rev cur ++ l) :: PyStr.split_chars sep [] rest.
Proof.
  revert cur. induction l as [| c r IH]; intros cur H; simpl.
  - now rewrite Ascii.eqb_refl, app_nil_r.
  - simpl in H. apply andb_true_iff in H. destruct H as [Hc Hr].
    apply negb_true_iff in Hc. rewrite Hc, (IH _ Hr). simpl.
    now rewrite <- app_assoc.
Qed.

Lemma split_join (toks : list string) :
  toks <> [] ->
  Forall (fun t => forallb (fun c => negb (Ascii.eqb c ","))
                           (PyStr.chars t) = true) toks ->
  PyStr.split "," (PyStr.join "," toks) = toks.
Proof.
  unfold PyStr.split.
  induction toks as [| t r IH]; intros Hne Hall; [contradiction |].
  inversion Hall as [| ? ? Ht Hr]; subst.
  destruct r as [| t' r'].
  - simpl. rewrite split_chars_plain by exact Ht. simpl.
    now rewrite of_chars_chars.
  - change (PyStr.join "," (t :: t' :: r'))
      with (t ++ "," ++ PyStr.join "," (t' :: r')).
    rewrite chars_app. change (PyStr.chars ("," ++ ?s)) with ("," %char :: PyStr.chars s).
    rewrite split_chars_sep by exact Ht. simpl rev. simpl app at 1.
    rewrite of_chars_chars. f_equal. apply IH; [discriminate | exact Hr].
Qed.

Lemma length_app_ge (a b : string) :
  (String.length a <= String.length (a ++ b))%nat.
Proof. induction a as [| c a IH]; simpl; lia. Qed.

Lemma contains_sep (a b : string) :
  PyStr.contains "," (a ++ "," ++ b) = true.
Proof.
  unfold PyStr.contains.
  assert (H : forall fuel, (String.length a <= fuel)%nat ->
                PyStr.contains_from fuel "," (a ++ "," ++ b) = true).
  { induction a as [| c a IH]; intros fuel Hf.
    - assert (E : String.prefix "," ("" ++ "," ++ b) = true)
        by (simpl; destruct (ascii_dec "," ","); [now destruct b | congruence]).
      destruct fuel; cbn [PyStr.contains_from]; now rewrite E.
    - destruct fuel as [| fuel]; [simpl in Hf; lia |].
      cbn [PyStr.contains_from].
      destruct (String.prefix "," (String c a ++ "," ++ b)); [reflexivity |].
      simpl. apply IH. simpl in Hf. lia. }
  apply H, length_app_ge.
Qed.

(** ** Pattern challenges *)

Lemma contains_no_sep (s : string) :
  forallb (fun c => negb (Ascii.eqb c ",")) (PyStr.chars s) = true ->
  PyStr.contains "," s = false.
Proof.
  unfold PyStr.contains. generalize (String.length s). intros fuel.
  revert fuel. induction s as [| c r IH]; intros fuel H.
  - destruct fuel; reflexivity.
  - cbn [PyStr.chars list_ascii_of_string forallb] in H.
    apply andb_true_iff in H. destruct H as [Hc Hr].
    apply negb_true_iff in Hc.
    assert (E : String.prefix "," (String c r) = false).
    { cbn [String.prefix]. destruct (ascii_dec "," c) as [<- | _];
        [discriminate Hc | reflexivity]. }
    destruct fuel as [| fuel]; cbn [PyStr.contains_from]; rewrite E;
      [reflexivity | now apply IH].
Qed.

Lemma py_eq_int_lists (a b : list Z) :
  Py.eq (JList (map JInt a)) (JList (map JInt b)) = bool_decide (a = b).
Proof.
  cbn [Py.eq]. revert b.
  induction a as [| x a IH]; intros [| y b]; cbn [map].
  - reflexivity.
  - symmetry. apply bool_decide_eq_false. discriminate.
  - symmetry. apply bool_decide_eq_false. discriminate.
  - cbn [Py.eq]. rewrite IH.
    destruct (Z.eqb_spec x y) as [-> | Hne]; cbn [andb].
    + destruct (decide (a = b)) as [-> | Hab].
      * now rewrite !bool_decide_eq_true_2.
      * rewrite !bool_decide_eq_false_2; [reflexivity | congruence | exact Hab].
    + symmetry. apply bool_decide_eq_false. congruence.
Qed.

Lemma parse_indices_of_Z (idx : list Z) :
  Forall is_index idx ->
  GeminiClient.parse_indices (map PyStr.of_Z idx) = Ok (map JInt idx).
Proof.
  induction 1 as [| n idx Hn _ IH]; [reflexivity |].
  cbn [map GeminiClient.parse_indices].
  destruct (int_of_index n Hn) as (-> & -> & -> & _).
  cbn [bind]. now rewrite IH.
Qed.

Lemma index_string_parsed (idx : list Z) :
  Forall is_index idx ->
  (2 <= List.length idx)%nat ->
  let s := PyStr.join "," (map PyStr.of_Z idx) in
  PyStr.contains "," s = true
  /\ GeminiClient.parse_indices (PyStr.split "," s) = Ok (map JInt idx).
Proof.
  intros Hpos Hlen s. split.
  - destruct idx as [| x [| y r]]; simpl in Hlen; try lia.
    subst s. cbn [map]. apply contains_sep.
  - subst s. rewrite split_join.
    + now apply parse_indices_of_Z.
    + destruct idx; [simpl in Hlen; lia | discriminate].
    + apply List.Forall_forall. intros t Ht. apply in_map_iff in Ht.
      destruct Ht as (n & <- & Hin).
      rewrite List.Forall_forall in Hpos.
      now destruct (int_of_index n (Hpos n Hin)) as (_ & _ & _ & H).
Qed.

Section Pattern.

Variables (remote : remote_reply) (stored sol : json) (seq : list Z).
Hypothesis Hlocal : falls_back remote.
Hypothesis Htype : Py.get stored "captcha_type" JNull = Ok (JStr "pattern").
Hypothesis Hsol : Py.get stored "solution" (JDict []) = Ok sol.
Hypothesis Hseq : Py.get sol "sequence" JNull = Ok (JList (map JInt seq)).
Hypothesis Hne : seq <> [].

Lemma pattern_verdict (ua user_seq : json) :
  match ua with
  | JStr s =>
      if PyStr.contains "," s then
        try! arr := GeminiClient.parse_indices (PyStr.split "," s) in
        Ok (JList arr)
      else Ok ua
  | JList _ => Ok ua
  | _ => Ok (JList [])
  end = Ok user_seq ->
  GeminiClient.verify_with_ai remote stored ua
  = Ok (GeminiClient.verdict true
          (Py.eq user_seq (JList (map JInt seq)))
          "fallback-sequence-compare"
          [("normalized_answer", PJson user_seq)]).
Proof.
  intros Hua. rewrite verify_with_ai_local by exact Hlocal.
  unfold GeminiClient.local_verify, GeminiClient.local_heuristics.
  rewrite Htype, Hsol. cbn [bind].
  change (Py.list_mem (JStr "pattern") _) with false.
  change (Py.eq (JStr "pattern") (JStr "pattern")) with true.
  cbv iota. rewrite Hseq. cbn [bind].
  assert (Ht : Py.truthy (JList (map JInt seq)) = true)
    by (destruct seq; [contradiction | reflexivity]).
  rewrite Ht. cbn [bind]. rewrite Hua. reflexivity.
Qed.

Lemma pattern_list_answer (ans : list Z) :
  GeminiClient.verify_with_ai remote stored (JList (map JInt ans))
  = Ok (GeminiClient.verdict true (bool_decide (ans = seq))
          "fallback-sequence-compare"
          [("normalized_answer", PJson (JList (map JInt ans)))]).
Proof.
  rewrite (pattern_verdict _ (JList (map JInt ans))) by reflexivity.
  now rewrite py_eq_int_lists.
Qed.

Lemma pattern_string_answer (idx : list Z) :
  Forall is_index idx ->
  (2 <= List.length idx)%nat ->
  GeminiClient.verify_with_ai remote stored
    (JStr (PyStr.join "," (map PyStr.of_Z idx)))
  = Ok (GeminiClient.verdict true (bool_decide (idx = seq))
          "fallback-sequence-compare"
          [("normalized_answer", PJson (JList (map JInt idx)))]).
Proof.
  intros Hpos Hlen.
  destruct (index_string_parsed idx Hpos Hlen) as [Hc Hp].
  rewrite (pattern_verdict _ (JList (map JInt idx))).
  - now rewrite py_eq_int_lists.
  - rewrite Hc, Hp. reflexivity.
Qed.

(** A string without a comma is compared as a label, not as indices. *)
Lemma pattern_plain_string (s : string) :
  PyStr.contains "," s = false ->
  GeminiClient.verify_with_ai remote stored (JStr s)
  = Ok (GeminiClient.verdict true false "fallback-sequence-compare"
          [("normalized_answer", PJson (JStr s))]).
Proof.
  intros Hc. rewrite (pattern_verdict _ (JStr s)); [reflexivity |].
  now rewrite Hc.
Qed.

End Pattern.

(** C6, as stated, fails: a comma-separated string needs a comma.
    Against the solution [[3]] the string ["3"], which is the
    comma-separated form of that very sequence, holds no comma: it is
    compared as a label with the list and judged incorrect. *)
Lemma pattern_single_index_refused :
  PyStr.join "," (map PyStr.of_Z [3]) = "3"
  /\ GeminiClient.verify_with_ai NotConfigured
       (JDict [ ("captcha_type", JStr "pattern");
                ("solution", JDict [("sequence", JList [JInt 3])]) ])
       (JStr "3")
     = Ok (GeminiClient.verdict true false "fallback-sequence-compare"
             [("normalized_answer", PJson (JStr "3"))]).
Proof. split; reflexivity. Qed.

(** The empty sequence is never matched either: [sol.get("sequence") or
    sol.get("value")] replaces it by the (absent) value. *)
Example pattern_empty_sequence_refused :
  GeminiClient.verify_with_ai NotConfigured
    (JDict [ ("captcha_type", JStr "pattern");
             ("solution", JDict [("sequence", JList [])]) ])
    (JList [])
  = Ok (GeminiClient.verdict true false "fallback-sequence-compare"
          [("normalized_answer", PJson (JList []))]).
Proof. reflexivity. Qed.

(** C6 (amended): for a pattern challenge whose solution holds a
    non-empty [sequence] of integers and that is judged by the local
    fallback, the verdict is [ok] and [correct] is exactly the
    equality, order included, of the answer with [solution.sequence]:
    for an answer given as a list of integers, and for an answer given
    as a comma-separated string of two or more indices (each written
    with at most 4300 digits). A string without a comma, a single index
    included, is compared as a label and is never correct. So
    [[2,0,1]] is rejected and [[0,1,2]] accepted against the solution
    [[0,1,2]]. *)
Theorem pattern_exact_sequence
        (remote : remote_reply) (stored sol : json) (seq : list Z) :
  falls_back remote ->
  Py.get stored "captcha_type" JNull = Ok (JStr "pattern") ->
  Py.get stored "solution" (JDict []) = Ok sol ->
  Py.get sol "sequence" JNull = Ok (JList (map JInt seq)) ->
  seq <> [] ->
  (forall ans : list Z,
     GeminiClient.verify_with_ai remote stored (JList (map JInt ans))
     = Ok (GeminiClient.verdict true (bool_decide (ans = seq))
             "fallback-sequence-compare"
             [("normalized_answer", PJson (JList (map JInt ans)))]))
  /\ (forall idx : list Z,
        Forall is_index idx -> (2 <= List.length idx)%nat ->
        GeminiClient.verify_with_ai remote stored
          (JStr (PyStr.join "," (map PyStr.of_Z idx)))
        = Ok (GeminiClient.verdict true (bool_decide (idx = seq))
                "fallback-sequence-compare"
                [("normalized_answer", PJson (JList (map JInt idx)))]))
  /\ (forall s : string,
        PyStr.contains "," s = false ->
        GeminiClient.verify_with_ai remote stored (JStr s)
        = Ok (GeminiClient.verdict true false "fallback-sequence-compare"
                [("normalized_answer", PJson (JStr s))]))
  /\ (seq = [0; 1; 2] ->
      GeminiClient.verify_with_ai remote stored (JList [JInt 2; JInt 0; JInt 1])
      = Ok (GeminiClient.verdict true false "fallback-sequence-compare"
              [("normalized_answer", PJson (JList [JInt 2; JInt 0; JInt 1]))])
      /\ GeminiClient.verify_with_ai remote stored
           (JList [JInt 0; JInt 1; JInt 2])
         = Ok (GeminiClient.verdict true true "fallback-sequence-compare"
                 [("normalized_answer",
                   PJson (JList [JInt 0; JInt 1; JInt 2]))])).
Proof.
  intros Hlocal Htype Hsol Hseq Hne. split; [| split; [| split]].
  - intros ans. now apply (pattern_list_answer remote stored sol seq).
  - intros idx. now apply (pattern_string_answer remote stored sol seq).
  - intros s. now apply (pattern_plain_string remote stored sol seq).
  - intros ->. split.
    + exact (pattern_list_answer remote stored sol [0; 1; 2]
               Hlocal Htype Hsol Hseq Hne [2; 0; 1]).
    + exact (pattern_list_answer remote stored sol [0; 1; 2]
               Hlocal Htype Hsol Hseq Hne [0; 1; 2]).
Qed.

Lemma pattern_exact_sequence_witness :
  let stored :=
    JDict [ ("captcha_type", JStr "pattern");
            ("solution",
             JDict [("sequence", JList [JInt 0; JInt 1; JInt 2])]) ] in
  GeminiClient.verify_with_ai NotConfigured stored (JStr "0,1,2")
  = Ok (GeminiClient.verdict true true "fallback-sequence-compare"
          [("normalized_answer", PJson (JList [JInt 0; JInt 1; JInt 2]))])
  /\ GeminiClient.verify_with_ai NotConfigured stored (JStr "2,0,1")
     = Ok (GeminiClient.verdict true false "fallback-sequence-compare"
             [("normalized_answer", PJson (JList [JInt 2; JInt 0; JInt 1]))]).
Proof.
  intros stored.
  pose proof (pattern_exact_sequence NotConfigured stored
                (JDict [("sequence", JList [JInt 0; JInt 1; JInt 2])])
                [0; 1; 2] I eq_refl eq_refl eq_refl
                ltac:(discriminate)) as (_ & Hstr & _ & _).
  assert (Hidx : forall n, In n [0; 1; 2] -> is_index n).
  { intros n Hn. cbn [In] in Hn.
    destruct Hn as [<- | [<- | [<- | []]]];
      (split; [lia | apply Nat.leb_le; vm_compute; reflexivity]). }
  split.
  - apply (Hstr [0; 1; 2]); [| simpl; lia].
    apply List.Forall_forall. exact Hidx.
  - apply (Hstr [2; 0; 1]); [| simpl; lia].
    apply List.Forall_forall. intros n Hn. apply Hidx.
    cbn [In] in *. tauto.
Defined.

(** ** Image challenges with a click target *)

Lemma hypot_le_spec (dx dy tol : Z) :
  GeminiClient.hypot_le dx dy tol = true
  <-> (sqrt (IZR dx * IZR dx + IZR dy * IZR dy) <= IZR tol)%R.
Proof.
  unfold GeminiClient.hypot_le.
  rewrite andb_true_iff, Z.leb_le, Z.leb_le.
  assert (Hs : (0 <= IZR dx * IZR dx + IZR dy * IZR dy)%R).
  { pose proof (Rle_0_sqr (IZR dx)) as H1. pose proof (Rle_0_sqr (IZR dy)) as H2.
    unfold Rsqr in H1, H2. Lra.lra. }
  split.
  - intros [Htol Hle].
    apply IZR_le in Htol. apply IZR_le in Hle.
    rewrite plus_IZR, !mult_IZR in Hle.
    rewrite <- (sqrt_square (IZR tol)) by exact Htol.
    now apply sqrt_le_1_alt.
  - intros Hle.
    pose proof (sqrt_pos (IZR dx * IZR dx + IZR dy * IZR dy)) as Hpos.
    assert (Htol : (0 <= IZR tol)%R) by Lra.lra.
    split; [now apply le_IZR |].
    apply le_IZR. rewrite plus_IZR, !mult_IZR.
    rewrite <- (sqrt_sqrt _ Hs) at 1.
    apply Rmult_le_compat; assumption.
Qed.

Lemma to_float_ok (n : Z) :
  Z.abs n < GeminiClient.float_limit -> GeminiClient.to_float n = Ok n.
Proof.
  intros H. unfold GeminiClient.to_float.
  apply Z.leb_gt in H. now rewrite H.
Qed.

Lemma exact_below_limit (n : Z) :
  Z.abs n <= GeminiClient.exact_tolerance -> Z.abs n < GeminiClient.float_limit.
Proof.
  intros H. apply (Z.le_lt_trans _ _ _ H). reflexivity.
Qed.

Section ImagePoint.

Variables (remote : remote_reply) (stored sol : json) (tx ty tol : Z).
Hypothesis Hlocal : falls_back remote.
Hypothesis Htype : Py.get stored "captcha_type" JNull = Ok (JStr "image").
Hypothesis Hsol : Py.get stored "solution" (JDict []) = Ok sol.
Hypothesis Hx : Py.get sol "x" JNull = Ok (JInt tx).
Hypothesis Hy : Py.get sol "y" JNull = Ok (JInt ty).
Hypothesis Htol : Py.get sol "tolerance" (JInt 18) = Ok (JInt tol).

Lemma has_coordinates :
  Py.contains "x" sol = Ok true /\ Py.contains "y" sol = Ok true.
Proof.
  destruct sol as [| | | | | d]; try discriminate Hx.
  cbn [Py.get] in Hx, Hy. cbn [Py.contains]. unfold Py.dict_has.
  destruct (Py.dict_get "x" d); [| discriminate Hx].
  destruct (Py.dict_get "y" d); [| discriminate Hy].
  split; reflexivity.
Qed.

Lemma image_point_verdict (ua : json) (ux uy : Z) :
  match ua with
  | JDict _ =>
      Py.get ua "x" (JInt (-9999)) = Ok (JInt ux)
      /\ Py.get ua "y" (JInt (-9999)) = Ok (JInt uy)
  | JList (e0 :: e1 :: _) => e0 = JInt ux /\ e1 = JInt uy
  | _ => False
  end ->
  Z.abs (ux - tx) < GeminiClient.float_limit ->
  Z.abs (uy - ty) < GeminiClient.float_limit ->
  GeminiClient.verify_with_ai remote stored ua
  = Ok (GeminiClient.verdict true
          (GeminiClient.hypot_le (ux - tx) (uy - ty) tol) "fallback-point"
          [("normalized_answer", PDistance (ux - tx) (uy - ty))]).
Proof.
  intros Hua Hdx Hdy. rewrite verify_with_ai_local by exact Hlocal.
  unfold GeminiClient.local_verify, GeminiClient.local_heuristics.
  rewrite Htype, Hsol. cbn [bind].
  change (Py.list_mem (JStr "image") _) with false.
  change (Py.eq (JStr "image") (JStr "pattern")) with false.
  change (Py.eq (JStr "image") (JStr "image")) with true.
  cbv iota.
  destruct has_coordinates as [-> ->]. cbn [bind andb].
  unfold GeminiClient.image_point, GeminiClient.image_point_body.
  rewrite Hx, Hy, Htol. cbn [bind Py.int].
  destruct ua as [| | | | [| e0 [| e1 l]] | d]; try contradiction.
  - destruct Hua as [-> ->]. cbn [Py.int bind].
    now rewrite (to_float_ok _ Hdx), (to_float_ok _ Hdy).
  - destruct Hua as [-> ->]. cbn [Py.int bind].
    now rewrite (to_float_ok _ Hdx), (to_float_ok _ Hdy).
Qed.

End ImagePoint.

(** C7, as stated, fails: the distance is a [float]. With the target
    [(0, 0)], the tolerance [10^400] and the answer [(10^400, 0)] the
    distance equals the tolerance, yet the answer is not judged
    correct: the conversion of the coordinate to [float] raises
    [OverflowError] and the verdict is [ok] false. *)
Lemma image_point_overflow_refused :
  GeminiClient.verify_with_ai NotConfigured
    (JDict [ ("captcha_type", JStr "image");
             ("solution",
              JDict [ ("x", JInt 0); ("y", JInt 0);
                      ("tolerance", JInt (10 ^ 400)) ]) ])
    (JDict [("x", JInt (10 ^ 400)); ("y", JInt 0)])
  = Ok (GeminiClient.verdict false false "fallback-exception-image"
          [("error", PJson (JStr "int too large to convert to float"))])
  /\ (sqrt (IZR (10 ^ 400 - 0) * IZR (10 ^ 400 - 0)
            + IZR (0 - 0) * IZR (0 - 0)) <= IZR (10 ^ 400))%R.
Proof.
  split; [vm_compute; reflexivity |].
  apply hypot_le_spec. vm_compute. reflexivity.
Qed.

(** C7 (amended): for an image challenge whose solution has integer
    [x], [y] and [tolerance], the tolerance being at most [2^25], and
    that is judged by the local fallback, an answer given as a
    dictionary [{x, y}] or as a coordinate pair (a list whose first two
    elements are the coordinates), with integer coordinates no further
    than [2^25] from the target on each axis, gets the verdict [ok],
    with [correct] true exactly when the Euclidean distance from the
    answer to the target is at most the tolerance; for the target
    [(100, 100)] with tolerance 15 the answer [(108, 105)] is correct
    and [(120, 120)] is not. *)
Theorem image_point_tolerance
        (remote : remote_reply) (stored sol : json) (tx ty tol : Z) :
  falls_back remote ->
  Py.get stored "captcha_type" JNull = Ok (JStr "image") ->
  Py.get stored "solution" (JDict []) = Ok sol ->
  Py.get sol "x" JNull = Ok (JInt tx) ->
  Py.get sol "y" JNull = Ok (JInt ty) ->
  Py.get sol "tolerance" (JInt 18) = Ok (JInt tol) ->
  tol <= GeminiClient.exact_tolerance ->
  let near (ux uy : Z) :=
    Z.abs (ux - tx) <= GeminiClient.exact_tolerance
    /\ Z.abs (uy - ty) <= GeminiClient.exact_tolerance in
  let within (ux uy : Z) :=
    (sqrt ((IZR ux - IZR tx) * (IZR ux - IZR tx)
           + (IZR uy - IZR ty) * (IZR uy - IZR ty)) <= IZR tol)%R in
  (forall ux uy d,
     Py.dict_get "x" d = Some (JInt ux) ->
     Py.dict_get "y" d = Some (JInt uy) ->
     near ux uy ->
     exists correct,
       GeminiClient.verify_with_ai remote stored (JDict d)
       = Ok (GeminiClient.verdict true correct "fallback-point"
               [("normalized_answer", PDistance (ux - tx) (uy - ty))])
       /\ (correct = true <-> within ux uy))
  /\ (forall ux uy rest,
        near ux uy ->
        exists correct,
          GeminiClient.verify_with_ai remote stored
            (JList (JInt ux :: JInt uy :: rest))
          = Ok (GeminiClient.verdict true correct "fallback-point"
                  [("normalized_answer", PDistance (ux - tx) (uy - ty))])
          /\ (correct = true <-> within ux uy))
  /\ (tx = 100 -> ty = 100 -> tol = 15 ->
      GeminiClient.verify_with_ai remote stored
        (JDict [("x", JInt 108); ("y", JInt 105)])
      = Ok (GeminiClient.verdict true true "fallback-point"
              [("normalized_answer", PDistance 8 5)])
      /\ GeminiClient.verify_with_ai remote stored
           (JDict [("x", JInt 120); ("y", JInt 120)])
         = Ok (GeminiClient.verdict true false "fallback-point"
                 [("normalized_answer", PDistance 20 20)])).
Proof.
  intros Hlocal Htype Hsol Hx Hy Htol _ near within.
  assert (Hspec : forall ux uy,
             GeminiClient.hypot_le (ux - tx) (uy - ty) tol = true
             <-> within ux uy).
  { intros ux uy. subst within. cbv beta.
    rewrite hypot_le_spec, !minus_IZR. reflexivity. }
  split; [| split].
  - intros ux uy d Hdx Hdy [Hnx Hny].
    exists (GeminiClient.hypot_le (ux - tx) (uy - ty) tol).
    split; [| apply Hspec].
    apply (image_point_verdict remote stored sol tx ty tol
             Hlocal Htype Hsol Hx Hy Htol (JDict d) ux uy).
    + cbn [Py.get]. now rewrite Hdx, Hdy.
    + now apply exact_below_limit.
    + now apply exact_below_limit.
  - intros ux uy rest [Hnx Hny].
    exists (GeminiClient.hypot_le (ux - tx) (uy - ty) tol).
    split; [| apply Hspec].
    apply (image_point_verdict remote stored sol tx ty tol
             Hlocal Htype Hsol Hx Hy Htol
             (JList (JInt ux :: JInt uy :: rest)) ux uy);
      [split; reflexivity | now apply exact_below_limit ..].
  - intros -> -> ->. split.
    + now apply (image_point_verdict remote stored sol 100 100 15
                   Hlocal Htype Hsol Hx Hy Htol
                   (JDict [("x", JInt 108); ("y", JInt 105)]) 108 105).
    + now apply (image_point_verdict remote stored sol 100 100 15
                   Hlocal Htype Hsol Hx Hy Htol
                   (JDict [("x", JInt 120); ("y", JInt 120)]) 120 120).
Qed.

Lemma image_point_tolerance_witness :
  GeminiClient.verify_with_ai NotConfigured target_100_100_15
    (JDict [("x", JInt 108); ("y", JInt 105)])
  = Ok (GeminiClient.verdict true true "fallback-point"
          [("normalized_answer", PDistance 8 5)])
  /\ GeminiClient.verify_with_ai NotConfigured target_100_100_15
       (JDict [("x", JInt 120); ("y", JInt 120)])
     = Ok (GeminiClient.verdict true false "fallback-point"
             [("normalized_answer", PDistance 20 20)]).
Proof.
  apply (image_point_tolerance NotConfigured target_100_100_15
           (JDict [("x", JInt 100); ("y", JInt 100); ("tolerance", JInt 15)])
           100 100 15 I eq_refl eq_refl eq_refl eq_refl eq_refl);
    [vm_compute; discriminate | reflexivity ..].
Defined.

(** The two answers of the specification's example. *)
Example image_108_105_correct :
  GeminiClient.verify_with_ai NotConfigured target_100_100_15
    (JDict [("x", JInt 108); ("y", JInt 105)])
  = Ok (GeminiClient.verdict true true "fallback-point"
          [("normalized_answer", PDistance 8 5)]).
Proof. reflexivity. Qed.

Example image_120_120_incorrect :
  GeminiClient.verify_with_ai NotConfigured target_100_100_15
    (JDict [("x", JInt 120); ("y", JInt 120)])
  = Ok (GeminiClient.verdict true false "fallback-point"
          [("normalized_answer", PDistance 20 20)]).
Proof. reflexivity. Qed.

(** ** The session store under the agents *)

Lemma merge_created (s : Sessions.Session) (data : Sessions.Update) :
  Sessions.created (Sessions.merge s data) = Sessions.created s.
Proof. reflexivity. Qed.

Lemma cleanup_lookup_live (now : Q) (st : Sessions.InMemorySession)
      (sid : string) (s : Sessions.Session) :
  Sessions.sessions st !! sid = Some s ->
  Sessions.expired now s = false ->
  Sessions.sessions (Sessions._cleanup now st) !! sid = Some s.
Proof.
  intros Hs Hlive. unfold Sessions._cleanup.
  destruct (Clock.ltb _ _); [| exact Hs].
  cbn [Sessions.sessions]. apply map_lookup_filter_Some. split; assumption.
Qed.

(** [update] on a session that [get] has just returned writes the given
    keys and keeps the entry. *)
Lemma update_lookup (now : Q) (sid : string) (data : Sessions.Update)
      (st : Sessions.InMemorySession) (s : Sessions.Session) :
  Sessions.sessions st !! sid = Some s ->
  Sessions.expired now s = false ->
  Sessions.sessions (Sessions.update now sid data st) !! sid
  = Some (Sessions.merge s data).
Proof.
  intros Hs Hlive. unfold Sessions.update. rewrite Hs.
  apply cleanup_lookup_live; [apply lookup_insert_eq | exact Hlive].
Qed.

Lemma world_eta (w : Agents.World) :
  {| Agents.store := Agents.store w; Agents.judged := Agents.judged w |} = w.
Proof. now destruct w. Qed.

Lemma last_default {A} (l : list A) (d d' : A) :
  l <> [] -> List.last l d = List.last l d'.
Proof.
  induction l as [| x [| y r] IH]; intros Hne;
    [contradiction | reflexivity |].
  change (List.last (y :: r) d = List.last (y :: r) d').
  apply IH. discriminate.
Qed.

(** ** agents.py: the validator *)

Section Validator.

Variable HMAC_SECRET : string.

Abbreviation run := (Agents.ValidatorAgent_run HMAC_SECRET).
Abbreviation verifies now sid c :=
  (Security.verify_signature HMAC_SECRET now sid
     (Json.dumps (Sessions.challenge c)) (Sessions.signature c)).

Lemma run_rate_limited (now : Q) (remote : remote_reply) (sid : string)
      (ua : json) (w : Agents.World) (s : Sessions.Session)
      (c : Sessions.Captcha) :
  Sessions.sessions (Agents.store w) !! sid = Some s ->
  Sessions.expired now s = false ->
  Sessions.captcha s = Some c ->
  verifies now sid c = Ok true ->
  6 <= Sessions.attempts s ->
  (now - Sessions.last_attempt s < 60)%Q ->
  run now remote sid ua w = (Ok Agents.rate_limited, w).
Proof.
  intros Hs Hlive Hc Hsig Hatt Hlast.
  unfold Agents.ValidatorAgent_run.
  rewrite (get_live now sid _ s Hs Hlive), world_eta, Hc, Hsig.
  apply Z.leb_le in Hatt. apply ltb_lt in Hlast.
  now rewrite Hatt, Hlast.
Qed.

(** Every reply of [run], with the world it leaves. *)
Lemma run_cases (now : Q) (remote : remote_reply) (sid : string)
      (ua : json) (w w' : Agents.World) (r : pdict) :
  run now remote sid ua w = (Ok r, w') ->
  (r = Agents.no_active_captcha)
  \/ (r = Agents.signature_invalid /\ w' = w)
  \/ (r = Agents.rate_limited /\ w' = w)
  \/ (exists s c,
        Sessions.sessions (Agents.store w) !! sid = Some s
        /\ Sessions.expired now s = false
        /\ Sessions.captcha s = Some c
        /\ Agents.judged w' = (Sessions.challenge c, ua) :: Agents.judged w
        /\ ((exists meta,
               r = Agents.verification_unavailable meta
               /\ Sessions.sessions (Agents.store w') !! sid
                  = Some (recorded now s))
            \/ (exists e n,
                  r = Agents.captcha_incorrect e n
                  /\ Sessions.sessions (Agents.store w') !! sid
                     = Some (recorded now s))
            \/ (exists e n,
                  r = Agents.captcha_correct e n
                  /\ Sessions.sessions (Agents.store w') !! sid
                     = Some (solved now s)))).
Proof.
  unfold Agents.ValidatorAgent_run.
  destruct (Sessions.get now sid (Agents.store w)) as [[s |] st] eqn:G;
    [| intros [= <- <-]; now left].
  apply get_some_inv in G. destruct G as (-> & Hs & Hlive).
  rewrite world_eta.
  destruct (Sessions.captcha s) as [c |] eqn:Hc;
    [| intros [= <- <-]; now left].
  destruct (Security.verify_signature _ _ _ _ _) as [[|] | e];
    [| intros [= <- <-]; right; left; now split | discriminate].
  destruct (_ && _); [intros [= <- <-]; right; right; left; now split |].
  destruct (GeminiClient.verify_with_ai remote _ ua) as [v | e];
    [| discriminate].
  cbn [Agents.store Agents.judged].
  set (data1 := {| Sessions.set_captcha := None;
                   Sessions.set_attempts := Some (Sessions.attempts s + 1);
                   Sessions.set_last_attempt := Some now;
                   Sessions.set_generation_count := None |}).
  pose proof (update_lookup now sid data1 _ s Hs Hlive) as H1.
  assert (Hm1 : Sessions.merge s data1 = recorded now s) by reflexivity.
  rewrite Hm1 in H1.
  intros H. right. right. right. exists s, c.
  destruct (negb _).
  { injection H as <- <-. repeat split; try assumption. left. eauto. }
  destruct (PDict.truthy _).
  - injection H as <- <-. repeat split; try assumption.
    right. right. eexists _, _. split; [reflexivity |].
    cbn [Agents.store].
    now rewrite (update_lookup now sid _ _ (recorded now s) H1 Hlive).
  - injection H as <- <-. repeat split; try assumption.
    right. left. eauto.
Qed.

(** C10: when [ValidatorAgent.run] rejects a submission because the
    stored signature fails verification or because the rate limit
    applies, it leaves the world as it found it: the session table (so
    [attempts], [last_attempt] and the active challenge of the session)
    and the record of oracle calls are unchanged. *)
Theorem rejection_leaves_session_unchanged
        (now : Q) (remote : remote_reply) (sid : string) (ua : json)
        (w w' : Agents.World) (r : pdict) :
  run now remote sid ua w = (Ok r, w') ->
  r = Agents.signature_invalid \/ r = Agents.rate_limited ->
  w' = w.
Proof.
  intros Hrun Hr.
  destruct (run_cases now remote sid ua w w' r Hrun)
    as [-> | [[_ ->] | [[_ ->] | (s & c & _ & _ & _ & _ & Hrest)]]];
    try reflexivity.
  - destruct Hr as [Hr | Hr]; discriminate Hr.
  - exfalso.
    destruct Hrest as [(? & -> & _) | [(? & ? & -> & _) | (? & ? & -> & _)]];
      destruct Hr as [Hr | Hr]; discriminate Hr.
Qed.

(** After attempts that all came back incorrect, the session still
    holds its challenge, has counted each of them and remembers the
    time of the last one. *)
Lemma after_incorrect_attempts (sid : string)
      (subs : list (Q * remote_reply * json)) (w : Agents.World)
      (s : Sessions.Session) :
  Sessions.sessions (Agents.store w) !! sid = Some s ->
  Forall incorrect (fst (submit_all HMAC_SECRET sid subs w)) ->
  exists s',
    Sessions.sessions (Agents.store (snd (submit_all HMAC_SECRET sid subs w)))
      !! sid = Some s'
    /\ Sessions.created s' = Sessions.created s
    /\ Sessions.captcha s' = Sessions.captcha s
    /\ Sessions.attempts s' = Sessions.attempts s + Z.of_nat (List.length subs)
    /\ Sessions.last_attempt s'
       = List.last (map (fun x => fst (fst x)) subs) (Sessions.last_attempt s).
Proof.
  revert w s. induction subs as [| [[now remote] ua] rest IH]; intros w s Hs Hall.
  - exists s. cbn. repeat split; [exact Hs | lia].
  - cbn [submit_all] in *.
    destruct (run now remote sid ua w) as [r w1] eqn:Hrun.
    destruct (submit_all HMAC_SECRET sid rest w1) as [rs w2] eqn:Hrest.
    cbn [fst snd] in *.
    inversion Hall as [| ? ? (v & -> & Hmsg) Hall']; subst.
    destruct (run_cases now remote sid ua w w1 v Hrun)
      as [-> | [[-> _] | [[-> _] | (s0 & c & Hs0 & Hlive & Hc & _ & Hcase)]]];
      try discriminate Hmsg.
    destruct Hcase as [(? & -> & _) | [(e & n & -> & H1) | (? & ? & -> & _)]];
      try discriminate Hmsg.
    assert (s0 = s) by congruence. subst s0.
    specialize (IH w1 (recorded now s) H1).
    rewrite Hrest in IH. cbn [fst snd] in IH.
    destruct (IH Hall') as (s' & Hs' & Hcr & Hcap & Hatt & Hlast).
    exists s'. repeat split; try assumption.
    + rewrite Hatt. cbn [recorded Sessions.attempts List.length]. lia.
    + rewrite Hlast.
      destruct rest as [| x rest']; [reflexivity |].
      transitivity
        (List.last (map (fun y : Q * remote_reply * json => fst (fst y))
                        (x :: rest'))
                   (Sessions.last_attempt s));
        [apply last_default; discriminate | reflexivity].
Qed.

(** C3: for a session with an active challenge whose stored signature
    verifies, if the attempts counter is at least 6 and less than 60
    seconds have passed since [last_attempt], [ValidatorAgent.run]
    answers with the rate-limit error without calling [verify_with_ai]
    (the record of oracle calls and the session table are unchanged).
    In particular, after 6 attempts that came back incorrect, a 7th
    attempt made less than 60 seconds after the 6th is rejected in
    this way. *)
Theorem rate_limit_rejects (sid : string) :
  (forall now remote ua w s c,
     Sessions.sessions (Agents.store w) !! sid = Some s ->
     Sessions.expired now s = false ->
     Sessions.captcha s = Some c ->
     verifies now sid c = Ok true ->
     6 <= Sessions.attempts s ->
     (now - Sessions.last_attempt s < 60)%Q ->
     run now remote sid ua w = (Ok Agents.rate_limited, w))
  /\ (forall subs w s c t6 now remote ua,
        Sessions.sessions (Agents.store w) !! sid = Some s ->
        Sessions.captcha s = Some c ->
        0 <= Sessions.attempts s ->
        List.length subs = 6%nat ->
        Forall incorrect (fst (submit_all HMAC_SECRET sid subs w)) ->
        List.last (map (fun x => fst (fst x)) subs) 0%Q = t6 ->
        (now - t6 < 60)%Q ->
        Sessions.expired now s = false ->
        verifies now sid c = Ok true ->
        let w6 := snd (submit_all HMAC_SECRET sid subs w) in
        run now remote sid ua w6 = (Ok Agents.rate_limited, w6)).
Proof.
  split.
  - intros now remote ua w s c. apply run_rate_limited.
  - intros subs w s c t6 now remote ua Hs Hc Hatt Hlen Hall Ht6 Hnow Hlive Hsig w6.
    destruct (after_incorrect_attempts sid subs w s Hs Hall)
      as (s' & Hs' & Hcr & Hcap & Hatt' & Hlast).
    apply (run_rate_limited now remote sid ua w6 s' c).
    + exact Hs'.
    + unfold Sessions.expired in *. now rewrite Hcr.
    + congruence.
    + exact Hsig.
    + rewrite Hatt', Hlen. lia.
    + rewrite Hlast.
      destruct subs as [| x subs']; [discriminate Hlen |].
      rewrite (last_default _ (Sessions.last_attempt s) 0%Q) by discriminate.
      rewrite Ht6. exact Hnow.
Qed.


End Validator.

Lemma rejection_leaves_session_unchanged_witness :
  snd (Agents.ValidatorAgent_run "secret" 700 NotConfigured "sid" (JStr "x")
         sample_world) = sample_world.
Proof.
  apply (rejection_leaves_session_unchanged "secret" 700 NotConfigured "sid"
           (JStr "x") sample_world _ Agents.signature_invalid).
  - vm_compute. reflexivity.
  - left. reflexivity.
Defined.

Lemma rate_limit_rejects_witness :
  let w6 := snd (submit_all "secret" "sid" six_wrong sample_world) in
  Agents.ValidatorAgent_run "secret" 17 NotConfigured "sid" (JStr "solra42") w6
  = (Ok Agents.rate_limited, w6).
Proof.
  refine (proj2 (rate_limit_rejects "secret" "sid") six_wrong sample_world
            _ _ 16%Q 17%Q NotConfigured (JStr "solra42") _ _ _ _ _ _ _ _ _).
  - vm_compute. reflexivity.
  - vm_compute. reflexivity.
  - vm_compute. discriminate.
  - reflexivity.
  - vm_compute.
    repeat (constructor; [eexists; split; reflexivity |]). constructor.
  - vm_compute. reflexivity.
  - vm_compute. reflexivity.
  - vm_compute. reflexivity.
  - vm_compute. reflexivity.
Defined.


(** ** agents.py: the generator *)

Lemma dict_get_set_eq (k : string) (v : json) (d : list (string * json)) :
  Py.dict_get k (Py.dict_set k v d) = Some v.
Proof.
  induction d as [| [k' v'] r IH]; cbn [Py.dict_set Py.dict_get].
  - now rewrite String.eqb_refl.
  - destruct (String.eqb k k') eqn:E; cbn [Py.dict_get]; rewrite ?E;
      [now rewrite String.eqb_refl | exact IH].
Qed.

Lemma dict_get_set_ne (k k' : string) (v : json) (d : list (string * json)) :
  k' <> k -> Py.dict_get k' (Py.dict_set k v d) = Py.dict_get k' d.
Proof.
  intros Hne. induction d as [| [k0 v0] r IH]; cbn [Py.dict_set Py.dict_get].
  - destruct (String.eqb_spec k' k); [contradiction | reflexivity].
  - destruct (String.eqb_spec k k0) as [-> | Hk]; cbn [Py.dict_get].
    + destruct (String.eqb_spec k' k0); [contradiction | reflexivity].
    + destruct (String.eqb_spec k' k0); [reflexivity | exact IH].
Qed.

Lemma dict_set_present (k : string) (v : json) (d : list (string * json)) :
  Py.dict_has k (Py.dict_set k v d) = true.
Proof. unfold Py.dict_has. now rewrite dict_get_set_eq. Qed.

Section Generator.

Variable HMAC_SECRET : string.
Variable R : CaptchaGenerator.Renderer.

Abbreviation generate := (Agents.GeneratorAgent_run HMAC_SECRET R).

(** A type outside the six known ones reaches the last branch of the
    dispatch. *)
Lemma render_unsupported (challenge ctype ui_data : json)
      (rendered_ui : list (string * json)) :
  Py.list_mem ctype known_types = false ->
  Agents.render R challenge ctype ui_data rendered_ui
  = Raise (Exception ("Unsupported captcha_type '" ++ Py.str ctype ++ "'")).
Proof.
  intros Hmem. unfold Agents.render.
  unfold Py.list_mem, known_types in *. cbn [existsb] in *.
  repeat (apply orb_false_iff in Hmem; destruct Hmem as [? Hmem]).
  repeat match goal with H : Py.eq _ _ = false |- _ => rewrite H; clear H end.
  reflexivity.
Qed.

(** C4: when [GeneratorAgent.run] is invoked on an existing session and
    the rendering step raises [e], whatever the reason (an unknown
    challenge type raises), the oracle's challenge is replaced by the
    text challenge whose word is ["solara"] followed by the current
    time modulo 10000, whose instructions and question are
    ["Type the word '<word>'"], whose solution is the word and whose
    metadata hold [fallback = True] and the message of [e]; this
    challenge is signed and stored, and its view is what the client
    receives. *)
Theorem render_failure_falls_back
        (now : Q) (remote : remote_reply) (remote_cid : string)
        (d : GeminiClient.Draws) (sid : string)
        (st : Sessions.InMemorySession) (s : Sessions.Session)
        (items rendered_ui : list (string * json)) (ctype ui_data : json)
        (e : exn) :
  Sessions.sessions st !! sid = Some s ->
  Sessions.expired now s = false ->
  GeminiClient.decide_and_create_challenge remote remote_cid d = JDict items ->
  Agents.before_try (JDict items) = Ok (ctype, ui_data, rendered_ui) ->
  Agents.render R (JDict items) ctype ui_data rendered_ui = Raise e ->
  let word := "solara" ++ PyStr.of_Z (Clock.to_int now mod 10000) in
  let text := "Type the word '" ++ word ++ "'" in
  let captcha_id :=
    default (JStr ("fallback-" ++ PyStr.of_Z (Clock.to_int now)))
            (Py.dict_get "captcha_id" items) in
  let fallback :=
    JDict [ ("captcha_id", captcha_id);
            ("captcha_type", JStr "text");
            ("instructions", JStr text);
            ("ui_data", JDict [("question", JStr text)]);
            ("solution", JDict [("value", JStr word)]);
            ("metadata", JDict [ ("fallback", JBool true);
                                 ("render_error", JStr (exn_str e)) ]) ] in
  let signature :=
    Security.sign_payload HMAC_SECRET now sid (Json.dumps fallback) in
  exists st',
    generate now remote remote_cid d sid st
    = (Ok (JDict [ ("captcha_id", captcha_id);
                   ("captcha_type", JStr "text");
                   ("instructions", JStr text);
                   ("ui_data", JDict [("question", JStr text)]);
                   ("signature", JStr signature) ]), st')
    /\ Sessions.sessions st' !! sid
       = Some {| Sessions.created := Sessions.created s;
                 Sessions.captcha :=
                   Some {| Sessions.challenge := fallback;
                           Sessions.signature := signature;
                           Sessions.captcha_created := now |};
                 Sessions.attempts := 0;
                 Sessions.last_attempt := 0;
                 Sessions.generation_count :=
                   Sessions.generation_count s + 1 |}
    /\ (Py.list_mem ctype known_types = false ->
        e = Exception ("Unsupported captcha_type '" ++ Py.str ctype ++ "'")).
Proof.
  intros Hs Hlive Hch Hbefore Hrender word text captcha_id fallback signature.
  eexists. split; [| split].
  - unfold Agents.GeneratorAgent_run.
    rewrite (get_live now sid st s Hs Hlive), Hch, Hbefore, Hrender.
    reflexivity.
  - rewrite (update_lookup now sid _ st s Hs Hlive). reflexivity.
  - intros Hmem. rewrite render_unsupported in Hrender by exact Hmem.
    now injection Hrender as <-.
Qed.

End Generator.

Lemma render_failure_falls_back_witness :
  fst (issue "audio")
  = Ok (JDict [ ("captcha_id", JStr "0123456789ab");
                ("captcha_type", JStr "text");
                ("instructions", JStr "Type the word 'solara10'");
                ("ui_data",
                 JDict [("question", JStr "Type the word 'solara10'")]);
                ("signature",
                 JStr (Security.sign_payload "secret" 10 "sid"
                         (Json.dumps
                            (JDict
                               [ ("captcha_id", JStr "0123456789ab");
                                 ("captcha_type", JStr "text");
                                 ("instructions",
                                  JStr "Type the word 'solara10'");
                                 ("ui_data",
                                  JDict [("question",
                                          JStr "Type the word 'solara10'")]);
                                 ("solution",
                                  JDict [("value", JStr "solara10")]);
                                 ("metadata",
                                  JDict [ ("fallback", JBool true);
                                          ("render_error",
                                           JStr "no network") ]) ])))) ]).
Proof.
  destruct (render_failure_falls_back "secret" sample_renderer 10 NotConfigured
              "" (sample_draws "audio") "sid" sample_store (Sessions.fresh 0)
              _ _ _ _ (RuntimeError "no network")
              (lookup_singleton_eq _ _) eq_refl eq_refl eq_refl eq_refl)
    as (st' & Hrun & _).
  unfold issue. rewrite Hrun. reflexivity.
Defined.

Section GeneratorView.

Variable HMAC_SECRET : string.
Variable R : CaptchaGenerator.Renderer.


End GeneratorView.

Section LocalView.

Variable R : CaptchaGenerator.Renderer.


End LocalView.




Section Disclosure.

Variable HMAC_SECRET : string.
Variable R : CaptchaGenerator.Renderer.



End Disclosure.




(** The local generator writes the click target into the description
    it hands to the renderer, and the description stays in [ui_data]:
    the target (100, 90) of the stored solution reaches the client,
    which the renderer's own comment wants not revealed. The amended
    claim leaves this out. *)
Example image_view_shows_target :
  exists view description,
    fst (issue "image") = Ok view
    /\ (try! ui := Py.get view "ui_data" JNull in Py.get ui "description" JNull)
       = Ok (JStr description)
    /\ PyStr.contains "coordinates approx 100,90" description = true.
Proof.
  eexists _, _. split; [| split].
  - vm_compute. reflexivity.
  - reflexivity.
  - vm_compute. reflexivity.
Qed.

(** The fallback challenge can be solved: typing its word is judged
    correct by the local fallback. *)
Lemma fallback_solvable (now : Q) (items : list (string * json)) (e : exn) :
  GeminiClient.verify_with_ai NotConfigured
    (JDict (Agents.fallback_challenge now items e))
    (JStr (Agents.fallback_word now))
  = Ok (GeminiClient.verdict true true "fallback-exact-compare"
          [("normalized_answer",
            PJson (JStr (PyStr.lower (PyStr.strip (Agents.fallback_word now)))))]).
Proof.
  cbn. unfold GeminiClient.local_verify, GeminiClient.local_heuristics.
  cbn. unfold GeminiClient.word_compare. cbn.
  now rewrite String.eqb_refl.
Qed.

(* ===================================================================== *)
(** * Further properties of the session store *)
(* ===================================================================== *)

Lemma cleanup_lookup_inv (now : Q) (st : Sessions.InMemorySession)
      (k : string) (s : Sessions.Session) :
  Sessions.sessions (Sessions._cleanup now st) !! k = Some s ->
  Sessions.sessions st !! k = Some s.
Proof.
  unfold Sessions._cleanup. destruct (Clock.ltb _ _); [| auto].
  cbn [Sessions.sessions]. intros H.
  now apply map_lookup_filter_Some in H.
Qed.

Lemma fresh_live (now now' : Q) :
  (now' - now <= Sessions.SESSION_TTL)%Q ->
  Sessions.expired now' (Sessions.fresh now) = false.
Proof. intros H. unfold Sessions.expired. now apply ltb_ge. Qed.

(** X1: a session that [create] has just made is returned by [get], with
    no challenge and all counters at zero, as long as no more than 3600
    seconds have passed since its creation (at exactly 3600 seconds it is
    still alive); [get] leaves the table as it is. *)
Theorem create_then_get (now now' : Q) (sid : string)
        (st : Sessions.InMemorySession) :
  (now' - now <= Sessions.SESSION_TTL)%Q ->
  let st1 := snd (Sessions.create now sid st) in
  fst (Sessions.create now sid st) = sid
  /\ Sessions.get now' sid st1
     = (Some {| Sessions.created := now; Sessions.captcha := None;
                Sessions.attempts := 0; Sessions.last_attempt := 0;
                Sessions.generation_count := 0 |}, st1).
Proof.
  intros Hage st1. split; [reflexivity |].
  apply get_live.
  - subst st1. unfold Sessions.create. cbn [snd].
    apply cleanup_lookup_live.
    + cbn [Sessions.sessions]. apply lookup_insert_eq.
    + apply fresh_live. unfold Sessions.SESSION_TTL. lra.
  - now apply fresh_live.
Qed.

Lemma create_then_get_witness :
  Sessions.get 3600 "0123456789ab"
    (snd (Sessions.create 0 "0123456789ab" sample_store))
  = (Some (Sessions.fresh 0),
     snd (Sessions.create 0 "0123456789ab" sample_store)).
Proof.
  refine (proj2 (create_then_get 0 3600 "0123456789ab" sample_store _)).
  vm_compute. discriminate.
Defined.

(** X2: the sweep of [_cleanup] runs only when more than 300 seconds
    have passed since the last one; it then keeps exactly the sessions
    that are not older than 3600 seconds, unchanged, and records the time
    of the sweep. Otherwise the store is left as it is. *)
Theorem cleanup_sweep (now : Q) (st : Sessions.InMemorySession) :
  ((Sessions.CLEANUP_EVERY < now - Sessions.last_cleanup st)%Q ->
   Sessions.last_cleanup (Sessions._cleanup now st) = now
   /\ forall k s,
        Sessions.sessions (Sessions._cleanup now st) !! k = Some s
        <-> Sessions.sessions st !! k = Some s
            /\ (now - Sessions.created s <= Sessions.SESSION_TTL)%Q)
  /\ ((now - Sessions.last_cleanup st <= Sessions.CLEANUP_EVERY)%Q ->
      Sessions._cleanup now st = st).
Proof.
  unfold Sessions._cleanup. split; intros H.
  - apply ltb_lt in H. rewrite H. split; [reflexivity |].
    intros k s. cbn [Sessions.sessions].
    rewrite map_lookup_filter_Some. cbn [snd].
    unfold Sessions.expired. now rewrite ltb_ge.
  - apply ltb_ge in H. now rewrite H.
Qed.

Lemma cleanup_sweep_witness :
  Sessions.last_cleanup (Sessions._cleanup 3601 sample_store) = 3601%Q
  /\ Sessions.sessions (Sessions._cleanup 3601 sample_store) !! "sid" = None.
Proof.
  destruct (proj1 (cleanup_sweep 3601 sample_store)) as [Hlast Hkeep].
  - vm_compute. reflexivity.
  - split; [exact Hlast |].
    destruct (Sessions.sessions (Sessions._cleanup 3601 sample_store) !! "sid")
      as [s |] eqn:E; [| reflexivity].
    apply Hkeep in E. destruct E as [E Hage].
    change (({[ "sid" := Sessions.fresh 0 ]} : gmap string Sessions.Session)
              !! "sid" = Some s) in E.
    rewrite lookup_singleton_eq in E. injection E as <-.
    exfalso. revert Hage. vm_compute. intros Hage. now apply Hage.
Defined.

Lemma update_frame (now : Q) (sid : string) (data : Sessions.Update)
      (st : Sessions.InMemorySession) :
  store_frame sid st (Sessions.update now sid data st).
Proof.
  intros k s' H. unfold Sessions.update in H.
  destruct (Sessions.sessions st !! sid) as [s0 |] eqn:E.
  - apply cleanup_lookup_inv in H. cbn [Sessions.sessions] in H.
    destruct (decide (sid = k)) as [<- | Hne].
    + rewrite lookup_insert_eq in H. injection H as <-.
      exists s0. split; [exact E | split; [reflexivity | congruence]].
    + rewrite lookup_insert_ne in H by exact Hne.
      exists s'. split; [exact H | split; reflexivity].
  - exists s'. split; [exact H | split; reflexivity].
Qed.



(* ===================================================================== *)
(** * Further properties of the signer *)
(* ===================================================================== *)

Lemma compress_length (h block : list Z) :
  List.length h = 8%nat -> List.length (Sha256.compress h block) = 8%nat.
Proof.
  intros H. unfold Sha256.compress.
  rewrite length_map, length_combine, H. reflexivity.
Qed.

Lemma digest_length (msg : list Z) : List.length (Sha256.digest msg) = 32%nat.
Proof.
  unfold Sha256.digest. cbv zeta.
  generalize (Sha256.blocks
                (List.length (Sha256.words_of_bytes (List.length (Sha256.pad msg))
                                                    (Sha256.pad msg)))
                (Sha256.words_of_bytes (List.length (Sha256.pad msg))
                                       (Sha256.pad msg))).
  intros bs.
  assert (H : List.length (fold_left Sha256.compress bs Sha256.H0) = 8%nat).
  { generalize Sha256.H0 (eq_refl : List.length Sha256.H0 = 8%nat).
    induction bs as [| b bs IH]; intros h Hh; [exact Hh |].
    cbn [fold_left]. apply IH. now apply compress_length. }
  revert H. generalize (fold_left Sha256.compress bs Sha256.H0).
  intros h Hh.
  do 9 (destruct h as [| ? h]; try discriminate Hh). reflexivity.
Qed.

Lemma hex_length (bytes : list Z) :
  String.length (Sha256.hex bytes) = (2 * List.length bytes)%nat.
Proof.
  unfold Sha256.hex.
  induction bytes as [| b r IH]; [reflexivity |].
  cbn [flat_map Sha256.hex_byte app PyStr.of_chars string_of_list_ascii
       String.length List.length].
  fold (PyStr.of_chars (flat_map Sha256.hex_byte r)). rewrite IH. lia.
Qed.

Lemma hex_digit_in (n : Z) : In (Sha256.hex_digit n) hex_chars.
Proof.
  unfold Sha256.hex_digit, hex_chars.
  destruct (nth_in_or_default (Z.to_nat n)
              (PyStr.chars "0123456789abcdef") "0"%char) as [Hin | ->];
    [exact Hin | now left].
Qed.

Lemma hex_in (bytes : list Z) :
  Forall (fun c => In c hex_chars) (PyStr.chars (Sha256.hex bytes)).
Proof.
  unfold Sha256.hex. rewrite chars_of_chars.
  induction bytes as [| b r IH]; [constructor |].
  cbn [flat_map Sha256.hex_byte app].
  repeat (constructor; [apply hex_digit_in |]). exact IH.
Qed.

(** X5: whatever the secret, the time, the session id and the payload,
    [sign_payload] returns 64 characters, each a lowercase hexadecimal
    digit. *)
Theorem signature_is_hex (HMAC_SECRET : string) (now : Q) (s p : string) :
  String.length (Security.sign_payload HMAC_SECRET now s p) = 64%nat
  /\ Forall (fun c => In c hex_chars)
            (PyStr.chars (Security.sign_payload HMAC_SECRET now s p)).
Proof.
  unfold Security.sign_payload, Sha256.hmac_hex. cbv zeta. split.
  - now rewrite hex_length, digest_length.
  - apply hex_in.
Qed.

Lemma verify_offsets_ascii (HMAC_SECRET : string) (ts : Z)
      (s p signature : string) (offsets : list Z) :
  forallb PyStr.is_ascii (PyStr.chars signature) = true ->
  exists b,
    Security.verify_offsets HMAC_SECRET ts s p signature offsets = Ok b.
Proof.
  intros Hsig. induction offsets as [| o r IH]; [now exists false |].
  cbn [Security.verify_offsets]. unfold Security.compare_digest.
  rewrite hmac_hex_ascii, Hsig. cbn [andb bind].
  destruct (String.eqb _ signature); [now exists true | exact IH].
Qed.

(** X6: [verify_signature] answers true or false for every signature
    made of ASCII characters, and raises [TypeError] (from
    [hmac.compare_digest]) for a signature that holds a non-ASCII
    character. *)
Theorem verify_signature_ascii (HMAC_SECRET : string) (now : Q)
        (s p signature : string) :
  (forallb PyStr.is_ascii (PyStr.chars signature) = true ->
   exists b,
     Security.verify_signature HMAC_SECRET now s p signature = Ok b)
  /\ (forallb PyStr.is_ascii (PyStr.chars signature) = false ->
      Security.verify_signature HMAC_SECRET now s p signature
      = Raise (TypeError
                 "comparing strings with non-ASCII characters is not supported")).
Proof.
  split; intros Hsig.
  - now apply verify_offsets_ascii.
  - unfold Security.verify_signature. cbn [Security.verify_offsets].
    unfold Security.compare_digest.
    now rewrite hmac_hex_ascii, Hsig.
Qed.

Lemma verify_signature_ascii_witness :
  exists e,
    Security.verify_signature "secret" 0 "sid" "p" (String (PyStr.chr 233) "")
    = Raise e.
Proof.
  eexists.
  apply (proj2 (verify_signature_ascii "secret" 0 "sid" "p"
                  (String (PyStr.chr 233) ""))).
  reflexivity.
Defined.

Lemma append_assoc (a b c : string) : (a ++ b) ++ c = a ++ (b ++ c).
Proof.
  induction a as [| x a IH]; [reflexivity |].
  change (String x ((a ++ b) ++ c) = String x (a ++ (b ++ c))).
  now f_equal.
Qed.

(** X7: the signed message joins the session id and the payload with a
    bar and escapes neither, so a bar can be moved from one to the
    other without changing the signature: signing the payload [p] for
    the session [s|x] gives the signature of the payload [x|p] for the
    session [s]. *)
Theorem signature_separator_ambiguous
        (HMAC_SECRET : string) (now : Q) (s x p : string) :
  Security.sign_payload HMAC_SECRET now (s ++ "|" ++ x) p
  = Security.sign_payload HMAC_SECRET now s (x ++ "|" ++ p).
Proof.
  unfold Security.sign_payload, Security.message.
  apply (f_equal (Sha256.hmac_hex HMAC_SECRET)).
  now rewrite !append_assoc.
Qed.

Lemma floordiv_in_window (t : Q) (k : Z) :
  (inject_Z (Security.WINDOW_SECONDS * k) <= t)%Q ->
  (t < inject_Z (Security.WINDOW_SECONDS * (k + 1)))%Q ->
  Clock.floordiv t Security.WINDOW_SECONDS = k.
Proof.
  unfold Security.WINDOW_SECONDS, Clock.floordiv.
  rewrite !inject_Z_mult, inject_Z_plus.
  change (inject_Z 300) with 300%Q. change (inject_Z 1) with 1%Q.
  intros Hlo Hhi.
  assert (H1 : (inject_Z k <= t / 300)%Q)
    by (apply Qle_shift_div_l; lra).
  assert (H2 : (t / 300 < inject_Z k + 1)%Q)
    by (apply Qlt_shift_div_r; lra).
  pose proof (Qfloor_le (t / 300)) as Hf1.
  pose proof (Qlt_floor (t / 300)) as Hf2.
  rewrite inject_Z_plus in Hf2. change (inject_Z 1) with 1%Q in Hf2.
  assert (Ha : (inject_Z (Qfloor (t / 300)) < inject_Z (k + 1))%Q)
    by (rewrite inject_Z_plus; change (inject_Z 1) with 1%Q; lra).
  assert (Hb : (inject_Z k < inject_Z (Qfloor (t / 300) + 1))%Q)
    by (rewrite inject_Z_plus; change (inject_Z 1) with 1%Q; lra).
  rewrite <- Zlt_Qlt in Ha, Hb. lia.
Qed.

(** X8: the signature depends on the time only through the 300-second
    window: two signings of the same payload for the same session at
    times of one window [[300 k, 300 (k + 1))] give the same signature. *)
Theorem signature_stable_in_window
        (HMAC_SECRET : string) (s p : string) (k : Z) (t t' : Q) :
  (inject_Z (Security.WINDOW_SECONDS * k) <= t)%Q ->
  (t < inject_Z (Security.WINDOW_SECONDS * (k + 1)))%Q ->
  (inject_Z (Security.WINDOW_SECONDS * k) <= t')%Q ->
  (t' < inject_Z (Security.WINDOW_SECONDS * (k + 1)))%Q ->
  Security.sign_payload HMAC_SECRET t s p
  = Security.sign_payload HMAC_SECRET t' s p.
Proof.
  intros H1 H2 H3 H4. unfold Security.sign_payload.
  now rewrite (floordiv_in_window t k H1 H2), (floordiv_in_window t' k H3 H4).
Qed.

Lemma signature_stable_in_window_witness :
  Security.sign_payload "secret" 300 "sid" "p"
  = Security.sign_payload "secret" (5999 # 10) "sid" "p".
Proof.
  apply (signature_stable_in_window "secret" "sid" "p" 1 300 (5999 # 10));
    vm_compute; try discriminate; reflexivity.
Defined.

(* ===================================================================== *)
(** * Further properties of the local generator *)
(* ===================================================================== *)

Lemma length_app (a b : string) :
  String.length (a ++ b) = (String.length a + String.length b)%nat.
Proof. induction a as [| c a IH]; simpl; [reflexivity | now rewrite IH]. Qed.

Lemma length_substring (n : nat) (s : string) :
  (n <= String.length s)%nat -> String.length (String.substring 0 n s) = n.
Proof.
  revert s. induction n as [| n IH]; intros s H.
  - destruct s; reflexivity.
  - destruct s as [| c s]; [simpl in H; lia |].
    simpl. rewrite IH; [reflexivity | simpl in H; lia].
Qed.

Lemma pick_syllables_length (target : nat) (picks : list string)
      (joined : string) :
  (target <= String.length joined + String.length (String.concat "" picks))%nat ->
  (target <= String.length (GeminiClient.pick_syllables target joined picks))%nat.
Proof.
  revert joined. induction picks as [| p rest IH]; intros joined H.
  - cbn [GeminiClient.pick_syllables].
    destruct (Nat.ltb_spec (String.length joined) target) as [Hlt | Hge];
      [simpl in H; lia | exact Hge].
  - cbn [GeminiClient.pick_syllables].
    destruct (Nat.ltb_spec (String.length joined) target) as [Hlt | Hge];
      [| exact Hge].
    apply IH. rewrite length_app.
    assert (Hc : (String.length (String.concat "" (p :: rest))
                  <= String.length p + String.length (String.concat "" rest))%nat).
    { destruct rest as [| q rest']; cbn [String.concat].
      - simpl. lia.
      - rewrite !length_app. simpl. lia. }
    lia.
Qed.

(** X9: when the syllables drawn suffice to reach the target length, the
    word of [_rand_word] is made of exactly [target] characters followed
    by the decimal number that was drawn, if one was. *)
Theorem rand_word_length (d : GeminiClient.WordDraw) :
  (GeminiClient.target d
   <= String.length (String.concat "" (GeminiClient.picks d)))%nat ->
  String.length (GeminiClient._rand_word d)
  = (GeminiClient.target d + suffix_length (GeminiClient.digits d))%nat.
Proof.
  intros H. unfold GeminiClient._rand_word. cbv zeta.
  pose proof (pick_syllables_length (GeminiClient.target d)
                (GeminiClient.picks d) "" H) as Hp.
  destruct (GeminiClient.digits d) as [n |]; cbn [suffix_length].
  - now rewrite length_app, length_substring.
  - rewrite length_substring by exact Hp. lia.
Qed.

Lemma rand_word_length_witness :
  String.length
    (GeminiClient._rand_word
       {| GeminiClient.target := 5; GeminiClient.picks := ["sol"; "ra"];
          GeminiClient.digits := Some 42 |}) = 7%nat.
Proof.
  apply (rand_word_length
           {| GeminiClient.target := 5; GeminiClient.picks := ["sol"; "ra"];
              GeminiClient.digits := Some 42 |}).
  simpl. lia.
Defined.

Section Nearest.

Context {E : Type} (dist : E -> Z) (name : E -> string).

(** The search returns an entry at the least distance, the first one of
    the table among those. *)
Lemma nearest_fold (l : list E) (acc : option (Z * string)) :
  match fold_left (nearest_step dist name) l acc with
  | Some (d, n) =>
      (acc = Some (d, n) \/ exists e, In e l /\ d = dist e /\ n = name e)
      /\ (forall e, In e l -> d <= dist e)
      /\ (forall d0 n0, acc = Some (d0, n0) -> d <= d0)
  | None => acc = None /\ l = []
  end.
Proof.
  revert acc. induction l as [| e l IH]; intros acc.
  - cbn [fold_left]. destruct acc as [[d n] |]; [| now split].
    split; [now left | split; [intros e [] | intros d0 n0 [= <- <-]; lia]].
  - cbn [fold_left]. specialize (IH (nearest_step dist name acc e)).
    destruct (fold_left _ l _) as [[d n] |].
    + destruct IH as (Hsrc & Hmin & Hacc).
      unfold nearest_step in Hsrc, Hacc.
      destruct acc as [[bd b] |].
      * destruct (Z.ltb_spec (dist e) bd) as [Hlt | Hge].
        -- specialize (Hacc _ _ eq_refl).
           split; [| split].
           ++ right. destruct Hsrc as [[= <- <-] | (e' & Hin & -> & ->)];
                [exists e | exists e']; repeat split; simpl; auto.
           ++ intros e' [<- | Hin]; [exact Hacc | now apply Hmin].
           ++ intros d0 n0 [= <- <-]. lia.
        -- specialize (Hacc _ _ eq_refl).
           split; [| split].
           ++ destruct Hsrc as [Hsrc | (e' & Hin & -> & ->)];
                [now left | right; exists e'; repeat split; simpl; auto].
           ++ intros e' [<- | Hin]; [lia | now apply Hmin].
           ++ intros d0 n0 [= <- <-]. exact Hacc.
      * specialize (Hacc _ _ eq_refl).
        split; [| split].
        -- right. destruct Hsrc as [[= <- <-] | (e' & Hin & -> & ->)];
             [exists e | exists e']; repeat split; simpl; auto.
        -- intros e' [<- | Hin]; [exact Hacc | now apply Hmin].
        -- intros d0 n0 [=].
    + destruct IH as [Hnone _]. unfold nearest_step in Hnone.
      destruct acc as [[bd b] |]; [destruct (_ <? _) |]; discriminate Hnone.
Qed.

End Nearest.

(** X10: for a color (three components from 0 to 255)
    [_nearest_color_name] returns the name of an entry of its table
    that is nearest to the color, provided that entry is nearer than
    150; when every entry is at distance 150 or more it returns the
    color in the form [#rrggbb]. *)
Theorem nearest_color_name_spec (rgb : Z * Z * Z) :
  is_color rgb ->
  ((exists e, In e GeminiClient.common
              /\ GeminiClient.sq_dist (snd e) rgb < 150 * 150) ->
   exists e,
     In e GeminiClient.common
     /\ GeminiClient._nearest_color_name rgb = fst e
     /\ GeminiClient.sq_dist (snd e) rgb < 150 * 150
     /\ forall e', In e' GeminiClient.common ->
          GeminiClient.sq_dist (snd e) rgb <= GeminiClient.sq_dist (snd e') rgb)
  /\ ((forall e, In e GeminiClient.common ->
         150 * 150 <= GeminiClient.sq_dist (snd e) rgb) ->
      GeminiClient._nearest_color_name rgb = hex_color rgb).
Proof.
  intros _. unfold GeminiClient._nearest_color_name.
  change (fold_left _ GeminiClient.common None)
    with (fold_left (nearest_step
                       (fun e : string * (Z * Z * Z) =>
                          GeminiClient.sq_dist (snd e) rgb) fst)
                    GeminiClient.common None).
  pose proof (nearest_fold
                (fun e : string * (Z * Z * Z) => GeminiClient.sq_dist (snd e) rgb)
                fst GeminiClient.common None) as H.
  destruct (fold_left _ GeminiClient.common None) as [[d n] |].
  - destruct H as ([[=] | (e & Hin & -> & ->)] & Hmin & _).
    split.
    + intros (e0 & Hin0 & Hnear).
      pose proof (Hmin e0 Hin0) as Hle.
      exists e. split; [exact Hin |].
      destruct (Z.ltb_spec (GeminiClient.sq_dist (snd e) rgb) (150 * 150));
        [| lia].
      repeat split; [assumption | exact Hmin].
    + intros Hfar. pose proof (Hfar e Hin) as Hge.
      destruct (Z.ltb_spec (GeminiClient.sq_dist (snd e) rgb) (150 * 150));
        [lia |].
      now destruct rgb as [[r g] b].
  - destruct H as [_ H]. discriminate H.
Qed.

Lemma nearest_color_name_spec_witness :
  exists e,
    In e GeminiClient.common
    /\ GeminiClient._nearest_color_name (250, 10, 10) = fst e.
Proof.
  destruct (proj1 (nearest_color_name_spec (250, 10, 10)
                     ltac:(cbn; lia)))
    as (e & Hin & Hname & _).
  - exists ("red", (255, 0, 0)). split; [now left | vm_compute; reflexivity].
  - exists e. split; assumption.
Defined.

(** X11: for a color (three components from 0 to 255)
    [guess_common_color_name] returns the name of an entry of
    [_COMMON_COLOR_NAMES] that is nearest to the color, provided that
    entry is nearer than 100; when every entry is at distance 100 or
    more it returns the color in the form [#rrggbb]. *)
Theorem guess_common_color_name_spec (rgb : Z * Z * Z) :
  is_color rgb ->
  ((exists e, In e CaptchaGenerator._COMMON_COLOR_NAMES
              /\ GeminiClient.sq_dist (fst e) rgb < 100 * 100) ->
   exists e,
     In e CaptchaGenerator._COMMON_COLOR_NAMES
     /\ CaptchaGenerator.guess_common_color_name rgb = snd e
     /\ GeminiClient.sq_dist (fst e) rgb < 100 * 100
     /\ forall e', In e' CaptchaGenerator._COMMON_COLOR_NAMES ->
          GeminiClient.sq_dist (fst e) rgb <= GeminiClient.sq_dist (fst e') rgb)
  /\ ((forall e, In e CaptchaGenerator._COMMON_COLOR_NAMES ->
         100 * 100 <= GeminiClient.sq_dist (fst e) rgb) ->
      CaptchaGenerator.guess_common_color_name rgb = hex_color rgb).
Proof.
  intros _. unfold CaptchaGenerator.guess_common_color_name. cbv zeta.
  change (fold_left _ CaptchaGenerator._COMMON_COLOR_NAMES None)
    with (fold_left (nearest_step
                       (fun e : (Z * Z * Z) * string =>
                          GeminiClient.sq_dist (fst e) rgb) snd)
                    CaptchaGenerator._COMMON_COLOR_NAMES None).
  pose proof (nearest_fold
                (fun e : (Z * Z * Z) * string => GeminiClient.sq_dist (fst e) rgb)
                snd CaptchaGenerator._COMMON_COLOR_NAMES None) as H.
  destruct (fold_left _ CaptchaGenerator._COMMON_COLOR_NAMES None) as [[d n] |].
  - destruct H as ([[=] | (e & Hin & -> & ->)] & Hmin & _).
    split.
    + intros (e0 & Hin0 & Hnear).
      pose proof (Hmin e0 Hin0) as Hle.
      exists e. split; [exact Hin |].
      destruct (Z.ltb_spec (GeminiClient.sq_dist (fst e) rgb) (100 * 100));
        [| lia].
      repeat split; [assumption | exact Hmin].
    + intros Hfar. pose proof (Hfar e Hin) as Hge.
      destruct (Z.ltb_spec (GeminiClient.sq_dist (fst e) rgb) (100 * 100));
        [lia |].
      now destruct rgb as [[r g] b].
  - destruct H as [_ H]. discriminate H.
Qed.

Lemma guess_common_color_name_spec_witness :
  CaptchaGenerator.guess_common_color_name (200, 100, 200) = "#c864c8".
Proof.
  apply (proj2 (guess_common_color_name_spec (200, 100, 200)
                  ltac:(cbn; lia))).
  intros e Hin. cbn [CaptchaGenerator._COMMON_COLOR_NAMES In] in Hin.
  repeat (destruct Hin as [<- | Hin]; [vm_compute; discriminate |]).
  destruct Hin.
Defined.

(** X12: on every color of the table of [gemini_client] the two naming
    functions agree: both give the name under which the table lists the
    color, never a hexadecimal form. The solution of a locally generated
    color challenge, whose palette is part of that table, is thus the
    name the renderer's module would give. *)
Theorem color_names_agree (name : string) (rgb : Z * Z * Z) :
  In (name, rgb) GeminiClient.common ->
  GeminiClient._nearest_color_name rgb = name
  /\ CaptchaGenerator.guess_common_color_name rgb = name.
Proof.
  intros Hin. cbn [GeminiClient.common In] in Hin.
  repeat (destruct Hin as [[= <- <-] | Hin]; [split; vm_compute; reflexivity |]).
  destruct Hin.
Qed.

Lemma color_names_agree_witness :
  GeminiClient._nearest_color_name (255, 165, 0) = "orange"
  /\ CaptchaGenerator.guess_common_color_name (255, 165, 0) = "orange".
Proof.
  apply (color_names_agree "orange" (255, 165, 0)).
  cbn [GeminiClient.common In]. do 4 right. now left.
Defined.

(** X13: when the remote endpoint replies with a JSON object,
    [decide_and_create_challenge] returns that object with the two keys
    it checks filled in when they are missing ([captcha_id] gets a fresh
    identifier, [captcha_type] gets ["text"]); every key the reply had
    keeps its value, nothing else is validated. A reply that is a
    number, a boolean or null gives the locally generated challenge. *)
Theorem decide_fills_defaults
        (reply : list (string * json)) (remote_cid : string)
        (d : GeminiClient.Draws) :
  (exists challenge,
     GeminiClient.decide_and_create_challenge (Replied (JDict reply)) remote_cid d
     = JDict challenge
     /\ Py.dict_get "captcha_id" challenge
        = Some (default (JStr remote_cid) (Py.dict_get "captcha_id" reply))
     /\ Py.dict_get "captcha_type" challenge
        = Some (default (JStr "text") (Py.dict_get "captcha_type" reply))
     /\ forall k, k <> "captcha_id" -> k <> "captcha_type" ->
          Py.dict_get k challenge = Py.dict_get k reply)
  /\ (forall data,
        match data with JNull | JBool _ | JInt _ => True | _ => False end ->
        GeminiClient.decide_and_create_challenge (Replied data) remote_cid d
        = GeminiClient._local_generate_random_challenge d).
Proof.
  split.
  - unfold GeminiClient.decide_and_create_challenge.
    cbn [Py.contains bind]. unfold Py.dict_has.
    destruct (Py.dict_get "captcha_id" reply) as [cid |] eqn:Hid;
      cbn [GeminiClient.setitem bind Py.contains default].
    + unfold Py.dict_has.
      destruct (Py.dict_get "captcha_type" reply) as [ty |] eqn:Hty;
        cbn [GeminiClient.setitem default].
      * exists reply. repeat split; auto.
      * eexists. split; [reflexivity |].
        split; [now rewrite dict_get_set_ne by discriminate |].
        split; [apply dict_get_set_eq |].
        intros k _ Hk. now apply dict_get_set_ne.
    + unfold Py.dict_has.
      rewrite (dict_get_set_ne "captcha_id" "captcha_type") by discriminate.
      destruct (Py.dict_get "captcha_type" reply) as [ty |] eqn:Hty;
        cbn [GeminiClient.setitem default].
      * eexists. split; [reflexivity |].
        split; [apply dict_get_set_eq |].
        split; [now rewrite dict_get_set_ne by discriminate |].
        intros k Hk _. now apply dict_get_set_ne.
      * eexists. split; [reflexivity |].
        split; [rewrite dict_get_set_ne by discriminate;
                apply dict_get_set_eq |].
        split; [apply dict_get_set_eq |].
        intros k Hk1 Hk2. now rewrite !dict_get_set_ne.
  - intros data Hdata. destruct data; try contradiction; reflexivity.
Qed.

Lemma decide_fills_defaults_witness :
  GeminiClient.decide_and_create_challenge (Replied (JInt 7)) "fresh"
    (sample_draws "text")
  = GeminiClient._local_generate_random_challenge (sample_draws "text").
Proof.
  apply (proj2 (decide_fills_defaults [] "fresh" (sample_draws "text"))
           (JInt 7) I).
Defined.

(** ** Further properties of the agents *)

Lemma store_frame_refl (sid : string) (st : Sessions.InMemorySession) :
  store_frame sid st st.
Proof. intros k s' H. exists s'. split; [exact H | split; reflexivity]. Qed.

Lemma store_frame_trans (sid : string) (a b c : Sessions.InMemorySession) :
  store_frame sid a b -> store_frame sid b c -> store_frame sid a c.
Proof.
  intros Hab Hbc k s2 H2.
  destruct (Hbc k s2 H2) as (s1 & H1 & Hc1 & Ho1).
  destruct (Hab k s1 H1) as (s0 & H0 & Hc0 & Ho0).
  exists s0. split; [exact H0 | split; [congruence |]].
  intros Hne. rewrite (Ho1 Hne). exact (Ho0 Hne).
Qed.

Lemma get_frame (now : Q) (sid : string) (st : Sessions.InMemorySession) :
  store_frame sid st (snd (Sessions.get now sid st)).
Proof.
  unfold Sessions.get.
  destruct (Sessions.sessions st !! sid) as [s |] eqn:E;
    [| apply store_frame_refl].
  destruct (Sessions.expired now s); [| apply store_frame_refl].
  intros k s' H. cbn [snd Sessions.sessions] in H.
  destruct (decide (sid = k)) as [<- | Hne].
  - rewrite lookup_delete_eq in H. discriminate H.
  - rewrite lookup_delete_ne in H by exact Hne.
    exists s'. split; [exact H | split; reflexivity].
Qed.

Section AgentsFacts.

Variable HMAC_SECRET : string.
Variable R : CaptchaGenerator.Renderer.

Lemma generator_frame (now : Q) (remote : remote_reply) (remote_cid : string)
      (d : GeminiClient.Draws) (sid : string)
      (st : Sessions.InMemorySession) :
  store_frame sid st
    (snd (Agents.GeneratorAgent_run HMAC_SECRET R now remote remote_cid d
                                    sid st)).
Proof.
  unfold Agents.GeneratorAgent_run.
  pose proof (get_frame now sid st) as Hg.
  destruct (Sessions.get now sid st) as [found st1]. cbn [snd] in Hg.
  destruct found as [s |]; [| exact Hg].
  destruct (Agents.before_try _) as [[[ctype ui] rui] | e]; [| exact Hg].
  destruct (GeminiClient.decide_and_create_challenge remote remote_cid d);
    try exact Hg.
  destruct (Agents.render _ _ _ _ _); cbn [snd];
    (eapply store_frame_trans; [exact Hg | apply update_frame]).
Qed.

Lemma validator_frame (now : Q) (remote : remote_reply) (sid : string)
      (ua : json) (w : Agents.World) :
  store_frame sid (Agents.store w)
    (Agents.store
       (snd (Agents.ValidatorAgent_run HMAC_SECRET now remote sid ua w))).
Proof.
  unfold Agents.ValidatorAgent_run.
  pose proof (get_frame now sid (Agents.store w)) as Hg.
  destruct (Sessions.get now sid (Agents.store w)) as [found st1].
  cbn [snd] in Hg.
  destruct found as [s |]; [| exact Hg].
  destruct (Sessions.captcha s) as [c |]; [| exact Hg].
  destruct (Security.verify_signature _ _ _ _ _) as [[|] | e];
    try exact Hg.
  destruct (_ && _); [exact Hg |].
  destruct (GeminiClient.verify_with_ai _ _ _) as [v | e]; [| exact Hg].
  cbn [Agents.store Agents.judged].
  assert (H1 : store_frame sid (Agents.store w)
                 (Sessions.update now sid
                    {| Sessions.set_captcha := None;
                       Sessions.set_attempts := Some (Sessions.attempts s + 1);
                       Sessions.set_last_attempt := Some now;
                       Sessions.set_generation_count := None |} st1))
    by (eapply store_frame_trans; [exact Hg | apply update_frame]).
  destruct (negb _); [exact H1 |].
  destruct (PDict.truthy _); cbn [snd Agents.store]; [| exact H1].
  eapply store_frame_trans; [exact H1 | apply update_frame].
Qed.

Lemma generator_raise (now : Q) (remote : remote_reply) (remote_cid : string)
      (d : GeminiClient.Draws) (sid : string)
      (st : Sessions.InMemorySession) (e : exn) :
  fst (Agents.GeneratorAgent_run HMAC_SECRET R now remote remote_cid d sid st)
  = Raise e ->
  snd (Agents.GeneratorAgent_run HMAC_SECRET R now remote remote_cid d sid st)
  = st.
Proof.
  unfold Agents.GeneratorAgent_run.
  destruct (Sessions.get now sid st) as [[s |] st1] eqn:G;
    [| discriminate].
  apply get_some_inv in G. destruct G as (-> & _ & _).
  destruct (Agents.before_try _) as [[[ctype ui] rui] | e0];
    [| reflexivity].
  destruct (GeminiClient.decide_and_create_challenge remote remote_cid d);
    try reflexivity.
  destruct (Agents.render _ _ _ _ _); discriminate.
Qed.

Lemma validator_raise (now : Q) (remote : remote_reply) (sid : string)
      (ua : json) (w : Agents.World) (e : exn) :
  fst (Agents.ValidatorAgent_run HMAC_SECRET now remote sid ua w) = Raise e ->
  snd (Agents.ValidatorAgent_run HMAC_SECRET now remote sid ua w) = w.
Proof.
  unfold Agents.ValidatorAgent_run.
  destruct (Sessions.get now sid (Agents.store w)) as [[s |] st1] eqn:G;
    [| discriminate].
  apply get_some_inv in G. destruct G as (-> & _ & _).
  rewrite world_eta.
  destruct (Sessions.captcha s) as [c |]; [| discriminate].
  destruct (Security.verify_signature _ _ _ _ _) as [[|] | e0];
    [| discriminate | reflexivity].
  destruct (_ && _); [discriminate |].
  destruct (verify_with_ai_returns remote (Sessions.challenge c) ua)
    as (v & -> & _).
  cbn [Agents.store Agents.judged].
  destruct (negb _); [discriminate |].
  destruct (PDict.truthy _); discriminate.
Qed.

End AgentsFacts.

(** X4: the agents work on one session. A call of [GeneratorAgent.run]
    or of [ValidatorAgent.run] for the session [sid] adds no session to
    the table, changes no creation time, and leaves every other session
    it keeps as it was (sessions can only disappear, by expiry). *)
Theorem agents_touch_one_session
        (HMAC_SECRET : string) (R : CaptchaGenerator.Renderer) (now : Q)
        (remote : remote_reply) (remote_cid : string) (d : GeminiClient.Draws)
        (sid : string) (ua : json) (w : Agents.World) :
  store_frame sid (Agents.store w)
    (snd (Agents.GeneratorAgent_run HMAC_SECRET R now remote remote_cid d
                                    sid (Agents.store w)))
  /\ store_frame sid (Agents.store w)
       (Agents.store
          (snd (Agents.ValidatorAgent_run HMAC_SECRET now remote sid ua w))).
Proof. split; [apply generator_frame | apply validator_frame]. Qed.

(** X14: an exception that leaves an agent has changed nothing. When
    [GeneratorAgent.run] raises (the oracle's reply is not a dictionary,
    or its [ui_data] cannot be copied by [dict]) the session table is
    the one before the call: no challenge is stored and the previous
    one stays active. When [ValidatorAgent.run] raises (the comparison
    of a signature that is not ASCII) the table and the record of the
    oracle calls are unchanged: the attempt is not counted. *)
Theorem raise_changes_nothing
        (HMAC_SECRET : string) (R : CaptchaGenerator.Renderer) (now : Q)
        (remote : remote_reply) (remote_cid : string) (d : GeminiClient.Draws)
        (sid : string) (ua : json) (st : Sessions.InMemorySession)
        (w : Agents.World) (e : exn) :
  (fst (Agents.GeneratorAgent_run HMAC_SECRET R now remote remote_cid d sid st)
   = Raise e ->
   snd (Agents.GeneratorAgent_run HMAC_SECRET R now remote remote_cid d sid st)
   = st)
  /\ (fst (Agents.ValidatorAgent_run HMAC_SECRET now remote sid ua w)
      = Raise e ->
      snd (Agents.ValidatorAgent_run HMAC_SECRET now remote sid ua w) = w).
Proof. split; [apply generator_raise | apply validator_raise]. Qed.

Lemma raise_changes_nothing_witness :
  snd (Agents.GeneratorAgent_run "secret" sample_renderer 10
         (Replied (JList [JStr "captcha_id"; JStr "captcha_type"])) "fresh"
         (sample_draws "text") "sid" sample_store)
  = sample_store.
Proof.
  apply (proj1 (raise_changes_nothing "secret" sample_renderer 10
                  (Replied (JList [JStr "captcha_id"; JStr "captcha_type"]))
                  "fresh" (sample_draws "text") "sid" JNull sample_store
                  {| Agents.store := sample_store; Agents.judged := [] |}
                  (AttributeError "'list' object has no attribute 'get'"))).
  vm_compute. reflexivity.
Defined.

Section AgentsFlow.

Variable HMAC_SECRET : string.
Variable R : CaptchaGenerator.Renderer.

(** What a successful [GeneratorAgent.run] stores: the oracle's
    challenge, or the fallback built from it, with the rendered UI. *)
Lemma generator_stores (now : Q) (remote : remote_reply) (remote_cid : string)
      (d : GeminiClient.Draws) (sid : string)
      (st : Sessions.InMemorySession) (s : Sessions.Session) (view : json) :
  Sessions.sessions st !! sid = Some s ->
  Sessions.expired now s = false ->
  fst (Agents.GeneratorAgent_run HMAC_SECRET R now remote remote_cid d sid st)
  = Ok view ->
  exists oracle base rui,
    let items := Py.dict_set "ui_data" (JDict rui) base in
    let sig := Security.sign_payload HMAC_SECRET now sid
                                     (Json.dumps (JDict items)) in
    GeminiClient.decide_and_create_challenge remote remote_cid d = JDict oracle
    /\ (base = oracle \/ exists e, base = Agents.fallback_challenge now oracle e)
    /\ Sessions.sessions
         (snd (Agents.GeneratorAgent_run HMAC_SECRET R now remote remote_cid d
                                         sid st)) !! sid
       = Some (issued now s items sig)
    /\ view = Agents.client_view items sig.
Proof.
  intros Hs Hlive. unfold Agents.GeneratorAgent_run.
  rewrite (get_live now sid st s Hs Hlive).
  destruct (Agents.before_try _) as [[[ctype ui] rui] | e]; [| discriminate].
  destruct (GeminiClient.decide_and_create_challenge remote remote_cid d)
    as [| | | | | oracle]; try discriminate.
  destruct (Agents.render _ _ _ _ _) as [rui' | e]; cbn [fst snd];
    intros [= <-].
  - exists oracle, oracle, rui'. cbv zeta.
    split; [reflexivity | split; [now left |]].
    split; [| reflexivity].
    now rewrite (update_lookup now sid _ st s Hs Hlive).
  - exists oracle, (Agents.fallback_challenge now oracle e),
      (match Agents.get_or_null "ui_data"
               (Agents.fallback_challenge now oracle e) with
       | JDict ui => ui
       | _ => []
       end).
    cbv zeta. split; [reflexivity | split; [right; now exists e |]].
    split; [| reflexivity].
    now rewrite (update_lookup now sid _ st s Hs Hlive).
Qed.

(** An answer that passes the signature check and the rate limit is
    judged, and the attempt is counted. *)
Lemma validator_judges (now : Q) (remote : remote_reply) (sid : string)
      (ua : json) (w : Agents.World) (s : Sessions.Session)
      (c : Sessions.Captcha) :
  Sessions.sessions (Agents.store w) !! sid = Some s ->
  Sessions.expired now s = false ->
  Sessions.captcha s = Some c ->
  Security.verify_signature HMAC_SECRET now sid
    (Json.dumps (Sessions.challenge c)) (Sessions.signature c) = Ok true ->
  Sessions.attempts s < 6 \/ (60 <= now - Sessions.last_attempt s)%Q ->
  exists r w',
    Agents.ValidatorAgent_run HMAC_SECRET now remote sid ua w = (Ok r, w')
    /\ Agents.judged w' = (Sessions.challenge c, ua) :: Agents.judged w
    /\ ((exists meta,
           r = Agents.verification_unavailable meta
           /\ Sessions.sessions (Agents.store w') !! sid
              = Some (recorded now s))
        \/ (exists e n,
              r = Agents.captcha_incorrect e n
              /\ Sessions.sessions (Agents.store w') !! sid
                 = Some (recorded now s))
        \/ (exists e n,
              r = Agents.captcha_correct e n
              /\ Sessions.sessions (Agents.store w') !! sid
                 = Some (solved now s))).
Proof.
  intros Hs Hlive Hc Hsig Hrate. unfold Agents.ValidatorAgent_run.
  rewrite (get_live now sid _ s Hs Hlive), world_eta, Hc, Hsig.
  assert (Hr : (6 <=? Sessions.attempts s)
               && Clock.ltb (now - Sessions.last_attempt s) 60 = false).
  { destruct Hrate as [Ha | Hl].
    - apply Z.leb_gt in Ha. now rewrite Ha.
    - apply ltb_ge in Hl. rewrite Hl. apply andb_false_r. }
  rewrite Hr.
  destruct (verify_with_ai_returns remote (Sessions.challenge c) ua)
    as (v & -> & _).
  cbn [Agents.store Agents.judged].
  set (data1 := {| Sessions.set_captcha := None;
                   Sessions.set_attempts := Some (Sessions.attempts s + 1);
                   Sessions.set_last_attempt := Some now;
                   Sessions.set_generation_count := None |}).
  pose proof (update_lookup now sid data1 _ s Hs Hlive) as H1.
  assert (Hm1 : Sessions.merge s data1 = recorded now s) by reflexivity.
  rewrite Hm1 in H1.
  destruct (negb _).
  { eexists _, _. split; [reflexivity |]. split; [reflexivity |].
    left. eauto. }
  destruct (PDict.truthy _); eexists _, _;
    (split; [reflexivity |]); (split; [reflexivity |]).
  - right. right. eexists _, _. split; [reflexivity |].
    cbn [Agents.store].
    now rewrite (update_lookup now sid _ _ (recorded now s) H1 Hlive).
  - right. left. eauto.
Qed.

(** An answer the oracle finds correct clears the challenge. *)
Lemma validator_accepts (now : Q) (remote : remote_reply) (sid : string)
      (ua : json) (w : Agents.World) (s : Sessions.Session)
      (c : Sessions.Captcha) (explanation : string) (rest : pdict) :
  Sessions.sessions (Agents.store w) !! sid = Some s ->
  Sessions.expired now s = false ->
  Sessions.captcha s = Some c ->
  Security.verify_signature HMAC_SECRET now sid
    (Json.dumps (Sessions.challenge c)) (Sessions.signature c) = Ok true ->
  Sessions.attempts s < 6 \/ (60 <= now - Sessions.last_attempt s)%Q ->
  GeminiClient.verify_with_ai remote (Sessions.challenge c) ua
  = Ok (GeminiClient.verdict true true explanation rest) ->
  exists n w',
    Agents.ValidatorAgent_run HMAC_SECRET now remote sid ua w
    = (Ok (Agents.captcha_correct (PJson (JStr explanation)) n), w')
    /\ Sessions.sessions (Agents.store w') !! sid = Some (solved now s).
Proof.
  intros Hs Hlive Hc Hsig Hrate Hv. unfold Agents.ValidatorAgent_run.
  rewrite (get_live now sid _ s Hs Hlive), world_eta, Hc, Hsig.
  assert (Hr : (6 <=? Sessions.attempts s)
               && Clock.ltb (now - Sessions.last_attempt s) 60 = false).
  { destruct Hrate as [Ha | Hl].
    - apply Z.leb_gt in Ha. now rewrite Ha.
    - apply ltb_ge in Hl. rewrite Hl. apply andb_false_r. }
  rewrite Hr, Hv.
  cbn [Agents.store Agents.judged].
  set (data1 := {| Sessions.set_captcha := None;
                   Sessions.set_attempts := Some (Sessions.attempts s + 1);
                   Sessions.set_last_attempt := Some now;
                   Sessions.set_generation_count := None |}).
  pose proof (update_lookup now sid data1 _ s Hs Hlive) as H1.
  assert (Hm1 : Sessions.merge s data1 = recorded now s) by reflexivity.
  rewrite Hm1 in H1.
  change (negb (PDict.truthy
                  (PDict.get (GeminiClient.verdict true true explanation rest)
                             "ok"))) with false.
  change (PDict.truthy
            (PDict.get_or (GeminiClient.verdict true true explanation rest)
                          "correct" (PJson (JBool false)))) with true.
  cbv iota. eexists _, _. split; [reflexivity |].
  cbn [Agents.store].
  now rewrite (update_lookup now sid _ _ (recorded now s) H1 Hlive).
Qed.

(** A challenge verifies during the five minutes after it was signed. *)
Lemma issued_verifies (t0 t1 : Q) (sid p : string) :
  (t0 <= t1)%Q -> (t1 <= t0 + 300)%Q ->
  Security.verify_signature HMAC_SECRET t1 sid p
    (Security.sign_payload HMAC_SECRET t0 sid p) = Ok true.
Proof.
  intros Hle Hwin. apply verify_in_window. cbv zeta.
  pose proof (floordiv_mono t0 t1 Security.WINDOW_SECONDS eq_refl Hle).
  pose proof (floordiv_step t0 t1 Security.WINDOW_SECONDS eq_refl Hwin).
  lia.
Qed.

End AgentsFlow.



(** X16: generation and validation compose. An answer submitted at most
    300 seconds after [GeneratorAgent.run] issued a challenge, the
    session being still alive, is judged: [ValidatorAgent.run] finds the
    stored signature valid and the rate limit not reached, whatever the
    number of attempts made before the challenge was issued, and calls
    [verify_with_ai] on the stored challenge and the answer. *)
Theorem issued_challenge_is_judged
        (HMAC_SECRET : string) (R : CaptchaGenerator.Renderer) (t0 t1 : Q)
        (remote0 remote1 : remote_reply) (remote_cid : string)
        (d : GeminiClient.Draws) (sid : string) (ua : json)
        (st : Sessions.InMemorySession) (s : Sessions.Session) (view : json)
        (log : list (json * json)) :
  Sessions.sessions st !! sid = Some s ->
  Sessions.expired t0 s = false ->
  fst (Agents.GeneratorAgent_run HMAC_SECRET R t0 remote0 remote_cid d sid st)
  = Ok view ->
  (t0 <= t1)%Q ->
  (t1 <= t0 + 300)%Q ->
  (t1 - Sessions.created s <= Sessions.SESSION_TTL)%Q ->
  exists items r w',
    view = Agents.client_view items
             (Security.sign_payload HMAC_SECRET t0 sid
                                    (Json.dumps (JDict items)))
    /\ Agents.ValidatorAgent_run HMAC_SECRET t1 remote1 sid ua
         {| Agents.store :=
              snd (Agents.GeneratorAgent_run HMAC_SECRET R t0 remote0
                                             remote_cid d sid st);
            Agents.judged := log |}
       = (Ok r, w')
    /\ Agents.judged w' = (JDict items, ua) :: log
    /\ r <> Agents.no_active_captcha
    /\ r <> Agents.signature_invalid
    /\ r <> Agents.rate_limited.
Proof.
  intros Hs Hlive Hrun Hle Hwin Httl.
  destruct (generator_stores HMAC_SECRET R t0 remote0 remote_cid d sid st s
              view Hs Hlive Hrun)
    as (oracle & base & rui & _ & _ & Hst & Hview).
  cbv zeta in Hst, Hview.
  set (items := Py.dict_set "ui_data" (JDict rui) base) in *.
  set (sig := Security.sign_payload HMAC_SECRET t0 sid
                                    (Json.dumps (JDict items))) in *.
  destruct (validator_judges HMAC_SECRET t1 remote1 sid ua
              {| Agents.store :=
                   snd (Agents.GeneratorAgent_run HMAC_SECRET R t0 remote0
                                                  remote_cid d sid st);
                 Agents.judged := log |}
              (issued t0 s items sig)
              {| Sessions.challenge := JDict items;
                 Sessions.signature := sig;
                 Sessions.captcha_created := t0 |})
    as (r & w' & Hv & Hj & Hr).
  - exact Hst.
  - unfold Sessions.expired. cbn [issued Sessions.created].
    now apply ltb_ge.
  - reflexivity.
  - cbn [Sessions.challenge Sessions.signature].
    now apply issued_verifies.
  - left. cbn [issued Sessions.attempts]. lia.
  - exists items, r, w'.
    split; [exact Hview | split; [exact Hv | split; [exact Hj |]]].
    destruct Hr as [(m & -> & _) | [(e & n & -> & _) | (e & n & -> & _)]];
      repeat split; discriminate.
Qed.

Lemma issued_challenge_is_judged_witness :
  exists items r w',
    Agents.ValidatorAgent_run "secret" 310 NotConfigured "sid" (JStr "solra42")
      sample_world = (Ok r, w')
    /\ Agents.judged w' = [(JDict items, JStr "solra42")]
    /\ r <> Agents.rate_limited.
Proof.
  edestruct (issued_challenge_is_judged "secret" sample_renderer 10 310
               NotConfigured NotConfigured "" (sample_draws "text") "sid"
               (JStr "solra42") sample_store (Sessions.fresh 0))
    as (items & r & w' & _ & Hv & Hj & _ & _ & Hr).
  - vm_compute. reflexivity.
  - vm_compute. reflexivity.
  - vm_compute. reflexivity.
  - vm_compute. discriminate.
  - vm_compute. discriminate.
  - vm_compute. discriminate.
  - exists items, r, w'. split; [exact Hv | split; [exact Hj | exact Hr]].
Defined.

(** X17: the rate limit lapses, the count does not. An answer to a
    challenge whose signature verifies is judged as soon as fewer than
    six attempts are on the session or 60 seconds or more have passed
    since the last one. The attempt is then added to the count, which
    only a correct answer (or a new challenge) resets: once six
    attempts are reached, one answer per minute is judged. *)
Theorem rate_limit_lapses
        (HMAC_SECRET : string) (now : Q) (remote : remote_reply)
        (sid : string) (ua : json) (w : Agents.World)
        (s : Sessions.Session) (c : Sessions.Captcha) :
  Sessions.sessions (Agents.store w) !! sid = Some s ->
  Sessions.expired now s = false ->
  Sessions.captcha s = Some c ->
  Security.verify_signature HMAC_SECRET now sid
    (Json.dumps (Sessions.challenge c)) (Sessions.signature c) = Ok true ->
  Sessions.attempts s < 6 \/ (60 <= now - Sessions.last_attempt s)%Q ->
  exists r w',
    Agents.ValidatorAgent_run HMAC_SECRET now remote sid ua w = (Ok r, w')
    /\ Agents.judged w' = (Sessions.challenge c, ua) :: Agents.judged w
    /\ r <> Agents.rate_limited
    /\ ((exists e n, r = Agents.captcha_correct e n)
        /\ Sessions.sessions (Agents.store w') !! sid = Some (solved now s)
        \/ (forall e n, r <> Agents.captcha_correct e n)
           /\ Sessions.sessions (Agents.store w') !! sid
              = Some (recorded now s)).
Proof.
  intros Hs Hlive Hc Hsig Hrate.
  destruct (validator_judges HMAC_SECRET now remote sid ua w s c Hs Hlive Hc
              Hsig Hrate)
    as (r & w' & Hv & Hj & Hr).
  exists r, w'. split; [exact Hv | split; [exact Hj |]].
  destruct Hr as [(m & -> & H) | [(e & n & -> & H) | (e & n & -> & H)]].
  - split; [discriminate |]. right. split; [discriminate | exact H].
  - split; [discriminate |]. right. split; [discriminate | exact H].
  - split; [discriminate |]. left. split; [eauto | exact H].
Qed.

Lemma rate_limit_lapses_witness :
  let w6 := snd (submit_all "secret" "sid" six_wrong sample_world) in
  exists r w',
    Agents.ValidatorAgent_run "secret" 76 NotConfigured "sid" (JStr "wrong") w6
    = (Ok r, w')
    /\ r <> Agents.rate_limited.
Proof.
  intros w6.
  edestruct (rate_limit_lapses "secret" 76 NotConfigured "sid" (JStr "wrong")
               w6)
    as (r & w' & Hv & _ & Hr & _).
  - vm_compute. reflexivity.
  - vm_compute. reflexivity.
  - vm_compute. reflexivity.
  - vm_compute. reflexivity.
  - right. vm_compute. discriminate.
  - exists r, w'. split; [exact Hv | exact Hr].
Defined.

(** ** Further properties of the local judge *)

Lemma word_compare_same (sol : list (string * json)) (v : json)
      (explanation : string) :
  Py.dict_get "value" sol = Some v ->
  GeminiClient.word_compare (JDict sol) v explanation
  = Ok (GeminiClient.verdict true true explanation
          [("normalized_answer",
            PJson (JStr (PyStr.lower (PyStr.strip (Py.str v)))))]).
Proof.
  intros H. unfold GeminiClient.word_compare. cbn [Py.get]. rewrite H.
  cbn [bind]. now rewrite String.eqb_refl.
Qed.

Lemma local_verify_ui_data (items : list (string * json)) (ui ua : json) :
  GeminiClient.local_verify (JDict (Py.dict_set "ui_data" ui items)) ua
  = GeminiClient.local_verify (JDict items) ua.
Proof.
  unfold GeminiClient.local_verify, GeminiClient.local_heuristics.
  cbn [Py.get]. now rewrite !dict_get_set_ne by discriminate.
Qed.

Lemma local_solvable (d : GeminiClient.Draws) :
  GeminiClient.seq_draw d <> [] ->
  0 <= GeminiClient.tol_draw d ->
  exists items sol explanation rest,
    GeminiClient._local_generate_random_challenge d = JDict items
    /\ Py.dict_get "solution" items = Some (JDict sol)
    /\ GeminiClient.local_verify (JDict items) (answer_of sol)
       = Ok (GeminiClient.verdict true true explanation rest).
Proof.
  intros Hseq Htol. unfold GeminiClient._local_generate_random_challenge.
  cbv zeta.
  assert (Hpoint : GeminiClient.hypot_le 0 0 (GeminiClient.tol_draw d) = true).
  { unfold GeminiClient.hypot_le.
    apply andb_true_intro. split; apply Z.leb_le; nia. }
  repeat match goal with
         | |- context [String.eqb (GeminiClient.ctype_draw d) ?t] =>
             let E := fresh "E" in
             destruct (String.eqb_spec (GeminiClient.ctype_draw d) t)
               as [E | _];
             [rewrite E |]; cbv iota
         end;
    try match goal with
        | |- context [GeminiClient.coin d] => destruct (GeminiClient.coin d)
        | |- context [GeminiClient.color d] =>
            destruct (GeminiClient.color d) as [[r g] b]
        end;
    unfold GeminiClient.challenge_of;
    eexists _, _, _, _;
    (split; [reflexivity |]); (split; [reflexivity |]).
  3: { change (answer_of _) with (JList (map JInt (GeminiClient.seq_draw d))).
       match goal with
       | |- GeminiClient.local_verify ?stored _ = _ =>
           change (GeminiClient.local_verify stored)
             with (GeminiClient.verify_with_ai NotConfigured stored);
           rewrite (pattern_list_answer NotConfigured stored
                      (JDict [("sequence",
                               JList (map JInt (GeminiClient.seq_draw d)))])
                      (GeminiClient.seq_draw d) I eq_refl eq_refl eq_refl Hseq)
       end.
       rewrite bool_decide_true by reflexivity. reflexivity. }
  all: unfold GeminiClient.local_verify, GeminiClient.local_heuristics;
    cbn -[PyStr.lower PyStr.strip GeminiClient._rand_word PyStr.of_Z
          PyStr.join GeminiClient._nearest_color_name
          GeminiClient.hypot_le GeminiClient.to_float Z.sub Z.add Z.mul];
    first [ rewrite String.eqb_refl; reflexivity
          | unfold GeminiClient.image_point, GeminiClient.image_point_body;
            cbn -[GeminiClient.hypot_le GeminiClient.to_float Z.sub];
            rewrite !Z.sub_diag;
            change (GeminiClient.to_float 0) with (Ok 0 : result Z);
            cbn [bind try_except]; rewrite Hpoint; reflexivity ].
Qed.

(** X18: the local generator produces challenges that its own judge
    accepts. For all draws with a non-empty pattern sequence and a
    non-negative click tolerance (the generator draws 3 to 6 steps and
    a tolerance from 12 to 28), the local heuristics judge the answer
    that repeats the stored solution (the sequence, the click target or
    the value, according to the type) as correct. *)
Theorem local_challenge_solvable
        (remote : remote_reply) (d : GeminiClient.Draws) :
  falls_back remote ->
  GeminiClient.seq_draw d <> [] ->
  0 <= GeminiClient.tol_draw d ->
  exists items sol explanation rest,
    GeminiClient._local_generate_random_challenge d = JDict items
    /\ Py.dict_get "solution" items = Some (JDict sol)
    /\ GeminiClient.verify_with_ai remote (JDict items) (answer_of sol)
       = Ok (GeminiClient.verdict true true explanation rest).
Proof.
  intros Hfb Hseq Htol.
  destruct (local_solvable d Hseq Htol)
    as (items & sol & explanation & rest & Hloc & Hsol & Hver).
  exists items, sol, explanation, rest.
  split; [exact Hloc | split; [exact Hsol |]].
  now rewrite verify_with_ai_local.
Qed.

Lemma local_challenge_solvable_witness :
  exists items sol explanation rest,
    GeminiClient._local_generate_random_challenge (sample_draws "pattern")
    = JDict items
    /\ Py.dict_get "solution" items = Some (JDict sol)
    /\ GeminiClient.verify_with_ai RemoteFailed (JDict items) (answer_of sol)
       = Ok (GeminiClient.verdict true true explanation rest).
Proof.
  apply (local_challenge_solvable RemoteFailed (sample_draws "pattern")).
  - exact I.
  - discriminate.
  - vm_compute. discriminate.
Defined.

(** X19: every challenge issued without the remote oracle can be
    solved. When [GeneratorAgent.run] has issued a challenge of the
    local generator (whether it rendered or fell back to the text
    challenge), submitting the stored solution within 300 seconds, the
    session being still alive and the remote oracle silent, is answered
    with [Captcha correct], and the session is left without an active
    challenge and with [attempts] 0. *)
Theorem issued_solution_accepted
        (HMAC_SECRET : string) (R : CaptchaGenerator.Renderer) (t0 t1 : Q)
        (remote0 remote1 : remote_reply) (remote_cid : string)
        (d : GeminiClient.Draws) (sid : string)
        (st : Sessions.InMemorySession) (s : Sessions.Session) (view : json)
        (log : list (json * json)) :
  Sessions.sessions st !! sid = Some s ->
  Sessions.expired t0 s = false ->
  GeminiClient.decide_and_create_challenge remote0 remote_cid d
  = GeminiClient._local_generate_random_challenge d ->
  GeminiClient.seq_draw d <> [] ->
  0 <= GeminiClient.tol_draw d ->
  fst (Agents.GeneratorAgent_run HMAC_SECRET R t0 remote0 remote_cid d sid st)
  = Ok view ->
  (t0 <= t1)%Q ->
  (t1 <= t0 + 300)%Q ->
  (t1 - Sessions.created s <= Sessions.SESSION_TTL)%Q ->
  falls_back remote1 ->
  exists items sol explanation n w',
    let sig := Security.sign_payload HMAC_SECRET t0 sid
                                     (Json.dumps (JDict items)) in
    Sessions.sessions
      (snd (Agents.GeneratorAgent_run HMAC_SECRET R t0 remote0 remote_cid d
                                      sid st)) !! sid
    = Some (issued t0 s items sig)
    /\ Py.dict_get "solution" items = Some (JDict sol)
    /\ Agents.ValidatorAgent_run HMAC_SECRET t1 remote1 sid (answer_of sol)
         {| Agents.store :=
              snd (Agents.GeneratorAgent_run HMAC_SECRET R t0 remote0
                                             remote_cid d sid st);
            Agents.judged := log |}
       = (Ok (Agents.captcha_correct (PJson (JStr explanation)) n), w')
    /\ Sessions.sessions (Agents.store w') !! sid
       = Some (solved t1 (issued t0 s items sig)).
Proof.
  intros Hs Hlive Hdec Hseq Htol Hrun Hle Hwin Httl Hfb.
  destruct (generator_stores HMAC_SECRET R t0 remote0 remote_cid d sid st s
              view Hs Hlive Hrun)
    as (oracle & base & rui & Horacle & Hbase & Hst & _).
  cbv zeta in Hst.
  destruct (local_solvable d Hseq Htol)
    as (items0 & sol0 & expl0 & rest0 & Hloc & Hsol0 & Hver0).
  assert (items0 = oracle) as -> by congruence.
  set (items := Py.dict_set "ui_data" (JDict rui) base) in *.
  set (sig := Security.sign_payload HMAC_SECRET t0 sid
                                    (Json.dumps (JDict items))) in *.
  assert (Hsolved :
            exists sol explanation rest,
              Py.dict_get "solution" items = Some (JDict sol)
              /\ GeminiClient.verify_with_ai remote1 (JDict items)
                   (answer_of sol)
                 = Ok (GeminiClient.verdict true true explanation rest)).
  { unfold items. destruct Hbase as [-> | [e ->]].
    - exists sol0, expl0, rest0.
      rewrite dict_get_set_ne by discriminate. split; [exact Hsol0 |].
      now rewrite verify_with_ai_local, local_verify_ui_data.
    - eexists [("value", JStr (Agents.fallback_word t0))], _, _.
      rewrite dict_get_set_ne by discriminate. split; [reflexivity |].
      rewrite verify_with_ai_local, local_verify_ui_data by exact Hfb.
      exact (fallback_solvable t0 oracle e). }
  destruct Hsolved as (sol & explanation & rest & Hsol & Hver).
  destruct (validator_accepts HMAC_SECRET t1 remote1 sid (answer_of sol)
              {| Agents.store :=
                   snd (Agents.GeneratorAgent_run HMAC_SECRET R t0 remote0
                                                  remote_cid d sid st);
                 Agents.judged := log |}
              (issued t0 s items sig)
              {| Sessions.challenge := JDict items;
                 Sessions.signature := sig;
                 Sessions.captcha_created := t0 |}
              explanation rest)
    as (n & w' & Hv & Hw').
  - exact Hst.
  - unfold Sessions.expired. cbn [issued Sessions.created].
    now apply ltb_ge.
  - reflexivity.
  - cbn [Sessions.challenge Sessions.signature].
    now apply issued_verifies.
  - left. cbn [issued Sessions.attempts]. lia.
  - exact Hver.
  - exists items, sol, explanation, n, w'. cbv zeta.
    split; [exact Hst | split; [exact Hsol | split; [exact Hv | exact Hw']]].
Qed.

Lemma issued_solution_accepted_witness :
  exists items sol explanation n w',
    Py.dict_get "solution" items = Some (JDict sol)
    /\ Agents.ValidatorAgent_run "secret" 200 RemoteFailed "sid" (answer_of sol)
         {| Agents.store := snd (issue "audio"); Agents.judged := [] |}
       = (Ok (Agents.captcha_correct (PJson (JStr explanation)) n), w')
    /\ Sessions.sessions (Agents.store w') !! "sid"
       = Some (solved 200
                 (issued 10 (Sessions.fresh 0) items
                    (Security.sign_payload "secret" 10 "sid"
                                           (Json.dumps (JDict items))))).
Proof.
  edestruct (issued_solution_accepted "secret" sample_renderer 10 200
               NotConfigured RemoteFailed "" (sample_draws "audio") "sid"
               sample_store (Sessions.fresh 0))
    as (items & sol & explanation & n & w' & _ & Hsol & Hv & Hw').
  - vm_compute. reflexivity.
  - vm_compute. reflexivity.
  - reflexivity.
  - discriminate.
  - vm_compute. discriminate.
  - vm_compute. reflexivity.
  - vm_compute. discriminate.
  - vm_compute. discriminate.
  - vm_compute. discriminate.
  - exact I.
  - exists items, sol, explanation, n, w'.
    split; [exact Hsol | split; [exact Hv | exact Hw']].
Defined.

(** X20: an unknown session is an error reply, not an exception. On an
    identifier that is not in the table [GeneratorAgent.run] replies
    [{"error": "invalid-session"}] and [ValidatorAgent.run] replies
    [No active captcha]; neither creates a session, changes the table
    or consults the oracle. A session that has no challenge (new, or
    just solved) gets the same reply from the validator. *)
Theorem unknown_session_replies
        (HMAC_SECRET : string) (R : CaptchaGenerator.Renderer) (now : Q)
        (remote : remote_reply) (remote_cid : string) (d : GeminiClient.Draws)
        (sid : string) (ua : json) (w : Agents.World) :
  (Sessions.sessions (Agents.store w) !! sid = None ->
   Agents.GeneratorAgent_run HMAC_SECRET R now remote remote_cid d sid
                             (Agents.store w)
   = (Ok (JDict [("error", JStr "invalid-session")]), Agents.store w)
   /\ Agents.ValidatorAgent_run HMAC_SECRET now remote sid ua w
      = (Ok Agents.no_active_captcha, w))
  /\ (forall s,
        Sessions.sessions (Agents.store w) !! sid = Some s ->
        Sessions.expired now s = false ->
        Sessions.captcha s = None ->
        Agents.ValidatorAgent_run HMAC_SECRET now remote sid ua w
        = (Ok Agents.no_active_captcha, w)).
Proof.
  split.
  - intros Hnone.
    unfold Agents.GeneratorAgent_run, Agents.ValidatorAgent_run.
    rewrite (get_absent now sid _ Hnone), world_eta. split; reflexivity.
  - intros s Hs Hlive Hc. unfold Agents.ValidatorAgent_run.
    now rewrite (get_live now sid _ s Hs Hlive), world_eta, Hc.
Qed.

Lemma unknown_session_replies_witness :
  Agents.ValidatorAgent_run "secret" 5 NotConfigured "sid" (JStr "x")
    {| Agents.store := sample_store; Agents.judged := [] |}
  = (Ok Agents.no_active_captcha,
     {| Agents.store := sample_store; Agents.judged := [] |}).
Proof.
  apply (proj2 (unknown_session_replies "secret" sample_renderer 5
                  NotConfigured "" (sample_draws "text") "sid" (JStr "x")
                  {| Agents.store := sample_store; Agents.judged := [] |})
           (Sessions.fresh 0)).
  - vm_compute. reflexivity.
  - vm_compute. reflexivity.
  - reflexivity.
Defined.

(** X21: the reply of the remote generator is not checked to be an
    object. A reply that is a JSON array passes the two membership
    tests when it holds the strings ["captcha_id"] and
    ["captcha_type"]: it is returned as the challenge and
    [GeneratorAgent.run] raises [AttributeError] on a live session,
    storing nothing. An array that lacks one of the two strings fails
    at the item assignment, which is caught: the challenge is the
    locally generated one. *)
Theorem array_reply_raises
        (HMAC_SECRET : string) (R : CaptchaGenerator.Renderer) (now : Q)
        (l : list json) (remote_cid : string) (d : GeminiClient.Draws)
        (sid : string) (st : Sessions.InMemorySession)
        (s : Sessions.Session) :
  Sessions.sessions st !! sid = Some s ->
  Sessions.expired now s = false ->
  (Py.list_mem (JStr "captcha_id") l
   && Py.list_mem (JStr "captcha_type") l = true ->
   Agents.GeneratorAgent_run HMAC_SECRET R now (Replied (JList l)) remote_cid
                             d sid st
   = (Raise (AttributeError "'list' object has no attribute 'get'"), st))
  /\ (Py.list_mem (JStr "captcha_id") l
      && Py.list_mem (JStr "captcha_type") l = false ->
      GeminiClient.decide_and_create_challenge (Replied (JList l)) remote_cid d
      = GeminiClient._local_generate_random_challenge d).
Proof.
  intros Hs Hlive. split; intros Hmem.
  - apply andb_prop in Hmem. destruct Hmem as [Hid Hty].
    unfold Agents.GeneratorAgent_run.
    rewrite (get_live now sid st s Hs Hlive).
    unfold GeminiClient.decide_and_create_challenge.
    cbn [Py.contains bind]. rewrite Hid. cbn [bind Py.contains].
    rewrite Hty. reflexivity.
  - unfold GeminiClient.decide_and_create_challenge.
    cbn [Py.contains bind].
    destruct (Py.list_mem (JStr "captcha_id") l); [| reflexivity].
    cbn [bind Py.contains].
    destruct (Py.list_mem (JStr "captcha_type") l); [discriminate Hmem |].
    reflexivity.
Qed.

Lemma array_reply_raises_witness :
  Agents.GeneratorAgent_run "secret" sample_renderer 10
    (Replied (JList [JStr "captcha_type"; JInt 1; JStr "captcha_id"])) ""
    (sample_draws "text") "sid" sample_store
  = (Raise (AttributeError "'list' object has no attribute 'get'"),
     sample_store).
Proof.
  apply (proj1 (array_reply_raises "secret" sample_renderer 10
                  [JStr "captcha_type"; JInt 1; JStr "captcha_id"] ""
                  (sample_draws "text") "sid" sample_store (Sessions.fresh 0)
                  ltac:(vm_compute; reflexivity)
                  ltac:(vm_compute; reflexivity))).
  reflexivity.
Defined.

(** X22: how a typed answer is compared. For the types text, math,
    audio and color, and for an image whose solution has no click
    target, the local judge compares the stored value and the typed
    answer, both ASCII strings, after [strip] and [lower] and nothing
    else: the answer is correct exactly when the two normal forms are
    equal. A solution without [value] counts as the empty string, so
    that a blank answer is then correct. *)
Theorem typed_answer_policy
        (remote : remote_reply) (items sol : list (string * json))
        (ty value answer : string) :
  falls_back remote ->
  Py.dict_get "captcha_type" items = Some (JStr ty) ->
  Py.dict_get "solution" items = Some (JDict sol) ->
  In ty ["text"; "math"; "audio"; "color"]
  \/ (ty = "image"
      /\ (Py.dict_get "x" sol = None \/ Py.dict_get "y" sol = None)) ->
  default (JStr "") (Py.dict_get "value" sol) = JStr value ->
  forallb PyStr.is_ascii (PyStr.chars value) = true ->
  forallb PyStr.is_ascii (PyStr.chars answer) = true ->
  let expected := PyStr.lower (PyStr.strip value) in
  let provided := PyStr.lower (PyStr.strip answer) in
  exists explanation,
    GeminiClient.verify_with_ai remote (JDict items) (JStr answer)
    = Ok (GeminiClient.verdict true (String.eqb expected provided) explanation
            [("normalized_answer", PJson (JStr provided))]).
Proof.
  intros Hfb Hty Hsol Hkind Hvalue _ _ expected provided.
  rewrite verify_with_ai_local by exact Hfb.
  unfold GeminiClient.local_verify, GeminiClient.local_heuristics.
  cbn [Py.get]. rewrite Hty, Hsol. cbn [bind].
  assert (Hword : forall explanation,
             GeminiClient.word_compare (JDict sol) (JStr answer) explanation
             = Ok (GeminiClient.verdict true (String.eqb expected provided)
                     explanation
                     [("normalized_answer", PJson (JStr provided))])).
  { intros explanation. unfold GeminiClient.word_compare. cbn [Py.get bind].
    change (match Py.dict_get "value" sol with
            | Some x => x
            | None => JStr ""
            end) with (default (JStr "") (Py.dict_get "value" sol)).
    now rewrite Hvalue. }
  destruct Hkind as [Hin | [-> Hxy]].
  - cbn [In] in Hin.
    destruct Hin as [<- | [<- | [<- | [<- | []]]]];
      eexists; cbn -[GeminiClient.word_compare]; rewrite Hword; reflexivity.
  - eexists. cbn -[GeminiClient.word_compare Py.dict_has].
    unfold Py.dict_has.
    destruct Hxy as [-> | Hy].
    + cbn -[GeminiClient.word_compare]. rewrite Hword. reflexivity.
    + rewrite Hy. destruct (Py.dict_get "x" sol);
        cbn -[GeminiClient.word_compare]; rewrite Hword; reflexivity.
Qed.

Lemma typed_answer_policy_witness :
  exists explanation,
    GeminiClient.verify_with_ai NotConfigured
      (JDict [("captcha_type", JStr "math"); ("solution", JDict [])])
      (JStr "  ")
    = Ok (GeminiClient.verdict true true explanation
            [("normalized_answer", PJson (JStr ""))]).
Proof.
  apply (typed_answer_policy NotConfigured
           [("captcha_type", JStr "math"); ("solution", JDict [])] []
           "math" "" "  " I eq_refl eq_refl);
    [left; cbn [In]; right; now left | reflexivity ..].
Defined.

Section ClickAnswers.

Variables (remote : remote_reply) (stored sol : json) (tx ty tol : Z).
Hypothesis Hlocal : falls_back remote.
Hypothesis Htype : Py.get stored "captcha_type" JNull = Ok (JStr "image").
Hypothesis Hsol : Py.get stored "solution" (JDict []) = Ok sol.
Hypothesis Hx : Py.get sol "x" JNull = Ok (JInt tx).
Hypothesis Hy : Py.get sol "y" JNull = Ok (JInt ty).
Hypothesis Htol : Py.get sol "tolerance" (JInt 18) = Ok (JInt tol).

(** The judge of a click target, once the target has been read. *)
Lemma click_judge (ua : json) :
  GeminiClient.verify_with_ai remote stored ua
  = try_except
      (let finish (ux uy : Z) : result pdict :=
         try! dx := GeminiClient.to_float (ux - tx) in
         try! dy := GeminiClient.to_float (uy - ty) in
         Ok (GeminiClient.verdict true (GeminiClient.hypot_le dx dy tol)
               "fallback-point" [("normalized_answer", PDistance dx dy)]) in
       match ua with
       | JDict _ =>
           try! jux := Py.get ua "x" (JInt (-9999)) in
           try! ux := Py.int jux in
           try! juy := Py.get ua "y" (JInt (-9999)) in
           try! uy := Py.int juy in
           finish ux uy
       | JList (e0 :: e1 :: _) =>
           try! ux := Py.int e0 in
           try! uy := Py.int e1 in
           finish ux uy
       | _ =>
           Ok (GeminiClient.verdict true false "fallback-bad-input-for-image"
                 [])
       end)
      (fun ex =>
         Ok (GeminiClient.verdict false false "fallback-exception-image"
               [("error", PJson (JStr (exn_str ex)))])).
Proof.
  rewrite verify_with_ai_local by exact Hlocal.
  unfold GeminiClient.local_verify, GeminiClient.local_heuristics.
  rewrite Htype, Hsol. cbn [bind].
  change (Py.list_mem (JStr "image") _) with false.
  change (Py.eq (JStr "image") (JStr "pattern")) with false.
  change (Py.eq (JStr "image") (JStr "image")) with true.
  cbv iota.
  destruct (has_coordinates stored sol tx ty tol Hsol Hx Hy Htol) as [-> ->].
  cbn [bind andb].
  unfold GeminiClient.image_point, GeminiClient.image_point_body.
  rewrite Hx, Hy, Htol. cbn [bind Py.int].
  match goal with
  | |- try_except (try_except ?body _) _ = _ => destruct body; reflexivity
  end.
Qed.

End ClickAnswers.

(** X23: what the judge of a click target does with an answer that is
    not a point. An answer that is neither a dictionary nor a list of
    two or more elements (a string, a number, null, a shorter list) is
    judged incorrect, as an attempt like any other. A dictionary that
    lacks a coordinate is judged as the same dictionary with -9999 for
    it. A coordinate that [int] refuses (null, a list, an ASCII string
    that is no numeral) ends the judgement with [ok] false, the
    explanation [fallback-exception-image] and the error text. *)
Theorem click_answer_edges
        (remote : remote_reply) (stored sol : json) (tx ty tol : Z) :
  falls_back remote ->
  Py.get stored "captcha_type" JNull = Ok (JStr "image") ->
  Py.get stored "solution" (JDict []) = Ok sol ->
  Py.get sol "x" JNull = Ok (JInt tx) ->
  Py.get sol "y" JNull = Ok (JInt ty) ->
  Py.get sol "tolerance" (JInt 18) = Ok (JInt tol) ->
  (forall ua,
     match ua with
     | JDict _ | JList (_ :: _ :: _) => False
     | _ => True
     end ->
     GeminiClient.verify_with_ai remote stored ua
     = Ok (GeminiClient.verdict true false "fallback-bad-input-for-image" []))
  /\ (forall a k,
        k = "x" \/ k = "y" ->
        Py.dict_get k a = None ->
        GeminiClient.verify_with_ai remote stored (JDict a)
        = GeminiClient.verify_with_ai remote stored
            (JDict (Py.dict_set k (JInt (-9999)) a)))
  /\ (forall a x e,
        default (JInt (-9999)) (Py.dict_get "x" a) = x ->
        match x with
        | JStr s => forallb PyStr.is_ascii (PyStr.chars s) = true
        | _ => True
        end ->
        Py.int x = Raise e ->
        GeminiClient.verify_with_ai remote stored (JDict a)
        = Ok (GeminiClient.verdict false false "fallback-exception-image"
                [("error", PJson (JStr (exn_str e)))])).
Proof.
  intros Hlocal Htype Hsol Hx Hy Htol.
  pose proof (click_judge remote stored sol tx ty tol Hlocal Htype Hsol Hx Hy
                Htol) as Hjudge.
  split; [| split].
  - intros ua Hua. rewrite Hjudge.
    destruct ua as [| | | | [| e0 [| e1 l]] | a]; try contradiction;
      reflexivity.
  - intros a k Hk Hnone. rewrite !Hjudge. cbn [Py.get].
    destruct Hk as [-> | ->].
    + rewrite Hnone, dict_get_set_eq.
      now rewrite (dict_get_set_ne "x" "y") by discriminate.
    + rewrite Hnone, dict_get_set_eq.
      now rewrite (dict_get_set_ne "y" "x") by discriminate.
  - intros a x e Hxa _ He. rewrite Hjudge. cbn [Py.get bind].
    change (match Py.dict_get "x" a with
            | Some x => x
            | None => JInt (-9999)
            end) with (default (JInt (-9999)) (Py.dict_get "x" a)).
    rewrite Hxa, He. reflexivity.
Qed.

Lemma click_answer_edges_witness :
  GeminiClient.verify_with_ai NotConfigured target_100_100_15
    (JDict [("x", JStr "abc"); ("y", JInt 100)])
  = Ok (GeminiClient.verdict false false "fallback-exception-image"
          [("error",
            PJson (JStr "invalid literal for int() with base 10: 'abc'"))]).
Proof.
  apply (proj2 (proj2 (click_answer_edges NotConfigured target_100_100_15
                         (JDict [("x", JInt 100); ("y", JInt 100);
                                 ("tolerance", JInt 15)])
                         100 100 15 I eq_refl eq_refl eq_refl eq_refl eq_refl))
           [("x", JStr "abc"); ("y", JInt 100)] (JStr "abc")
           (ValueError "invalid literal for int() with base 10: 'abc'"));
    reflexivity.
Defined.

(** X24: a reply of the remote judge that is a JSON object is final.
    The verdict is built from the reply alone, whatever the stored
    challenge and the answer are: [ok] is true and [correct] is the
    truth value of the reply's [correct], so that a non-empty string
    (["false"] included) or a non-zero number counts as correct. The
    local heuristics are not consulted. *)
Theorem remote_verdict_is_final
        (data : list (string * json)) (stored ua : json) :
  let v := [ ("ok", PJson (JBool true));
             ("correct",
              PJson (JBool (Py.truthy (default (JBool false)
                                               (Py.dict_get "correct" data)))));
             ("explanation",
              PJson (default (JStr "") (Py.dict_get "explanation" data)));
             ("normalized",
              PJson (default JNull (Py.dict_get "normalized_answer" data))) ] in
  GeminiClient.verify_with_ai (Replied (JDict data)) stored ua = Ok v
  /\ (forall s, s <> "" ->
        Py.dict_get "correct" data = Some (JStr s) ->
        PDict.lookup "correct" v = Some (PJson (JBool true))).
Proof.
  cbv zeta. split.
  - unfold GeminiClient.verify_with_ai, GeminiClient.remote_verify.
    cbn [Py.get bind try_except].
    destruct (Py.dict_get "correct" data),
             (Py.dict_get "explanation" data),
             (Py.dict_get "normalized_answer" data); reflexivity.
  - intros s Hs ->. cbn [default PDict.lookup Py.truthy].
    cbn. destruct (String.eqb_spec s ""); [contradiction | reflexivity].
Qed.

Lemma remote_verdict_is_final_witness :
  exists v,
    GeminiClient.verify_with_ai (Replied (JDict [("correct", JStr "false")]))
      target_100_100_15 JNull = Ok v
    /\ PDict.lookup "correct" v = Some (PJson (JBool true)).
Proof.
  pose proof (remote_verdict_is_final [("correct", JStr "false")]
                target_100_100_15 JNull) as H.
  cbv zeta in H. destruct H as [Hv Hc].
  eexists. split; [exact Hv |].
  apply (Hc "false"); [discriminate | reflexivity].
Defined.

(** ** Further properties of the pattern UI *)

Lemma list_mem_strings (x : string) (l : list string) :
  Py.list_mem (JStr x) (map JStr l) = true <-> In x l.
Proof.
  unfold Py.list_mem. rewrite existsb_exists. split.
  - intros (y & Hin & Heq). apply in_map_iff in Hin.
    destruct Hin as (z & <- & Hz). cbn [Py.eq] in Heq.
    apply String.eqb_eq in Heq. now subst.
  - intros Hin. exists (JStr x). split; [now apply in_map |].
    cbn [Py.eq]. apply String.eqb_refl.
Qed.

Lemma add_uniq_new (acc : list string) (x : string) :
  ~ In x acc ->
  CaptchaGenerator.add_uniq (map JStr acc) (JStr x)
  = map JStr (acc ++ [x])%list.
Proof.
  intros Hnew. unfold CaptchaGenerator.add_uniq.
  destruct (Py.list_mem (JStr x) (map JStr acc)) eqn:E.
  - apply list_mem_strings in E. contradiction.
  - now rewrite map_app.
Qed.

Lemma add_uniq_old (acc : list string) (x : string) :
  In x acc ->
  CaptchaGenerator.add_uniq (map JStr acc) (JStr x) = map JStr acc.
Proof.
  intros Hold. unfold CaptchaGenerator.add_uniq.
  now rewrite (proj2 (list_mem_strings x acc) Hold).
Qed.

Lemma fold_add_uniq_distinct (l acc : list string) :
  List.NoDup (acc ++ l)%list ->
  fold_left CaptchaGenerator.add_uniq (map JStr l) (map JStr acc)
  = map JStr (acc ++ l)%list.
Proof.
  revert acc. induction l as [| x l IH]; intros acc Hnd.
  - now rewrite app_nil_r.
  - cbn [map fold_left]. rewrite add_uniq_new.
    + rewrite IH; rewrite <- app_assoc; [reflexivity | exact Hnd].
    + intros Hin. apply List.NoDup_remove_2 in Hnd. apply Hnd.
      apply in_or_app. now left.
Qed.

Lemma fold_add_uniq_repeat (l acc : list string) :
  (forall x, In x l -> In x acc) ->
  fold_left CaptchaGenerator.add_uniq (map JStr l) (map JStr acc)
  = map JStr acc.
Proof.
  induction l as [| x l IH]; intros Hall; [reflexivity |].
  cbn [map fold_left]. rewrite add_uniq_old by (apply Hall; now left).
  apply IH. intros y Hy. apply Hall. now right.
Qed.

Lemma existsb_eqb_in (b : string) (u : list string) :
  existsb (String.eqb b) u = true <-> In b u.
Proof.
  rewrite existsb_exists. split.
  - intros (x & Hin & Heq). apply String.eqb_eq in Heq. now subst.
  - intros Hin. exists b. split; [exact Hin | apply String.eqb_refl].
Qed.

Lemma expand_fills (letters u : list string) :
  List.NoDup letters ->
  (List.length u < 8)%nat ->
  CaptchaGenerator.expand (map JStr u) (map JStr letters)
  = map JStr
      (u ++ firstn (8 - List.length u)
                   (List.filter (fun b => negb (existsb (String.eqb b) u)) letters)).
Proof.
  revert u. induction letters as [| b rest IH]; intros u Hnd Hlen.
  - cbn [map CaptchaGenerator.expand List.filter]. now rewrite firstn_nil, app_nil_r.
  - inversion Hnd as [| ? ? Hb Hrest]; subst.
    cbn [map CaptchaGenerator.expand List.filter].
    destruct (existsb (String.eqb b) u) eqn:E; cbn [negb].
    + apply existsb_eqb_in in E. rewrite add_uniq_old by exact E.
      rewrite length_map.
      destruct (Nat.leb_spec 8 (List.length u)) as [H8 | _]; [lia |].
      now apply IH.
    + assert (Hnew : ~ In b u).
      { intros Hin. apply existsb_eqb_in in Hin. congruence. }
      rewrite add_uniq_new by exact Hnew.
      rewrite length_map, List.length_app. cbn [List.length].
      destruct (8 - List.length u)%nat as [| k] eqn:Hk; [lia |].
      cbn [firstn].
      destruct (Nat.leb_spec 8 (List.length u + 1)) as [H8 | H8].
      * assert (k = 0%nat) as -> by lia. reflexivity.
      * rewrite IH; [| exact Hrest | rewrite List.length_app; cbn; lia].
        rewrite List.length_app. cbn [List.length].
        replace (8 - (List.length u + 1))%nat with k by lia.
        rewrite <- app_assoc. cbn [app]. do 4 f_equal.
        apply List.filter_ext_in. intros x Hx.
        rewrite existsb_app. cbn [existsb].
        destruct (String.eqb_spec x b) as [-> | _]; [contradiction |].
        now rewrite !orb_false_r.
Qed.

(** X25: what [prepare_pattern_ui] shows. Given pairwise distinct
    labels it returns them in the same order: unchanged when there are
    four or more; followed, when there are fewer, by the letters of [A]
    to [H] that are not among them, in order, until eight shapes are
    shown. The indices of a stored sequence thus still point at the
    same shapes. A label that occurs again later in the list is dropped
    there, which shifts the shapes after it. *)
Theorem pattern_ui_keeps_distinct_shapes (shapes : list string) :
  List.NoDup shapes ->
  CaptchaGenerator.prepare_pattern_ui (JList (map JStr shapes))
  = Ok [ ("shapes",
          JList (map JStr (if (List.length shapes <? 4)%nat
                           then shapes ++ fillers shapes else shapes)));
         ("hint",
          JStr "Click the shapes in the order requested. Tap each shape once.") ]
  /\ ((List.length shapes < 4)%nat ->
      List.length (shapes ++ fillers shapes) = 8%nat)
  /\ (forall again,
        (forall x, In x again -> In x shapes) ->
        CaptchaGenerator.prepare_pattern_ui
          (JList (map JStr (shapes ++ again)))
        = CaptchaGenerator.prepare_pattern_ui (JList (map JStr shapes))).
Proof.
  intros Hnd.
  assert (Hfold : fold_left CaptchaGenerator.add_uniq (map JStr shapes) []
                  = map JStr shapes)
    by exact (fold_add_uniq_distinct shapes [] Hnd).
  split; [| split].
  - unfold CaptchaGenerator.prepare_pattern_ui.
    cbn [CaptchaGenerator.iterate bind]. rewrite Hfold.
    rewrite length_map.
    destruct (Nat.ltb_spec (List.length shapes) 4) as [Hlt | Hge];
      [| reflexivity].
    change CaptchaGenerator.base
      with (map JStr ["A"; "B"; "C"; "D"; "E"; "F"; "G"; "H"]).
    rewrite expand_fills; [reflexivity | | lia].
    repeat constructor; cbn; intuition discriminate.
  - intros Hlt. rewrite List.length_app. unfold fillers.
    rewrite length_firstn.
    set (letters := ["A"; "B"; "C"; "D"; "E"; "F"; "G"; "H"]).
    set (fresh := fun b => negb (existsb (String.eqb b) shapes)).
    assert (Hletters : List.NoDup letters)
      by (repeat constructor; cbn; intuition discriminate).
    pose proof (List.filter_length fresh letters) as Hsplit.
    assert (Hold : (List.length (List.filter (fun x => negb (fresh x)) letters)
                    <= List.length shapes)%nat).
    { apply List.NoDup_incl_length.
      - now apply List.NoDup_filter.
      - intros x Hx. apply List.filter_In in Hx. destruct Hx as [_ Hx].
        subst fresh. cbv beta in Hx. rewrite negb_involutive in Hx.
        now apply existsb_eqb_in. }
    change (List.length letters) with 8%nat in Hsplit. lia.
  - intros again Hagain. unfold CaptchaGenerator.prepare_pattern_ui.
    cbn [CaptchaGenerator.iterate bind].
    rewrite map_app, fold_left_app, Hfold.
    now rewrite (fold_add_uniq_repeat again shapes Hagain).
Qed.

Lemma pattern_ui_keeps_distinct_shapes_witness :
  CaptchaGenerator.prepare_pattern_ui (JList [JStr "B"; JStr "x"])
  = Ok [ ("shapes",
          JList (map JStr ["B"; "x"; "A"; "C"; "D"; "E"; "F"; "G"]));
         ("hint",
          JStr "Click the shapes in the order requested. Tap each shape once.") ].
Proof.
  apply (proj1 (pattern_ui_keeps_distinct_shapes ["B"; "x"]
                  ltac:(repeat constructor; cbn; intuition discriminate))).
Defined.
